(** * BIST100 direction pipeline: feature building, lag analysis, selection, serving

    A shallow embedding of the data-preparation, lag-correlation, model
    selection and serving code (data.py, data_collector.py, model.py,
    model_trainer.py, app.py), together with the properties stated about
    them.

    Numbers.  A float cell is either NaN, an infinity, or a finite value;
    finite values are rationals and arithmetic on them is exact (rounding and
    signed zeros are not modelled).  The only operation that leaves the
    rationals, the square root, is a parameter of the definitions that use
    it. *)

From Stdlib Require Import String Ascii DecimalString DecimalNat.
From Stdlib Require Import ZArith QArith Qround Lia Lqa Bool Arith List.
Import ListNotations.
Close Scope Q_scope.
Close Scope Z_scope.
Open Scope nat_scope.
Open Scope list_scope.

Set Implicit Arguments.

(* ===================================================================== *)
(** * The pandas fragment the code relies on *)
(* ===================================================================== *)

Module pd.

(** ** Cells *)

Inductive cell : Type :=
| NaN
| PInf
| NInf
| Num (q : Q).

Definition isna (c : cell) : bool :=
  match c with NaN => true | _ => false end.

Definition notna (c : cell) : bool := negb (isna c).

Definition isfinite (c : cell) : bool :=
  match c with Num _ => true | _ => false end.

Definition Qltb (x y : Q) : bool := negb (Qle_bool y x).

(** [a > b] on floats: false as soon as one side is NaN. *)
Definition cell_gtb (a b : cell) : bool :=
  match a, b with
  | NaN, _ | _, NaN => false
  | PInf, PInf => false
  | PInf, _ => true
  | NInf, _ => false
  | Num _, PInf => false
  | Num _, NInf => true
  | Num x, Num y => Qltb y x
  end.

Definition cell_neg (a : cell) : cell :=
  match a with
  | NaN => NaN
  | PInf => NInf
  | NInf => PInf
  | Num x => Num (- x)
  end.

Definition cell_add (a b : cell) : cell :=
  match a, b with
  | NaN, _ | _, NaN => NaN
  | PInf, NInf | NInf, PInf => NaN
  | PInf, _ | _, PInf => PInf
  | NInf, _ | _, NInf => NInf
  | Num x, Num y => Num (x + y)
  end.

Definition cell_sub (a b : cell) : cell := cell_add a (cell_neg b).

Definition cell_mul (a b : cell) : cell :=
  match a, b with
  | NaN, _ | _, NaN => NaN
  | Num x, Num y => Num (x * y)
  | Num x, PInf | PInf, Num x =>
      if Qeq_bool x 0 then NaN else if Qltb 0 x then PInf else NInf
  | Num x, NInf | NInf, Num x =>
      if Qeq_bool x 0 then NaN else if Qltb 0 x then NInf else PInf
  | PInf, PInf | NInf, NInf => PInf
  | PInf, NInf | NInf, PInf => NInf
  end.

(** [a / b]; a finite value over zero is an infinity, zero over zero and
    infinity over infinity are NaN. *)
Definition cell_div (a b : cell) : cell :=
  match a, b with
  | NaN, _ | _, NaN => NaN
  | Num x, Num y =>
      if Qeq_bool y 0
      then (if Qeq_bool x 0 then NaN else if Qltb 0 x then PInf else NInf)
      else Num (x / y)
  | Num _, (PInf | NInf) => Num 0
  | PInf, Num y => if Qltb y 0 then NInf else PInf
  | NInf, Num y => if Qltb y 0 then PInf else NInf
  | (PInf | NInf), (PInf | NInf) => NaN
  end.

(** ** Columns of values *)

(** Dates are day numbers. *)
Abbreviation date := Z (only parsing).

(** [values.shift(k)] for [k >= 0]: [k] leading NaN, the tail cut off. *)
Definition shift (k : nat) (v : list cell) : list cell :=
  firstn (length v) (repeat NaN k ++ v).

(** [ffill]: a NaN takes the last value seen above it. *)
Fixpoint ffill_from (last : cell) (v : list cell) : list cell :=
  match v with
  | [] => []
  | c :: r =>
      let c' := if isna c then last else c in
      c' :: ffill_from c' r
  end.

Definition ffill (v : list cell) : list cell := ffill_from NaN v.

(** [bfill]: a NaN takes the next value below it. *)
Fixpoint bfill (v : list cell) : list cell :=
  match v with
  | [] => []
  | c :: r =>
      let r' := bfill r in
      (if isna c then hd NaN r' else c) :: r'
  end.

Fixpoint map2 {A B C} (f : A -> B -> C) (l : list A) (m : list B) : list C :=
  match l, m with
  | a :: l', b :: m' => f a b :: map2 f l' m'
  | _, _ => []
  end.

(** [pct_change()] on one column, with the default [fill_method='pad']:
    [data = ffill(v); data / data.shift(1) - 1]. *)
Definition pct_change_values (v : list cell) : list cell :=
  let data := ffill v in
  map2 (fun cur prev => cell_sub (cell_div cur prev) (Num 1)) data (shift 1 data).

(** ** Series: a column with its date index *)

Definition Series := list (date * cell).

Definition s_index (s : Series) : list date := map fst s.
Definition s_values (s : Series) : list cell := map snd s.

Definition s_shift (k : nat) (s : Series) : Series :=
  combine (s_index s) (shift k (s_values s)).

Definition s_dropna (s : Series) : Series :=
  filter (fun r => notna (snd r)) s.

Definition mem_date (d : date) (l : list date) : bool :=
  existsb (Z.eqb d) l.

Fixpoint unique (l : list date) : list date :=
  match l with
  | [] => []
  | d :: r => d :: filter (fun e => negb (Z.eqb d e)) (unique r)
  end.

(** [Index.intersection]: the labels of the left index that occur in the
    right one, each once, in the order of the left index. *)
Definition intersection (a b : list date) : list date :=
  unique (filter (fun d => mem_date d b) a).

(** [obj.loc[labels]]: for each label in turn, the rows carrying it. *)
Definition loc {A} (labels : list date) (rows : list (date * A)) : list (date * A) :=
  flat_map (fun d => filter (fun r => Z.eqb (fst r) d) rows) labels.

(** ** Data frames, column-major *)

Record DataFrame : Type := mkDF {
  index : list date;
  columns : list (string * list cell)
}.

Definition empty_frame : DataFrame := mkDF [] [].

Definition nrows (df : DataFrame) : nat := length (index df).
Definition column_names (df : DataFrame) : list string := map fst (columns df).

Fixpoint lookup {A} (name : string) (cols : list (string * A)) : option A :=
  match cols with
  | [] => None
  | (n, v) :: r => if String.eqb n name then Some v else lookup name r
  end.

(** [df[name] = values]: replaces a column of that name, else appends. *)
Fixpoint set_column {A} (name : string) (v : A) (cols : list (string * A))
  : list (string * A) :=
  match cols with
  | [] => [(name, v)]
  | (n, w) :: r =>
      if String.eqb n name then (n, v) :: r else (n, w) :: set_column name v r
  end.

Definition row_has_na (cols : list (string * list cell)) (i : nat) : bool :=
  existsb (fun c => isna (nth i (snd c) NaN)) cols.

Definition take_rows {A} (d : A) (keep : list nat) (v : list A) : list A :=
  map (fun i => nth i v d) keep.

(** [df.iloc[keep]]: the rows at the given positions. *)
Definition iloc (keep : list nat) (df : DataFrame) : DataFrame :=
  mkDF (take_rows 0%Z keep (index df))
       (map (fun c => (fst c, take_rows NaN keep (snd c))) (columns df)).

(** [df.dropna()]: the rows in which no column is NaN. *)
Definition dropna (df : DataFrame) : DataFrame :=
  iloc (filter (fun i => negb (row_has_na (columns df) i)) (seq 0 (nrows df))) df.

(** [df.tail(k)] and [df.iloc[k:]]. *)
Definition tail (k : nat) (df : DataFrame) : DataFrame :=
  iloc (seq (nrows df - k) (Nat.min k (nrows df))) df.

Definition iloc_from (k : nat) (df : DataFrame) : DataFrame :=
  iloc (seq k (nrows df - k)) df.

(** [df.pct_change()] *)
Definition pct_change (df : DataFrame) : DataFrame :=
  mkDF (index df) (map (fun c => (fst c, pct_change_values (snd c))) (columns df)).

(** [df.isna().any().any()] *)
Definition any_na (df : DataFrame) : bool :=
  existsb (fun c => existsb isna (snd c)) (columns df).

Definition df_ffill (df : DataFrame) : DataFrame :=
  mkDF (index df) (map (fun c => (fst c, ffill (snd c))) (columns df)).

Definition df_bfill (df : DataFrame) : DataFrame :=
  mkDF (index df) (map (fun c => (fst c, bfill (snd c))) (columns df)).

(** [df.loc[labels]] on a frame. *)
Definition df_loc (labels : list date) (df : DataFrame) : DataFrame :=
  mkDF (map fst (loc labels (combine (index df) (index df))))
       (map (fun c => (fst c, map snd (loc labels (combine (index df) (snd c)))))
            (columns df)).

(** [df[(df.index >= start) & (df.index <= end)]] *)
Definition between (start stop : date) (df : DataFrame) : DataFrame :=
  iloc (filter (fun i => let d := nth i (index df) 0%Z in
                         (start <=? d)%Z && (d <=? stop)%Z)
               (seq 0 (nrows df))) df.

(** [df * k] *)
Definition scale_by (k : Q) (df : DataFrame) : DataFrame :=
  mkDF (index df)
       (map (fun c => (fst c, map (fun x => cell_mul x (Num k)) (snd c))) (columns df)).

(** The series of one column. *)
Definition series_of (df : DataFrame) (v : list cell) : Series :=
  combine (index df) v.

(** ** Exceptions *)

Inductive exn : Type :=
| KeyError (key : string)
| ValueError (msg : string)
| IndexError (msg : string)
| Exception (msg : string).

Inductive result (A : Type) : Type :=
| Ok (a : A)
| Raise (e : exn).

Arguments Ok {A} a.
Arguments Raise {A} e.

Definition bind {A B} (r : result A) (k : A -> result B) : result B :=
  match r with
  | Ok a => k a
  | Raise e => Raise e
  end.

(** [df[name]] *)
Definition getitem (df : DataFrame) (name : string) : result (list cell) :=
  match lookup name (columns df) with
  | Some v => Ok v
  | None => Raise (KeyError name)
  end.

End pd.

Notation "x <- r ;; k" := (pd.bind r (fun x => k))
  (at level 61, r at next level, right associativity).

(* ===================================================================== *)
(** * Statistics: Pearson correlation and the standard scaler *)
(* ===================================================================== *)

Module stats.
Import pd.

Definition Qsum (l : list Q) : Q := fold_right Qplus 0%Q l.

Definition mean (l : list Q) : Q := Qsum l / inject_Z (Z.of_nat (length l)).

Definition value_of (c : cell) : Q :=
  match c with Num q => q | _ => 0%Q end.

Section WithSqrt.

(** The floating-point square root. *)
Variable sqrt : Q -> Q.

(** [np.corrcoef(x, y)[0, 1]]: the covariance over the product of the
    standard deviations.  With fewer than two points the normalisation is
    0/0, with a constant side the quotient is 0/0, and an infinity gives
    inf - inf: all NaN. *)
Definition corrcoef (x y : list cell) : cell :=
  if length x <? 2 then NaN
  else if negb (forallb isfinite x && forallb isfinite y) then NaN
  else
    let xs := map value_of x in
    let ys := map value_of y in
    let mx := mean xs in
    let my := mean ys in
    let dx := map (fun v => v - mx)%Q xs in
    let dy := map (fun v => v - my)%Q ys in
    let sxy := Qsum (map2 Qmult dx dy) in
    let sxx := Qsum (map2 Qmult dx dx) in
    let syy := Qsum (map2 Qmult dy dy) in
    if Qeq_bool sxx 0 || Qeq_bool syy 0 then NaN
    else Num (sxy / (sqrt sxx * sqrt syy)).

(** [a.corr(b)]: inner join on the index, rows with a NaN on either side
    dropped, NaN when nothing is left ([min_periods = 1]). *)
Definition corr (a b : Series) : cell :=
  let joined :=
    flat_map (fun ra =>
                map (fun rb => (snd ra, snd rb))
                    (filter (fun rb => Z.eqb (fst rb) (fst ra)) b)) a in
  let valid := filter (fun p => notna (fst p) && notna (snd p)) joined in
  if length valid <? 1 then NaN
  else corrcoef (map fst valid) (map snd valid).

(** ** sklearn.preprocessing.StandardScaler *)

Record StandardScaler : Type := mkScaler {
  mean_ : list Q;
  scale_ : list Q
}.

Definition variance (l : list Q) : Q :=
  let m := mean l in mean (map (fun v => (v - m) * (v - m))%Q l).

(** A zero standard deviation is replaced by one. *)
Definition scale_of (l : list Q) : Q :=
  let v := variance l in
  if Qeq_bool v 0 then 1%Q else sqrt v.

(** [scaler.fit(X)]: refuses an empty matrix and infinities. *)
Definition fit (X : DataFrame) : result StandardScaler :=
  if (nrows X =? 0) || (length (columns X) =? 0) then
    Raise (ValueError "Found array with 0 sample(s) or 0 feature(s)")
  else if negb (forallb (fun c => forallb isfinite (snd c)) (columns X)) then
    Raise (ValueError "Input X contains infinity or NaN")
  else
    Ok (mkScaler (map (fun c => mean (map value_of (snd c))) (columns X))
                 (map (fun c => scale_of (map value_of (snd c))) (columns X))).

End WithSqrt.

Definition transform_column (m s : Q) (v : list cell) : list cell :=
  map (fun x => cell_div (cell_sub x (Num m)) (Num s)) v.

Fixpoint transform_columns (ms ss : list Q) (cols : list (string * list cell))
  : list (list cell) :=
  match ms, ss, cols with
  | m :: ms', s :: ss', c :: cols' =>
      transform_column m s (snd c) :: transform_columns ms' ss' cols'
  | _, _, _ => []
  end.

(** [scaler.transform(X)]: the scaled matrix, column by column. *)
Definition transform (sc : StandardScaler) (X : DataFrame) : result (list (list cell)) :=
  if negb (length (columns X) =? length (mean_ sc)) then
    Raise (ValueError "X has a different number of features than the scaler")
  else Ok (transform_columns (mean_ sc) (scale_ sc) (columns X)).

Definition fit_transform (sqrt : Q -> Q) (X : DataFrame)
  : result (StandardScaler * list (list cell)) :=
  sc <- fit sqrt X ;;
  Xs <- transform sc X ;;
  Ok (sc, Xs).

End stats.

(* ===================================================================== *)
(** * The classifier and what is pickled about it *)
(* ===================================================================== *)

Module xgb.
Import pd.

Record hyper : Type := mkHyper {
  n_estimators : nat;
  learning_rate : option Q;
  max_depth : option nat;
  random_state : nat
}.

(** A fitted classifier is determined by its hyperparameters (seed included)
    and the data it was fitted on; what it predicts is a parameter of the
    code that calls it. *)
Record XGBClassifier : Type := fit {
  hp : hyper;
  X_train : DataFrame;
  y_train : list cell
}.

(** The dictionary [save_model_metadata] pickles. *)
Record model_metadata : Type := mkMetadata {
  md_feature_names : list string;
  md_train_size : nat;
  md_test_size : nat;
  md_accuracy : Q;
  md_cv_score : Q;
  md_model_type : string;
  md_n_estimators : nat;
  md_random_state : nat
}.

End xgb.

(* ===================================================================== *)
(** * Files and the state-and-exception monad *)
(* ===================================================================== *)

Module io.
Import pd.

(** What the code writes: CSV tables, the data metadata pickle, pickled
    classifiers and their metadata. *)
Inductive file : Type :=
| Csv (df : DataFrame)
| MetadataPkl (columns_ feature_columns : list string)
| ModelPkl (m : xgb.XGBClassifier)
| ModelMetadataPkl (md : xgb.model_metadata).

Definition fs := list (string * file).

(** A computation reads and writes the disk and may raise. *)
Definition M (A : Type) : Type := fs -> result A * fs.

Definition ret {A} (a : A) : M A := fun d => (Ok a, d).
Definition raise {A} (e : exn) : M A := fun d => (Raise e, d).
Definition lift {A} (r : result A) : M A := fun d => (r, d).

Definition mbind {A B} (m : M A) (k : A -> M B) : M B :=
  fun d => match m d with
           | (Ok a, d') => k a d'
           | (Raise e, d') => (Raise e, d')
           end.

(** [try: m except Exception: h] *)
Definition try_except {A} (m : M A) (h : exn -> M A) : M A :=
  fun d => match m d with
           | (Ok a, d') => (Ok a, d')
           | (Raise e, d') => h e d'
           end.

Definition exists_ (path : string) : M bool :=
  fun d => (Ok (match lookup path d with Some _ => true | None => false end), d).

Definition to_csv (path : string) (df : DataFrame) : M unit :=
  fun d => (Ok tt, set_column path (Csv df) d).

Definition dump (path : string) (f : file) : M unit :=
  fun d => (Ok tt, set_column path f d).

Definition read_csv (path : string) : M DataFrame :=
  fun d => match lookup path d with
           | Some (Csv df) => (Ok df, d)
           | _ => (Raise (Exception "read_csv"), d)
           end.

End io.

Notation "x <~ m ;; k" := (io.mbind m (fun x => k))
  (at level 61, m at next level, right associativity).
Notation "m ;;; k" := (io.mbind m (fun _ => k))
  (at level 61, right associativity).

(* ===================================================================== *)
(** * data_collector.py *)
(* ===================================================================== *)

Module data_collector.
Import pd io.

Definition get_symbols : list (string * string) :=
  [ ("BIST100", "XU100.IS"); ("Gold", "GC=F"); ("Oil", "CL=F");
    ("USDTRY", "USDTRY=X"); ("US10Y", "^TNX"); ("NatGas", "NG=F");
    ("VIX", "^VIX") ]%string.

(** What the provider answers for one ticker: the call raises, or it returns
    a table whose close column is given (no rows: [ticker_data.empty]). *)
Inductive response : Type :=
| Failed
| Close (s : Series).

Definition provider := string -> date -> date -> response.

(** The per-symbol loop: a symbol is kept when the call returned a table
    that is not empty; an exception is swallowed. *)
Definition fetch_all (yf_download : provider) (start stop : date)
           (symbols : list (string * string)) : list (string * Series) :=
  fold_left
    (fun data_frames '(name, symbol) =>
       match yf_download symbol start stop with
       | Close ((_ :: _) as s) => set_column name s data_frames
       | _ => data_frames
       end)
    symbols [].

(** The value of a series at each label of [idx], NaN where it has none. *)
Definition reindex (idx : list date) (s : Series) : list cell :=
  map (fun d => match find (fun r => Z.eqb (fst r) d) s with
                | Some r => snd r
                | None => NaN
                end) idx.

(** [df[name] = series]: an empty frame adopts the index of the series, a
    frame with an index aligns the series to it. *)
Definition setitem_series (df : DataFrame) (name : string) (s : Series) : DataFrame :=
  if (length (index df) =? 0) && (length (columns df) =? 0)
  then mkDF (s_index s) [(name, s_values s)]
  else mkDF (index df) (set_column name (reindex (index df) s) (columns df)).

Definition merge_frames (data_frames : list (string * Series)) : DataFrame :=
  fold_left (fun df '(name, series) => setitem_series df name series)
            data_frames empty_frame.

Definition fill_gaps (df : DataFrame) : DataFrame :=
  if any_na df then df_bfill (df_ffill df) else df.

(** [download_data]: [None] when no symbol could be retrieved. *)
Definition download_data (yf_download : provider) (start stop : date)
           (symbols : list (string * string)) : option DataFrame :=
  let data_frames := fetch_all yf_download start stop symbols in
  if length data_frames =? 0 then None
  else Some (fill_gaps (merge_frames data_frames)).

Definition raw_path : string := "data/bist_emtia_data.csv".
Definition prepared_path : string := "data/bist_emtia_prepared_data.csv".
Definition metadata_path : string := "data/metadata.pkl".

Definition save_raw_data (df : DataFrame) : M string :=
  to_csv raw_path df ;;; ret raw_path.

Definition rename_change (df : DataFrame) : DataFrame :=
  mkDF (index df) (map (fun c => ((fst c ++ "_change")%string, snd c)) (columns df)).

(** The label frame: one row per date but the last, 1 when tomorrow's
    BIST100 is greater than today's. *)
Definition target_frame (df : DataFrame) : result (list (date * Z)) :=
  bist <- getitem df "BIST100" ;;
  let idx := removelast (index df) in
  let today := removelast bist in
  let tomorrow := tl bist in
  Ok (combine idx
        (map2 (fun tm td => if cell_gtb tm td then 1%Z else 0%Z) tomorrow today)).

Definition int_cell (z : Z) : cell := Num (inject_Z z).

Record training_data : Type := mkTraining {
  X_data : DataFrame;
  y_data : list (date * Z);
  X_scaled_df : DataFrame;
  prepared_data : DataFrame
}.

Fixpoint with_values (cols : list (string * list cell)) (vals : list (list cell))
  : list (string * list cell) :=
  match cols, vals with
  | c :: cols', v :: vals' => (fst c, v) :: with_values cols' vals'
  | _, _ => []
  end.

Definition prepare_training_data (sqrt : Q -> Q) (df : DataFrame)
  : result training_data :=
  let df_pct := rename_change (dropna (pct_change df)) in
  df_target <- target_frame df ;;
  let clean_idx := intersection (index df_pct) (map fst df_target) in
  let X := df_loc clean_idx df_pct in
  let y := loc clean_idx df_target in
  fitted <- stats.fit_transform sqrt X ;;
  let Xs := mkDF (index X) (with_values (columns X) (snd fitted)) in
  let prepared :=
    mkDF (index Xs)
         (set_column "target"
            (reindex (index Xs) (map (fun r => (fst r, int_cell (snd r))) y))
            (columns Xs)) in
  Ok (mkTraining X y Xs prepared).

Definition save_prepared_data (prepared : DataFrame) : M string :=
  to_csv prepared_path prepared ;;; ret prepared_path.

Definition save_metadata (df X : DataFrame) : M string :=
  dump metadata_path (MetadataPkl (column_names df) (column_names X)) ;;;
  ret metadata_path.

(** [collect_data(years, save)], run at date [now]. *)
Definition collect_data (yf_download : provider) (sqrt : Q -> Q) (now : date)
           (years : Q) (save : bool)
  : M (option (DataFrame * DataFrame * string)) :=
  let end_date := now in
  let start_date := (now - Qfloor (365 * years))%Z in
  match download_data yf_download start_date end_date get_symbols with
  | None => ret None
  | Some df =>
      (if save then save_raw_data df ;;; ret tt else ret tt) ;;;
      t <~ lift (prepare_training_data sqrt df) ;;
      if save then
        save_prepared_data (prepared_data t) ;;;
        path <~ save_metadata df (X_data t) ;;
        ret (Some (df, prepared_data t, path))
      else
        raise (Exception "local variable 'metadata_path' referenced before assignment")
  end.

End data_collector.

(* ===================================================================== *)
(** * data.py *)
(* ===================================================================== *)

Module data.
Import pd io.

Definition failed : exn := Exception "Veri cekme islemi basarisiz oldu.".

(** The last resort of [get_data]: the per-symbol loop again, merged,
    filled, written to the cache and returned. *)
Definition manual_download (yf_download : data_collector.provider)
           (start stop : date) (symbols : list (string * string)) : M DataFrame :=
  let data_frames := data_collector.fetch_all yf_download start stop symbols in
  let df := data_collector.fill_gaps (data_collector.merge_frames data_frames) in
  to_csv data_collector.raw_path df ;;;
  ret df.

(** [get_data(start_date, end_date)], run at date [now]: the cached file,
    else the collector, else the plain download, else the manual loop. *)
Definition get_data (yf_download : data_collector.provider) (sqrt : Q -> Q)
           (now start stop : date) : M DataFrame :=
  cached <~ exists_ data_collector.raw_path ;;
  if (cached : bool) then
    df <~ read_csv data_collector.raw_path ;;
    ret (between start stop df)
  else
    try_except
      (let years := (inject_Z (stop - start) / 365)%Q in
       let years := if Qle_bool 1 years then years else 1%Q in
       r <~ data_collector.collect_data yf_download sqrt now years true ;;
       match r with
       | Some (df, _, _) => ret (between start stop df)
       | None => raise failed
       end)
      (fun _ =>
         let symbols := data_collector.get_symbols in
         try_except
           (match data_collector.download_data yf_download start stop symbols with
            | Some df => data_collector.save_raw_data df ;;; ret df
            | None => raise failed
            end)
           (fun _ => manual_download yf_download start stop symbols)).

Definition str (n : nat) : string := NilEmpty.string_of_uint (Nat.to_uint n).

Definition lag_col_name (col : string) (lag : nat) : string :=
  (col ++ "_lag" ++ str lag)%string.

Definition default_lag_days : list nat := [1; 10; 30].

(** One pass of the inner loop body:
    [df_with_lags[lag_col_name] = df_pct[col].shift(lag)]. *)
Definition add_lag (df_pct : DataFrame) (col : string)
           (df_with_lags : list (string * list cell)) (lag : nat)
  : list (string * list cell) :=
  match lookup col (columns df_pct) with
  | Some v => set_column (lag_col_name col lag) (shift lag v) df_with_lags
  | None => df_with_lags
  end.

Definition external_cols (df_pct : DataFrame) : list string :=
  filter (fun col => negb (String.prefix "BIST100" col)) (column_names df_pct).

Definition with_lag_columns (df_pct : DataFrame) (lag_days : list nat)
  : list (string * list cell) :=
  fold_left (fun acc col => fold_left (add_lag df_pct col) lag_days acc)
            (external_cols df_pct) (columns df_pct).

Definition add_lag_features (df_pct : DataFrame) (lag_days : list nat) : DataFrame :=
  dropna (mkDF (index df_pct) (with_lag_columns df_pct lag_days)).

(** The change table of [prepare_data] and [analyze_lag_importance]. *)
Definition change_table (df : DataFrame) : DataFrame := dropna (pct_change df).

Record prepared : Type := mkPrepared {
  X_data : DataFrame;
  y_data : list (date * Z);
  X_scaled : list (list cell);
  scaler : stats.StandardScaler;
  feature_names : list string
}.

Definition y_values (p : prepared) : list Z := map snd (y_data p).

Definition prepare_data (sqrt : Q -> Q) (df : DataFrame) (use_lags : bool)
           (lag_days : list nat) : result prepared :=
  let df_pct := data_collector.rename_change (change_table df) in
  let df_pct := if use_lags then add_lag_features df_pct lag_days else df_pct in
  df_target <- data_collector.target_frame df ;;
  let clean_idx := intersection (index df_pct) (map fst df_target) in
  let X := df_loc clean_idx df_pct in
  let y := loc clean_idx df_target in
  fitted <- stats.fit_transform sqrt X ;;
  Ok (mkPrepared X y (snd fitted) (fst fitted) (column_names X)).

(** ** Lag-correlation analysis *)

Record LagCorr : Type := mkLagCorr {
  variable : string;
  lag_days : nat;
  correlation : cell
}.

Definition max_lag : nat := 30.

(** The dates on which the lagged series has a value and the target has a
    row. *)
Definition valid_idx (lagged_series target : Series) : list date :=
  intersection (s_index (s_dropna lagged_series)) (s_index target).

(** The body of the inner loop for one column and one lag. *)
Definition lag_step (sqrt : Q -> Q) (df_pct : DataFrame) (target : Series)
           (col : string) (lag_corrs : list LagCorr) (lag : nat) : list LagCorr :=
  match lookup col (columns df_pct) with
  | None => lag_corrs
  | Some v =>
      let lagged_series := s_shift lag (series_of df_pct v) in
      let idx := valid_idx lagged_series target in
      if 0 <? length idx then
        let corr := stats.corr sqrt (loc idx target) (loc idx lagged_series) in
        lag_corrs ++ [mkLagCorr col lag corr]
      else lag_corrs
  end.

Definition collect_lag_corrs (sqrt : Q -> Q) (df_pct : DataFrame) (target : Series)
           (other_cols : list string) : list LagCorr :=
  fold_left (fun acc col =>
               fold_left (lag_step sqrt df_pct target col) (seq 1 max_lag) acc)
            other_cols [].

(** [pd.DataFrame(records)]: the column labels are the keys of the records,
    so a frame built from no record has no column. *)
Record RecordFrame : Type := mkRecords {
  rf_columns : list string;
  rf_rows : list LagCorr
}.

Definition DataFrame_of (records : list LagCorr) : RecordFrame :=
  mkRecords (match records with
             | [] => []
             | _ :: _ => ["variable"; "lag_days"; "correlation"]%string
             end) records.

Record Pivot : Type := mkPivot {
  pv_index : list string;
  pv_columns : list nat;
  pv_values : list (list cell)
}.

Definition has_column (f : RecordFrame) (name : string) : bool :=
  existsb (String.eqb name) (rf_columns f).

Definition same_key (a b : LagCorr) : bool :=
  String.eqb (variable a) (variable b) && (lag_days a =? lag_days b).

Fixpoint has_duplicate_key (rows : list LagCorr) : bool :=
  match rows with
  | [] => false
  | r :: rest => existsb (same_key r) rest || has_duplicate_key rest
  end.

Fixpoint insert_sorted {A} (leb : A -> A -> bool) (x : A) (l : list A) : list A :=
  match l with
  | [] => [x]
  | y :: r => if leb x y then (if leb y x then l else x :: l)
              else y :: insert_sorted leb x r
  end.

(** The distinct labels in increasing order. *)
Definition sorted_labels {A} (leb : A -> A -> bool) (l : list A) : list A :=
  fold_right (insert_sorted leb) [] l.

(** [frame.pivot(index='variable', columns='lag_days', values='correlation')] *)
Definition pivot (f : RecordFrame) : result Pivot :=
  if negb (has_column f "variable") then Raise (KeyError "variable")
  else if negb (has_column f "lag_days") then Raise (KeyError "lag_days")
  else if negb (has_column f "correlation") then Raise (KeyError "correlation")
  else if has_duplicate_key (rf_rows f) then
    Raise (ValueError "Index contains duplicate entries, cannot reshape")
  else
    let vars := sorted_labels String.leb (map variable (rf_rows f)) in
    let lags := sorted_labels Nat.leb (map lag_days (rf_rows f)) in
    Ok (mkPivot vars lags
          (map (fun v =>
                  map (fun l =>
                         match find (fun r => String.eqb (variable r) v
                                              && (lag_days r =? l)) (rf_rows f) with
                         | Some r => correlation r
                         | None => NaN
                         end) lags) vars)).

Definition other_cols (df_pct : DataFrame) (target_col : string) : list string :=
  filter (fun col => negb (String.eqb col target_col)) (column_names df_pct).

(** The function up to the end of its loops: the list [lag_corrs]. *)
Definition lag_corrs (sqrt : Q -> Q) (df : DataFrame) (target_col : string)
  : result (list LagCorr) :=
  let df_pct := change_table df in
  tv <- getitem df_pct target_col ;;
  let target := series_of df_pct tv in
  Ok (collect_lag_corrs sqrt df_pct target (other_cols df_pct target_col)).

Definition analyze_lag_importance (sqrt : Q -> Q) (df : DataFrame)
           (target_col : string) : result (RecordFrame * Pivot) :=
  records <- lag_corrs sqrt df target_col ;;
  let lag_corr_df := DataFrame_of records in
  lag_corr_pivot <- pivot lag_corr_df ;;
  Ok (lag_corr_df, lag_corr_pivot).

End data.

(* ===================================================================== *)
(** * model.py *)
(* ===================================================================== *)

Module model.
Import pd io xgb.

Record Results : Type := mkResults {
  accuracy : Q;
  y_pred : list Z
}.

Record cv_results : Type := mkCV {
  mean_cv_score : Q;
  cv_scores : list Q
}.

(** What the selector prints when [verbose] is set. *)
Inductive message : Type :=
| Started
| LoadError
| Trial (i : nat) (params : hyper)
| TrialAccuracy (acc : Q)
| BestModel (acc : Q) (params : option hyper)
| CrossValidation (score : Q)
| CriterionMetAndSaved
| SavedButCriterionNotMet
| NoModelTrained
| Finished.

Definition row (X : DataFrame) (i : nat) : list cell :=
  map (fun c => nth i (snd c) NaN) (columns X).

Definition rows (X : DataFrame) : list (list cell) :=
  map (row X) (seq 0 (nrows X)).

Definition label_of (c : cell) : Z :=
  match c with Num q => Qfloor q | _ => 0%Z end.

Section Learner.

(** The class the fitted classifier predicts for one feature row. *)
Variable predict : XGBClassifier -> list cell -> Z.

(** The fold scores of [cross_val_score]. *)
Variable cross_val_score : XGBClassifier -> DataFrame -> list cell -> nat -> list Q.

(** The shuffled positions [train_test_split] draws for [n] samples and a
    seed. *)
Variable permutation : nat -> nat -> list nat.

Definition train_model (X_train : DataFrame) (y_train : list cell)
           (params : hyper) (model_type : string) : result XGBClassifier :=
  if String.eqb model_type "xgboost" then Ok (fit params X_train y_train)
  else Raise (ValueError "Desteklenmeyen model tipi").

(** [accuracy_score]: the fraction of positions where the prediction is the
    label. *)
Definition accuracy_score (y_true : list cell) (y_hat : list Z) : Q :=
  let hits := length (filter (fun p => Z.eqb (label_of (fst p)) (snd p))
                             (combine y_true y_hat)) in
  (inject_Z (Z.of_nat hits) / inject_Z (Z.of_nat (length y_true)))%Q.

Definition evaluate_model (m : XGBClassifier) (X_test : DataFrame)
           (y_test : list cell) : Results :=
  let y_hat := map (predict m) (rows X_test) in
  mkResults (accuracy_score y_test y_hat) y_hat.

Definition cross_validate (m : XGBClassifier) (X : DataFrame) (y : list cell)
           (cv : nat) : cv_results :=
  let scores := cross_val_score m X y cv in
  mkCV (stats.mean scores) scores.

Definition save_model (m : XGBClassifier) (filepath : string) : M unit :=
  dump filepath (ModelPkl m).

Definition load_model (filepath : string) : M (option XGBClassifier) :=
  fun d => (Ok (match lookup filepath d with
                | Some (ModelPkl m) => Some m
                | _ => None
                end), d).

Record split : Type := mkSplit {
  s_X_train : DataFrame;
  s_X_test : DataFrame;
  s_y_train : list cell;
  s_y_test : list cell
}.

(** [train_test_split(X, y, test_size, random_state)]: the test part takes
    the first [ceil(test_size * n)] shuffled positions; an empty training
    part is refused. *)
Definition train_test_split (X : DataFrame) (y : list cell) (test_size : Q)
           (seed : nat) : result split :=
  let n := nrows X in
  let n_test := Z.to_nat (Qceiling (test_size * inject_Z (Z.of_nat n))) in
  let n_train := n - n_test in
  if n_train =? 0 then
    Raise (ValueError "the resulting train set will be empty")
  else
    let perm := permutation n seed in
    let test_idx := firstn n_test perm in
    let train_idx := firstn n_train (skipn n_test perm) in
    Ok (mkSplit (iloc train_idx X) (iloc test_idx X)
                (take_rows NaN train_idx y) (take_rows NaN test_idx y)).

Definition param_combinations : list hyper :=
  [ mkHyper 100 (Some (1 # 10)%Q) (Some 3) 42;
    mkHyper 200 (Some (5 # 100)%Q) (Some 5) 42;
    mkHyper 100 (Some (1 # 10)%Q) (Some 6) 42;
    mkHyper 150 (Some (5 # 100)%Q) (Some 4) 42;
    mkHyper 100 (Some (1 # 100)%Q) (Some 7) 42 ].

(** The four [best_*] variables of the selection loop. *)
Record best : Type := mkBest {
  best_model : option XGBClassifier;
  best_params : option hyper;
  best_accuracy : Q;
  best_results : option Results
}.

Definition no_best : best := mkBest None None 0%Q None.

(** One candidate that has been fitted and scored. *)
Record candidate : Type := mkCandidate {
  c_params : hyper;
  c_model : XGBClassifier;
  c_results : Results
}.

(** [if accuracy > best_accuracy: ...] *)
Definition consider (b : best) (c : candidate) : best :=
  if Qltb (best_accuracy b) (accuracy (c_results c))
  then mkBest (Some (c_model c)) (Some (c_params c))
              (accuracy (c_results c)) (Some (c_results c))
  else b.

Definition fit_candidate (s : split) (params : hyper) : result candidate :=
  m <- train_model (s_X_train s) (s_y_train s) params "xgboost" ;;
  Ok (mkCandidate params m (evaluate_model m (s_X_test s) (s_y_test s))).

(** The loop over the parameter combinations, with what it prints. *)
Fixpoint select_from (verbose : bool) (s : split) (i : nat)
         (combos : list hyper) (b : best) (out : list message)
  : result (best * list message) :=
  match combos with
  | [] => Ok (b, out)
  | params :: rest =>
      let out := if verbose then out ++ [Trial (S i) params] else out in
      c <- fit_candidate s params ;;
      let out := if verbose
                 then out ++ [TrialAccuracy (accuracy (c_results c))] else out in
      select_from verbose s (S i) rest (consider b c) out
  end.

Definition model_path : string := "models/bist_model.pkl".

Definition default_data_file : string := "data/bist_emtia_prepared_data.csv".

(** [df = pd.read_csv(data_file); y = df['target']; X = df.drop('target')] *)
Definition load_Xy (data_file : string) : M (DataFrame * list cell) :=
  df <~ read_csv data_file ;;
  y <~ lift (getitem df "target") ;;
  ret (mkDF (index df)
            (filter (fun c => negb (String.eqb (fst c) "target")) (columns df)), y).

Definition say (verbose : bool) (msgs : list message) (out : list message)
  : list message :=
  if verbose then out ++ msgs else out.

(** [train_with_different_params(data_file, verbose)]: the returned four
    values and what was printed. *)
Definition train_with_different_params (data_file : option string) (verbose : bool)
  : M (best * list message) :=
  let out := say verbose [Started] [] in
  let data_file := match data_file with Some f => f | None => default_data_file end in
  loaded <~ (try_except (Xy <~ load_Xy data_file ;; ret (Some Xy))
                        (fun _ => ret None)) ;;
  match loaded with
  | None => ret (no_best, say verbose [LoadError] out)
  | Some (X, y) =>
      s <~ lift (train_test_split X y (2 # 10)%Q 42) ;;
      sel <~ lift (select_from verbose s 0 param_combinations no_best out) ;;
      let '(b, out) := sel in
      match best_model b, verbose with
      | Some m, true =>
          let out := out ++ [BestModel (best_accuracy b) (best_params b)] in
          save_model m model_path ;;;
          let cv := cross_validate m X y 5 in
          let out := out ++ [CrossValidation (mean_cv_score cv)] in
          let success := Qltb (55 # 100)%Q (best_accuracy b) in
          let out := out ++ [if success then CriterionMetAndSaved
                             else SavedButCriterionNotMet] in
          ret (b, out ++ [Finished])
      | None, true => ret (b, out ++ [NoModelTrained; Finished])
      | _, false => ret (b, out)
      end
  end.

End Learner.
End model.

(* ===================================================================== *)
(** * model_trainer.py *)
(* ===================================================================== *)

Module model_trainer.
Import pd io xgb.

Section Learner.

Variable predict : XGBClassifier -> list cell -> Z.
Variable cross_val_score : XGBClassifier -> DataFrame -> list cell -> nat -> list Q.
Variable permutation : nat -> nat -> list nat.

(** [load_prepared_data]: [None] when the file does not exist. *)
Definition load_prepared_data (data_file : option string)
  : M (option (DataFrame * list cell)) :=
  let data_file :=
    match data_file with Some f => f | None => model.default_data_file end in
  present <~ exists_ data_file ;;
  if (present : bool) then Xy <~ model.load_Xy data_file ;; ret (Some Xy)
  else ret None.

(** [os.path.join('models', f"{model_name}.pkl")] *)
Definition model_path_of (model_name : string) : string :=
  ("models/" ++ model_name ++ ".pkl")%string.

(** The metadata goes next to the model: for a path under [models/] that is
    [models/model_metadata.pkl]. *)
Definition metadata_path_of (model_path : string) : string :=
  "models/model_metadata.pkl".

Definition save_model_metadata (m : XGBClassifier) (results : model.Results)
           (cv : model.cv_results) (X_train X_test : DataFrame)
           (feature_names : list string) (model_path model_type : string)
  : M string :=
  dump (metadata_path_of model_path)
       (ModelMetadataPkl
          (mkMetadata feature_names (nrows X_train) (nrows X_test)
                      (model.accuracy results) (model.mean_cv_score cv)
                      model_type (n_estimators (hp m)) (random_state (hp m)))) ;;;
  ret (metadata_path_of model_path).

(** [accuracy > threshold] *)
Definition check_success_criteria (results : model.Results) (threshold : Q) : bool :=
  Qltb threshold (model.accuracy results).

Definition default_threshold : Q := (55 # 100)%Q.

Record trained : Type := mkTrained {
  t_model : XGBClassifier;
  t_results : model.Results;
  t_cv_results : model.cv_results;
  t_model_path : string;
  t_metadata_path : string;
  t_success : bool
}.

Definition train_and_evaluate_model (data_file : option string) (test_size : Q)
           (n_est seed : nat) (model_name : string) (model_type : string)
  : M (option trained) :=
  let model_file := model_path_of model_name in
  loaded <~ load_prepared_data data_file ;;
  match loaded with
  | None => ret None
  | Some (X, y) =>
      s <~ lift (model.train_test_split permutation X y test_size seed) ;;
      m <~ lift (model.train_model (model.s_X_train s) (model.s_y_train s)
                                   (mkHyper n_est None None seed) model_type) ;;
      let results :=
        model.evaluate_model predict m (model.s_X_test s) (model.s_y_test s) in
      let cv := model.cross_validate cross_val_score m X y 5 in
      model.save_model m model_file ;;;
      mdp <~ save_model_metadata m results cv (model.s_X_train s)
               (model.s_X_test s) (column_names X) model_file model_type ;;
      let success := check_success_criteria results default_threshold in
      ret (Some (mkTrained m results cv model_file mdp success))
  end.

End Learner.
End model_trainer.

(* ===================================================================== *)
(** * app.py: the prediction tab *)
(* ===================================================================== *)

Module app.
Import pd io xgb.

(** What the tab ends up showing. *)
Inductive shown : Type :=
| NoModel
| Prediction (label : Z) (probability : Q)
| PredictionError.

Definition load_trained_model : M (option XGBClassifier) :=
  model.load_model "models/bist_model.pkl".

(** [model_features]: the stored feature names, when the metadata pickle
    exists. *)
Definition load_model_features : M (option (list string)) :=
  fun d => (Ok (match lookup "models/model_metadata.pkl"%string d with
                | Some (ModelMetadataPkl md) => Some (md_feature_names md)
                | _ => None
                end), d).

(** [daily_change]: the changes over the last five rows, in percent,
    without the first row. *)
Definition daily_change (raw_data : DataFrame) : DataFrame :=
  iloc_from 1 (scale_by 100 (pct_change (tail 5 raw_data))).

(** [daily_change[name].iloc[-1]] *)
Definition last_change (dc : DataFrame) (name : string) : result cell :=
  v <- getitem dc name ;;
  match v with
  | [] => Raise (IndexError "single positional indexer is out-of-bounds")
  | _ :: _ => Ok (last v NaN)
  end.

(** [daily_change.iloc[-1:]] as one labelled row. *)
Definition all_change_features (dc : DataFrame) : list (string * cell) :=
  map (fun c => (fst c, last (snd c) NaN)) (columns dc).

Definition has_feature (cols : list (string * cell)) (feat : string) : bool :=
  existsb (fun c => String.eqb (fst c) feat) cols.

Fixpoint assign (i : nat) (x : cell) (features : list cell) : list cell :=
  match features, i with
  | [], _ => []
  | _ :: r, 0 => x :: r
  | y :: r, S j => y :: assign j x r
  end.

(** The zero-filled vector: [features = np.zeros(...)], then one assignment
    per stored name that the change row has. *)
Definition zero_filled (model_features : list string) (cols : list (string * cell))
  : list cell :=
  fold_left
    (fun features '(i, feat) =>
       match lookup feat cols with
       | Some x => assign i x features
       | None => features
       end)
    (combine (seq 0 (length model_features)) model_features)
    (repeat (Num 0) (length model_features)).

(** The vector handed to the classifier. *)
Definition features_for (model_features : option (list string))
           (cols : list (string * cell)) : list cell :=
  match model_features with
  | Some ((_ :: _) as mf) =>
      if forallb (has_feature cols) mf
      then map (fun feat => match lookup feat cols with
                            | Some x => x
                            | None => NaN
                            end) mf
      else zero_filled mf cols
  | _ => map snd cols
  end.

(** The vector the tab passes to the classifier, from the raw data and the
    stored names alone. *)
Definition served_features (model_features : option (list string))
           (raw_data : DataFrame) : list cell :=
  features_for model_features (all_change_features (daily_change raw_data)).

Section Classifier.

(** [model.predict] and [model.predict_proba] on one vector; they raise on
    a vector the classifier cannot take. *)
Variable predict : XGBClassifier -> list cell -> result (Z * Q).

(** The prediction tab for the loaded raw data. *)
Definition prediction_tab (raw_data : DataFrame) : M shown :=
  loaded <~ load_trained_model ;;
  match loaded with
  | None => ret NoModel
  | Some m =>
      let dc := daily_change raw_data in
      lift (last_change dc "BIST100") ;;;
      lift (last_change dc "Gold") ;;;
      lift (last_change dc "Oil") ;;;
      lift (last_change dc "USDTRY") ;;;
      model_features <~ load_model_features ;;
      let features := features_for model_features (all_change_features dc) in
      try_except
        (p <~ lift (predict m features) ;; ret (Prediction (fst p) (snd p)))
        (fun _ => ret PredictionError)
  end.

End Classifier.
End app.

(* ===================================================================== *)
(** * Vocabulary of the stated properties *)
(* ===================================================================== *)

Module spec.
Import pd.

(** Every column is as long as the index. *)
Definition well_formed (df : DataFrame) : Prop :=
  Forall (fun c => length (snd c) = nrows df) (columns df).

Definition no_missing (df : DataFrame) : Prop :=
  Forall (fun c => Forall (fun x => isna x = false) (snd c)) (columns df).

Definition positive (c : cell) : bool :=
  match c with Num q => Qltb 0 q | _ => false end.

Fixpoint increasing (l : list date) : Prop :=
  match l with
  | [] => True
  | d :: r => match r with
              | [] => True
              | e :: _ => (d < e)%Z
              end /\ increasing r
  end.

(** A price table: at least one series, one price per series and date,
    dates strictly increasing, every price present and positive. *)
Record PriceTable (df : DataFrame) : Prop := mkPriceTable {
  pt_series : columns df <> [];
  pt_shape : well_formed df;
  pt_sorted : increasing (index df);
  pt_positive : Forall (fun c => Forall (fun x => positive x = true) (snd c))
                       (columns df)
}.

(** The label of a day: 1 when tomorrow's price is greater than today's. *)
Definition direction (tomorrow today : cell) : Z :=
  if cell_gtb tomorrow today then 1%Z else 0%Z.

(** The symbols whose download returned a table with rows. *)
Definition retrievable (yf_download : data_collector.provider) (start stop : date)
           (entry : string * string) : bool :=
  match yf_download (snd entry) start stop with
  | data_collector.Close (_ :: _) => true
  | _ => false
  end.

Definition retrieved (yf_download : data_collector.provider) (start stop : date)
           (symbols : list (string * string)) : list string :=
  map fst (filter (retrievable yf_download start stop) symbols).

(** What the per-symbol loop keeps of one registry entry. *)
Definition kept (yf_download : data_collector.provider) (start stop : date)
           (entry : string * string) : list (string * Series) :=
  match yf_download (snd entry) start stop with
  | data_collector.Close ((_ :: _) as s) => [(fst entry, s)]
  | _ => []
  end.

(** Equality of cells as numbers. *)
Definition cell_eqb (a b : cell) : bool :=
  match a, b with
  | NaN, NaN | PInf, PInf | NInf, NInf => true
  | Num x, Num y => Qeq_bool x y
  | _, _ => false
  end.

Fixpoint same_values (u v : list cell) : bool :=
  match u, v with
  | [], [] => true
  | a :: u', b :: v' => cell_eqb a b && same_values u' v'
  | _, _ => false
  end.

(** The stored names looked up in the change row, zero where absent. *)
Definition or_zero (cols : list (string * cell)) (feat : string) : cell :=
  match lookup feat cols with Some x => x | None => Num 0 end.

Definition aligned (model_features : list string) (cols : list (string * cell))
  : list cell :=
  map (or_zero cols) model_features.

(** A vector standardised with the parameters of a scaler. *)
Fixpoint standardize (ms ss : list Q) (v : list cell) : list cell :=
  match ms, ss, v with
  | m :: ms', s :: ss', x :: v' =>
      cell_div (cell_sub x (Num m)) (Num s) :: standardize ms' ss' v'
  | _, _, _ => []
  end.

(** Characters of a decimal numeral. *)
Definition is_digit (a : ascii) : bool :=
  match a with
  | "0" | "1" | "2" | "3" | "4" | "5" | "6" | "7" | "8" | "9" => true
  | _ => false
  end%char.

Fixpoint all_digits (s : string) : bool :=
  match s with
  | EmptyString => true
  | String a r => is_digit a && all_digits r
  end.

Fixpoint has_char (ch : ascii) (s : string) : bool :=
  match s with
  | EmptyString => false
  | String a r => Ascii.eqb a ch || has_char ch r
  end.

(** The (column, lag) pairs in the order the two loops of
    [add_lag_features] visit them. *)
Definition lag_pairs (cols : list string) (lags : list nat) : list (string * nat) :=
  flat_map (fun col => map (pair col) lags) cols.

(** The record the analyzer emits for a column and a lag, if any. *)
Definition emitted (sqrt : Q -> Q) (df_pct : DataFrame) (target : Series)
           (col : string) (lag : nat) : list data.LagCorr :=
  match lookup col (columns df_pct) with
  | None => []
  | Some v =>
      let lagged := s_shift lag (series_of df_pct v) in
      let idx := data.valid_idx lagged target in
      match idx with
      | [] => []
      | _ :: _ =>
          [data.mkLagCorr col lag
             (stats.corr sqrt (loc idx target) (loc idx lagged))]
      end
  end.

(** The candidates of the selector, fitted and scored on a split. *)
Definition scored (predict : xgb.XGBClassifier -> list cell -> Z)
           (s : model.split) (params : xgb.hyper) : model.candidate :=
  let m := xgb.fit params (model.s_X_train s) (model.s_y_train s) in
  model.mkCandidate params m
    (model.evaluate_model predict m (model.s_X_test s) (model.s_y_test s)).

Definition acc (c : model.candidate) : Q := model.accuracy (model.c_results c).


(** [X = df.drop('target', axis=1)] *)
Definition features_of (prepared : DataFrame) : DataFrame :=
  mkDF (index prepared)
       (filter (fun c => negb (String.eqb (fst c) "target")) (columns prepared)).

End spec.

(* ===================================================================== *)
(** * Concrete tables and runs *)
(* ===================================================================== *)

Module example.
Import pd io xgb.
Open Scope string_scope.

Definition price (z : Z) : cell := Num (inject_Z z).

(** Six trading days; BIST100 doubles each day and triples on the last,
    the other series double each day. *)
Definition prices : DataFrame :=
  mkDF [1; 2; 3; 4; 5; 6]%Z
       [ ("BIST100", map price [1; 2; 4; 8; 16; 48]%Z);
         ("Gold", map price [1; 2; 4; 8; 16; 32]%Z);
         ("Oil", map price [3; 6; 12; 24; 48; 96]%Z);
         ("USDTRY", map price [5; 10; 20; 40; 80; 160]%Z) ].

(** Four days on which BIST100 rises, falls and rises. *)
Definition zigzag : DataFrame :=
  mkDF [10; 11; 12; 13]%Z
       [ ("BIST100", map price [10; 12; 9; 15]%Z);
         ("Gold", map price [4; 5; 7; 6]%Z) ].

(** A table with the target series only. *)
Definition target_only : DataFrame :=
  mkDF [1; 2; 3; 4]%Z [ ("BIST100", map price [10; 12; 9; 15]%Z) ].

(** A change table with the target and one external column. *)
Definition changes : DataFrame :=
  mkDF [2; 3; 4; 5]%Z
       [ ("BIST100_change", map price [1; 2; 3; 4]%Z);
         ("Gold_change", map price [5; 6; 7; 8]%Z) ].

(** The variances of the columns of [prices] are zero, so this square root
    is never applied where [prices] is prepared. *)
Definition sqrt0 (q : Q) : Q := q.

(** The scaler fitted when [prices] is prepared. *)
Definition fitted_scaler : stats.StandardScaler :=
  match data.prepare_data sqrt0 prices false [] with
  | Ok p => data.scaler p
  | Raise _ => stats.mkScaler [] []
  end.

Definition stored_names : list string :=
  ["BIST100_change"; "Gold_change"; "Oil_change"; "USDTRY_change"].






(** A classifier on disk with the metadata of the four change features. *)
Definition a_model : XGBClassifier :=
  fit (mkHyper 100 None None 42) (mkDF [] []) [].

Definition a_metadata : model_metadata :=
  mkMetadata stored_names 4 1 (3 # 5)%Q (1 # 2)%Q "xgboost" 100 42.

Definition served_disk : fs :=
  [ ("models/bist_model.pkl", ModelPkl a_model);
    ("models/model_metadata.pkl", ModelMetadataPkl a_metadata) ].

Definition predict_up (m : XGBClassifier) (x : list cell) : result (Z * Q) :=
  Ok (1%Z, (1 # 2)%Q).

(** A provider that has gold and oil only. *)
Definition gold_and_oil : data_collector.provider :=
  fun symbol _ _ =>
    if String.eqb symbol "GC=F" then
      data_collector.Close [(1%Z, price 5); (2%Z, NaN); (3%Z, price 7)]
    else if String.eqb symbol "CL=F" then
      data_collector.Close [(2%Z, price 1)]
    else if String.eqb symbol "^VIX" then data_collector.Close []
    else data_collector.Failed.

Definition nothing : data_collector.provider :=
  fun _ _ _ => data_collector.Failed.

End example.

(* ===================================================================== *)
(** * visualization.py: the data behind the charts *)
(* ===================================================================== *)

Module visualization.
Import pd.

(** The number of rows a viewing period keeps; any other label keeps the
    whole table. *)
Definition period_rows (view_period : string) : option nat :=
  if String.eqb view_period "Son 1 Ay" then Some 30
  else if String.eqb view_period "Son 3 Ay" then Some 90
  else if String.eqb view_period "Son 6 Ay" then Some 180
  else if String.eqb view_period "Son 1 Yıl" then Some 365
  else None.

(** [col / col.iloc[0] * 100] *)
Definition rebase (v : list cell) : result (list cell) :=
  match v with
  | [] => Raise (IndexError "single positional indexer is out-of-bounds")
  | first :: _ => Ok (map (fun x => cell_mul (cell_div x first) (Num 100)) v)
  end.

(** The loop [for col in plot_data.columns: plot_data[col] = ...]. *)
Fixpoint rebase_columns (names : list string) (cols : list (string * list cell))
  : result (list (string * list cell)) :=
  match names with
  | [] => Ok cols
  | col :: rest =>
      v <- match lookup col cols with
           | Some v => Ok v
           | None => Raise (KeyError col)
           end ;;
      w <- rebase v ;;
      rebase_columns rest (set_column col w cols)
  end.

(** [prepare_display_data(raw_data, view_period, normalize)]: the table to
    plot and the unscaled view. *)
Definition prepare_display_data (raw_data : DataFrame) (view_period : string)
           (normalize : bool) : result (DataFrame * DataFrame) :=
  let data_view :=
    match period_rows view_period with
    | Some k => tail k raw_data
    | None => raw_data
    end in
  if normalize then
    cols <- rebase_columns (column_names data_view) (columns data_view) ;;
    Ok (mkDF (index data_view) cols, data_view)
  else Ok (data_view, data_view).

End visualization.

(* ===================================================================== *)
(** * app.py: loading the data for the dashboard *)
(* ===================================================================== *)

Module dashboard.
Import pd io.

Definition metadata_txt : string := "data/metadata.txt".

Section Loader.

(** The [key: value] lines of a file read as text. *)
Variable parse_lines : file -> list (string * string).

(** [open('data/metadata.txt', 'r')] and the loop over its lines. *)
Definition read_metadata : M (list (string * string)) :=
  fun d => match lookup metadata_txt d with
           | Some f => (Ok (parse_lines f), d)
           | None => (Raise (Exception "No such file or directory"), d)
           end.

(** [load_prepared_data()]: the raw table, the prepared table and the
    metadata, or three [None] when anything fails. *)
Definition load_prepared_data
  : M (option (DataFrame * DataFrame * list (string * string))) :=
  try_except
    (df <~ read_csv data_collector.raw_path ;;
     prepared_df <~ read_csv data_collector.prepared_path ;;
     metadata <~ read_metadata ;;
     ret (Some (df, prepared_df, metadata)))
    (fun _ => ret None).

End Loader.

(** [get_lag_analysis(df)]: the analysis, or two [None] when it raises. *)
Definition get_lag_analysis (sqrt : Q -> Q) (df : DataFrame)
  : option (data.RecordFrame * data.Pivot) :=
  match data.analyze_lag_importance sqrt df "BIST100" with
  | Ok r => Some r
  | Raise _ => None
  end.

End dashboard.

(* ===================================================================== *)
(** * Notions used to state further properties *)
(* ===================================================================== *)

Module notions.
Import pd.

(** The table of changes that [prepare_data] takes its features from. *)
Definition feature_table (df : DataFrame) (use_lags : bool) (lag_days : list nat)
  : DataFrame :=
  if use_lags
  then data.add_lag_features (data_collector.rename_change (data.change_table df))
                             lag_days
  else data_collector.rename_change (data.change_table df).

End notions.

(* ===================================================================== *)
(** * Further concrete tables and runs *)
(* ===================================================================== *)

Module sample.
Import pd io xgb.
Open Scope string_scope.

(** A disk that holds the six-day table as the cached raw file. *)
Definition cached_disk : fs :=
  [ (data_collector.raw_path, Csv example.prices) ].

(** A table without the target series. *)
Definition no_target : DataFrame :=
  mkDF [1; 2; 3]%Z [ ("Gold", map example.price [4; 5; 7]%Z) ].

(** A merged table with gaps: gold has no quote on two days, oil none at
    all. *)
Definition gappy : DataFrame :=
  mkDF [1; 2; 3; 4]%Z
       [ ("Gold", [NaN; example.price 5; NaN; example.price 7]);
         ("Oil", [NaN; NaN; NaN; NaN]) ].

(** A table with columns and no row. *)
Definition no_rows : DataFrame := mkDF [] [ ("BIST100", []) ].

(** Two trading days. *)
Definition two_days : DataFrame :=
  mkDF [1; 2]%Z [ ("BIST100", map example.price [10; 12]%Z);
                  ("Gold", map example.price [4; 5]%Z) ].

(** A provider that has BIST100 and gold on four days. *)
Definition bist_and_gold : data_collector.provider :=
  fun symbol _ _ =>
    if String.eqb symbol "XU100.IS" then
      data_collector.Close
        [ (1%Z, example.price 10); (2%Z, example.price 12);
          (3%Z, example.price 9); (4%Z, example.price 15) ]
    else if String.eqb symbol "GC=F" then
      data_collector.Close
        [ (1%Z, example.price 4); (2%Z, example.price 5);
          (3%Z, example.price 7); (4%Z, example.price 6) ]
    else data_collector.Failed.

(** The six-day table prepared without lag features. *)
Definition prepared_prices : data.prepared :=
  match data.prepare_data example.sqrt0 example.prices false [] with
  | Ok p => p
  | Raise _ => data.mkPrepared empty_frame [] [] (stats.mkScaler [] []) []
  end.

Definition training_prices : data_collector.training_data :=
  match data_collector.prepare_training_data example.sqrt0 example.prices with
  | Ok t => t
  | Raise _ => data_collector.mkTraining empty_frame [] empty_frame empty_frame
  end.

(** A collection on an empty disk. *)
Definition collected_run
  : result (option (DataFrame * DataFrame * string)) * fs :=
  data_collector.collect_data bist_and_gold example.sqrt0 10%Z 1%Q true [].

Definition collected_df : DataFrame :=
  match fst collected_run with
  | Ok (Some (df, _, _)) => df
  | _ => empty_frame
  end.

Definition collected_prepared : DataFrame :=
  match fst collected_run with
  | Ok (Some (_, prepared, _)) => prepared
  | _ => empty_frame
  end.




(** What the provider with gold and oil gives for days 0 to 10. *)
Definition downloaded : DataFrame :=
  match data_collector.download_data example.gold_and_oil 0%Z 10%Z
                                     data_collector.get_symbols with
  | Some df => df
  | None => empty_frame
  end.

(** A metadata text file is not parsed further here. *)
Definition no_lines (f : file) : list (string * string) := [].

End sample.
(* ===================================================================== *)
(** * Lists, columns and frames *)
(* ===================================================================== *)

Section ListFacts.
Import pd.

Lemma filter_all {A} (f : A -> bool) (l : list A) :
  (forall x, In x l -> f x = true) -> filter f l = l.
Proof.
  induction l as [|a l IH]; simpl; intros H; [reflexivity|].
  rewrite (H a (or_introl eq_refl)). f_equal. apply IH. intros; apply H; now right.
Qed.

Lemma filter_none {A} (f : A -> bool) (l : list A) :
  (forall x, In x l -> f x = false) -> filter f l = [].
Proof.
  induction l as [|a l IH]; simpl; intros H; [reflexivity|].
  rewrite (H a (or_introl eq_refl)). apply IH. intros; apply H; now right.
Qed.

(** Dropping the rows below a threshold keeps a contiguous range. *)
Lemma filter_seq_from (f : nat -> bool) (m n : nat) :
  (forall i, i < n -> f i = negb (i <? m)) ->
  filter f (seq 0 n) = seq (Nat.min m n) (n - m).
Proof.
  intros H.
  destruct (Nat.le_gt_cases n m) as [Hle|Hlt].
  - rewrite filter_none.
    + replace (n - m) with 0 by lia. reflexivity.
    + intros i Hi. apply in_seq in Hi. rewrite H by lia.
      destruct (Nat.ltb_spec i m); [reflexivity|lia].
  - replace n with (m + (n - m)) at 1 by lia.
    rewrite seq_app, filter_app, filter_none, filter_all; simpl.
    + now rewrite Nat.min_l by lia.
    + intros i Hi. apply in_seq in Hi. rewrite H by lia.
      destruct (Nat.ltb_spec i m); [lia|reflexivity].
    + intros i Hi. apply in_seq in Hi. rewrite H by lia.
      destruct (Nat.ltb_spec i m); [reflexivity|lia].
Qed.

Lemma map2_length {A B C} (f : A -> B -> C) (l : list A) (m : list B) :
  length (map2 f l m) = Nat.min (length l) (length m).
Proof.
  revert m; induction l as [|a l IH]; intros [|b m]; simpl; auto.
Qed.

Lemma map2_nth {A B C} (f : A -> B -> C) (l : list A) (m : list B) i da db dc :
  i < length l -> i < length m ->
  nth i (map2 f l m) dc = f (nth i l da) (nth i m db).
Proof.
  revert m i; induction l as [|a l IH]; intros [|b m] [|i]; simpl; intros;
    try lia; auto.
  apply IH; lia.
Qed.

Lemma shift_length k v : length (shift k v) = length v.
Proof.
  unfold shift. rewrite length_firstn, length_app, repeat_length. lia.
Qed.

Lemma shift_nth k v i :
  i < length v ->
  nth i (shift k v) NaN = if i <? k then NaN else nth (i - k) v NaN.
Proof.
  intros Hi. unfold shift. rewrite nth_firstn.
  destruct (Nat.ltb_spec i (length v)); [|lia].
  destruct (Nat.ltb_spec i k).
  - rewrite app_nth1 by (rewrite repeat_length; lia).
    apply nth_repeat.
  - rewrite app_nth2 by (rewrite repeat_length; lia).
    now rewrite repeat_length.
Qed.

Lemma ffill_from_present last v :
  Forall (fun x => isna x = false) v -> ffill_from last v = v.
Proof.
  revert last; induction v as [|c v IH]; intros last H; simpl; [reflexivity|].
  inversion H as [|? ? Hc Hv]; subst. rewrite Hc. f_equal. now apply IH.
Qed.

Lemma take_rows_length {A} (d : A) keep v : length (take_rows d keep v) = length keep.
Proof. unfold take_rows. apply length_map. Qed.

Lemma nrows_iloc keep df : nrows (iloc keep df) = length keep.
Proof. unfold nrows, iloc; simpl. apply take_rows_length. Qed.

Lemma column_names_iloc keep df : column_names (iloc keep df) = column_names df.
Proof.
  unfold column_names, iloc; simpl. rewrite map_map. reflexivity.
Qed.

End ListFacts.

(* ===================================================================== *)
(** * The change table *)
(* ===================================================================== *)

Section ChangeTable.
Import pd spec.

Lemma existsb_const {A} (f : A -> bool) (l : list A) (b : bool) :
  l <> [] -> (forall x, In x l -> f x = b) -> existsb f l = b.
Proof.
  destruct b.
  - intros Hne H. destruct l as [|a l]; [congruence|].
    simpl. now rewrite (H a (or_introl eq_refl)).
  - intros _ H. induction l as [|a l IH]; simpl; [reflexivity|].
    rewrite (H a (or_introl eq_refl)). apply IH. intros; apply H; now right.
Qed.

Lemma existsb_false {A} (f : A -> bool) (l : list A) x :
  existsb f l = false -> In x l -> f x = false.
Proof.
  intros H Hin. destruct (f x) eqn:E; [|reflexivity].
  assert (existsb f l = true) by (apply existsb_exists; eauto). congruence.
Qed.

Lemma ffill_from_length last v : length (ffill_from last v) = length v.
Proof. revert last; induction v; simpl; intros; auto. Qed.

Lemma pct_change_values_length v : length (pct_change_values v) = length v.
Proof.
  unfold pct_change_values, ffill.
  rewrite map2_length, shift_length, ffill_from_length. lia.
Qed.

Lemma positive_inv x :
  positive x = true -> exists q, x = Num q /\ Qeq_bool q 0 = false.
Proof.
  destruct x as [| | |q]; simpl; try discriminate.
  intros H. exists q. split; [reflexivity|].
  unfold Qltb in H. apply negb_true_iff in H.
  destruct (Qeq_bool q 0) eqn:E; [|reflexivity].
  apply Qeq_bool_iff in E.
  assert (Qle_bool q 0 = true) by (apply Qle_bool_iff; rewrite E; apply Qle_refl).
  congruence.
Qed.

Lemma positive_present v :
  Forall (fun x => positive x = true) v -> Forall (fun x => isna x = false) v.
Proof.
  apply Forall_impl. intros x H. apply positive_inv in H as (q & -> & _). reflexivity.
Qed.

(** In the change of a column of positive prices only the first entry is
    missing. *)
Lemma pct_change_values_isna v i :
  Forall (fun x => positive x = true) v -> i < length v ->
  isna (nth i (pct_change_values v) NaN) = (i =? 0).
Proof.
  intros Hpos Hi. unfold pct_change_values, ffill.
  rewrite (ffill_from_present NaN (positive_present Hpos)).
  rewrite (map2_nth _ v (shift 1 v) NaN NaN) by (rewrite ?shift_length; lia).
  rewrite shift_nth by lia.
  assert (Hx : positive (nth i v NaN) = true).
  { rewrite Forall_forall in Hpos. apply Hpos, nth_In, Hi. }
  apply positive_inv in Hx as (a & -> & _).
  destruct i as [|i]; simpl; [reflexivity|].
  assert (Hy : positive (nth (i - 0) v NaN) = true).
  { rewrite Forall_forall in Hpos. apply Hpos, nth_In. lia. }
  apply positive_inv in Hy as (b & -> & Hb).
  simpl. rewrite Hb. reflexivity.
Qed.

Lemma row_has_na_pct_change df i :
  PriceTable df -> i < nrows df ->
  row_has_na (columns (pct_change df)) i = (i =? 0).
Proof.
  intros [Hne Hwf _ Hpos] Hi. unfold row_has_na, pct_change; simpl.
  apply existsb_const.
  - destruct (columns df); [congruence|discriminate].
  - intros c Hc. apply in_map_iff in Hc as (c0 & <- & Hc0). simpl.
    unfold well_formed in Hwf. rewrite Forall_forall in Hwf, Hpos.
    apply pct_change_values_isna; [now apply Hpos|].
    now rewrite (Hwf c0 Hc0).
Qed.

Lemma nrows_pct_change df : nrows (pct_change df) = nrows df.
Proof. reflexivity. Qed.

Lemma change_table_rows df :
  PriceTable df -> nrows (data.change_table df) = nrows df - 1.
Proof.
  intros Hpt. unfold data.change_table, dropna.
  rewrite nrows_iloc, nrows_pct_change.
  rewrite (@filter_seq_from _ 1 (nrows df)).
  - apply length_seq.
  - intros i Hi. rewrite row_has_na_pct_change by assumption.
    now destruct i.
Qed.

(** Whatever the frame, [dropna] leaves no missing value. *)
Lemma dropna_no_missing df : no_missing (dropna df).
Proof.
  unfold no_missing, dropna, iloc; simpl.
  apply Forall_map, Forall_forall. intros c Hc. simpl.
  unfold take_rows. apply Forall_map, Forall_forall. intros i Hi.
  apply filter_In in Hi as [_ Hi]. apply negb_true_iff in Hi.
  unfold row_has_na in Hi.
  exact (existsb_false (fun c => isna (nth i (snd c) NaN)) _ c Hi Hc).
Qed.

Lemma no_missing_rename df :
  no_missing df -> no_missing (data_collector.rename_change df).
Proof.
  unfold no_missing, data_collector.rename_change; simpl.
  intros H. apply Forall_map. revert H. apply Forall_impl. auto.
Qed.

End ChangeTable.

(** C2. For every valid price table (at least one series, dates strictly
    increasing, every price present and positive) the change table built by
    [prepare_data] and [analyze_lag_importance] has one row fewer than the
    price table (none when the price table has none) and none of its rows
    holds a missing value; renaming the columns to [*_change] changes
    neither. *)
Theorem C2_change_table_rows_and_values (df : pd.DataFrame) :
  spec.PriceTable df ->
  pd.nrows (data.change_table df) = pd.nrows df - 1 /\
  spec.no_missing (data.change_table df) /\
  pd.nrows (data_collector.rename_change (data.change_table df)) = pd.nrows df - 1 /\
  spec.no_missing (data_collector.rename_change (data.change_table df)).
Proof.
  intros Hpt. repeat split.
  - now apply change_table_rows.
  - apply dropna_no_missing.
  - unfold data_collector.rename_change, pd.nrows; simpl.
    now apply change_table_rows.
  - apply no_missing_rename, dropna_no_missing.
Qed.

(* ===================================================================== *)
(** * Column names *)
(* ===================================================================== *)

Section Names.
Import pd spec.
Open Scope string_scope.

Lemma all_digits_string_of_uint d :
  all_digits (NilEmpty.string_of_uint d) = true.
Proof. induction d; simpl; auto. Qed.

Lemma str_digits n : all_digits (data.str n) = true.
Proof. apply all_digits_string_of_uint. Qed.

Lemma str_inj n n' : data.str n = data.str n' -> n = n'.
Proof.
  unfold data.str. intros H.
  apply DecimalNat.Unsigned.to_uint_inj.
  assert (E : Some (Nat.to_uint n) = Some (Nat.to_uint n')).
  { rewrite <- (NilEmpty.usu (Nat.to_uint n)), <- (NilEmpty.usu (Nat.to_uint n')).
    now rewrite H. }
  now injection E.
Qed.

Lemma all_digits_app_sep b t : all_digits (b ++ String "_" t) = false.
Proof.
  induction b as [|a b IH]; simpl; [reflexivity|].
  rewrite IH. apply andb_false_r.
Qed.

(** A name [col ++ "_lag" ++ digits] determines both the column and the
    digits. *)
Lemma lag_suffix_unique a b s t :
  all_digits s = true -> all_digits t = true ->
  a ++ "_lag" ++ s = b ++ "_lag" ++ t -> a = b /\ s = t.
Proof.
  intros Hs Ht. revert b. induction a as [|x a IH]; intros [|y b]; simpl; intros E.
  - injection E; auto.
  - exfalso. injection E as _ E.
    destruct b as [|y1 [|y2 [|y3 b]]]; simpl in E; try discriminate.
    injection E as _ _ _ E. subst s.
    rewrite all_digits_app_sep in Hs. discriminate.
  - exfalso. injection E as _ E.
    destruct a as [|x1 [|x2 [|x3 a]]]; simpl in E; try discriminate.
    injection E as _ _ _ E. subst t.
    rewrite all_digits_app_sep in Ht. discriminate.
  - injection E as Hxy E. destruct (IH b E) as [Ha Hst]. subst. auto.
Qed.

Lemma lag_col_name_inj c l c' l' :
  data.lag_col_name c l = data.lag_col_name c' l' -> c = c' /\ l = l'.
Proof.
  unfold data.lag_col_name. intros E.
  apply lag_suffix_unique in E; try apply str_digits.
  destruct E as [-> E]. split; [reflexivity|]. now apply str_inj.
Qed.

Lemma prefix_app p c s : String.prefix p c = true -> String.prefix p (c ++ s) = true.
Proof.
  revert c; induction p as [|x p IH]; intros c.
  - intros _. now destruct (c ++ s).
  - destruct c as [|y c]; simpl; [discriminate|].
    destruct (ascii_dec x y); auto.
Qed.

Lemma prefix_app_sep p c rest :
  has_char "_" p = false ->
  String.prefix p (c ++ String "_" rest) = true -> String.prefix p c = true.
Proof.
  revert c; induction p as [|x p IH]; intros c Hp; [now destruct c|].
  simpl in Hp. apply orb_false_iff in Hp as [Hx Hp].
  destruct c as [|y c]; simpl.
  - destruct (ascii_dec x "_") as [->|]; [|auto].
    rewrite Ascii.eqb_refl in Hx. discriminate.
  - destruct (ascii_dec x y); auto.
Qed.

(** The lag name of a column that starts with BIST100 is not the lag name
    of a column that does not. *)
Lemma lag_name_not_external c l c' l' :
  String.prefix "BIST100" c = true -> String.prefix "BIST100" c' = false ->
  data.lag_col_name c l <> data.lag_col_name c' l'.
Proof.
  intros Hc Hc' E.
  assert (H : String.prefix "BIST100" (data.lag_col_name c' l') = true).
  { rewrite <- E. unfold data.lag_col_name. now apply prefix_app. }
  unfold data.lag_col_name in H. simpl in H.
  apply prefix_app_sep in H; [congruence|reflexivity].
Qed.

End Names.

(* ===================================================================== *)
(** * Lag augmentation *)
(* ===================================================================== *)

Section Assignment.
Import pd.
Context {A : Type}.

Lemma lookup_set_column_eq k (v : A) cols : lookup k (set_column k v cols) = Some v.
Proof.
  induction cols as [|[n w] cols IH]; simpl.
  - now rewrite String.eqb_refl.
  - destruct (String.eqb n k) eqn:E; simpl; rewrite E; auto.
Qed.

Lemma lookup_set_column_ne k k' (v : A) cols :
  k <> k' -> lookup k' (set_column k v cols) = lookup k' cols.
Proof.
  intros Hne. induction cols as [|[n w] cols IH]; simpl.
  - destruct (String.eqb_spec k k'); [contradiction|reflexivity].
  - destruct (String.eqb_spec n k) as [->|Hn]; simpl.
    + destruct (String.eqb_spec k k'); [contradiction|reflexivity].
    + now rewrite IH.
Qed.

Lemma set_column_Forall (P : string * A -> Prop) k v cols :
  P (k, v) -> Forall P cols -> Forall P (set_column k v cols).
Proof.
  intros Hk. induction 1 as [|[n w] cols Hc Hcols IH]; simpl.
  - auto.
  - destruct (String.eqb_spec n k) as [->|Hn]; constructor; auto.
Qed.

Lemma lookup_In k (v : A) cols : lookup k cols = Some v -> In (k, v) cols.
Proof.
  induction cols as [|[n w] cols IH]; simpl; [discriminate|].
  destruct (String.eqb_spec n k) as [->|Hn].
  - intros [= ->]. now left.
  - intros H. right. auto.
Qed.

Lemma In_lookup k (cols : list (string * A)) :
  In k (map fst cols) -> exists v, lookup k cols = Some v.
Proof.
  induction cols as [|[n w] cols IH]; simpl; [tauto|].
  intros [->|H].
  - rewrite String.eqb_refl. eauto.
  - destruct (String.eqb n k); eauto.
Qed.

Lemma lookup_None k (cols : list (string * A)) :
  ~ In k (map fst cols) -> lookup k cols = None.
Proof.
  induction cols as [|[n w] cols IH]; simpl; [reflexivity|].
  intros H. destruct (String.eqb_spec n k) as [->|Hn]; [tauto|].
  apply IH. tauto.
Qed.

Lemma set_column_fresh k (v : A) cols :
  ~ In k (map fst cols) -> set_column k v cols = cols ++ [(k, v)].
Proof.
  induction cols as [|[n w] cols IH]; simpl; [reflexivity|].
  intros H. destruct (String.eqb_spec n k) as [->|Hn]; [tauto|].
  f_equal. apply IH. tauto.
Qed.

End Assignment.

Section LagFeatures.
Import pd spec.

Variable df_pct : DataFrame.
Variable lags : list nat.

Let step (acc : list (string * list cell)) (p : string * nat) :=
  data.add_lag df_pct (fst p) acc (snd p).

Lemma inner_loop_pairs col acc :
  fold_left (data.add_lag df_pct col) lags acc
  = fold_left step (map (pair col) lags) acc.
Proof.
  revert acc. induction lags as [|l ls IH]; intros acc; simpl; [reflexivity|].
  apply IH.
Qed.

Lemma with_lag_columns_pairs :
  data.with_lag_columns df_pct lags
  = fold_left step (lag_pairs (data.external_cols df_pct) lags) (columns df_pct).
Proof.
  unfold data.with_lag_columns, lag_pairs.
  generalize (columns df_pct) at 1 2 as acc.
  induction (data.external_cols df_pct) as [|c cs IH]; intros acc; simpl;
    [reflexivity|].
  rewrite fold_left_app, <- inner_loop_pairs. apply IH.
Qed.

Lemma in_lag_pairs cols p :
  In p (lag_pairs cols lags) <-> In (fst p) cols /\ In (snd p) lags.
Proof.
  unfold lag_pairs. rewrite in_flat_map. split.
  - intros (c & Hc & Hp). apply in_map_iff in Hp as (l & <- & Hl). auto.
  - intros [Hc Hl]. exists (fst p). split; [assumption|].
    apply in_map_iff. exists (snd p). now destruct p.
Qed.

(** A property of columns that the originals have and every assigned lag
    column has holds of all columns at the end. *)
Lemma fold_step_Forall (P : string * list cell -> Prop) pairs acc :
  (forall p v, In p pairs -> lookup (fst p) (columns df_pct) = Some v ->
               P (data.lag_col_name (fst p) (snd p), shift (snd p) v)) ->
  Forall P acc -> Forall P (fold_left step pairs acc).
Proof.
  revert acc. induction pairs as [|p pairs IH]; intros acc HP Hacc; simpl; [assumption|].
  apply IH; [intros; apply HP; simpl; auto|].
  unfold step, data.add_lag.
  destruct (lookup (fst p) (columns df_pct)) as [v|] eqn:E; [|assumption].
  apply set_column_Forall; [|assumption]. apply HP; simpl; auto.
Qed.

(** An assigned lag column is still there, with its values, at the end. *)
Lemma fold_step_lookup pairs acc p v :
  lookup (fst p) (columns df_pct) = Some v ->
  In p pairs
  \/ lookup (data.lag_col_name (fst p) (snd p)) acc = Some (shift (snd p) v) ->
  lookup (data.lag_col_name (fst p) (snd p)) (fold_left step pairs acc)
  = Some (shift (snd p) v).
Proof.
  intros Hv. revert acc. induction pairs as [|q pairs IH]; intros acc H; simpl.
  - destruct H as [[]|H]; assumption.
  - apply IH. destruct H as [[->|H]|H]; [right|now left|right].
    + unfold step, data.add_lag. rewrite Hv. apply lookup_set_column_eq.
    + unfold step, data.add_lag.
      destruct (lookup (fst q) (columns df_pct)) as [w|] eqn:E; [|assumption].
      destruct (String.eqb_spec (data.lag_col_name (fst q) (snd q))
                                (data.lag_col_name (fst p) (snd p))) as [Heq|Hne].
      * rewrite Heq. apply lag_col_name_inj in Heq as [Hc Hl].
        rewrite Hc, Hv in E. injection E as <-. rewrite Hl.
        apply lookup_set_column_eq.
      * now rewrite lookup_set_column_ne.
Qed.

Lemma list_max_In (l : list nat) : l <> [] -> In (list_max l) l.
Proof.
  induction l as [|a l IH]; [congruence|]. intros _.
  destruct l as [|b l]; [simpl; left; lia|].
  change (list_max (a :: b :: l)) with (Nat.max a (list_max (b :: l))).
  destruct (Nat.max_spec a (list_max (b :: l))) as [[_ ->]|[_ ->]].
  - right. apply IH. discriminate.
  - now left.
Qed.

Lemma list_max_ge (l : list nat) x : In x l -> x <= list_max l.
Proof.
  intros H. assert (Hle : list_max l <= list_max l) by lia.
  apply list_max_le in Hle. rewrite Forall_forall in Hle. auto.
Qed.

Hypothesis Hwf : well_formed df_pct.
Hypothesis Hfull : no_missing df_pct.

Let n := nrows df_pct.
Let m := list_max lags.

(** What is true of every column once the loops are done: it has the length
    of the index and nothing is missing from row [m] on. *)
Let settled (c : string * list cell) : Prop :=
  length (snd c) = n /\
  forall i, m <= i -> i < n -> isna (nth i (snd c) NaN) = false.

Lemma original_settled c : In c (columns df_pct) -> settled c.
Proof.
  intros Hc. unfold well_formed, no_missing in *.
  rewrite Forall_forall in Hwf, Hfull. split; [now apply Hwf|].
  intros i _ Hi. specialize (Hfull c Hc). rewrite Forall_forall in Hfull.
  apply Hfull, nth_In. now rewrite (Hwf c Hc).
Qed.

Lemma shifted_settled name col l v :
  In l lags -> In (col, v) (columns df_pct) -> settled (name, shift l v).
Proof.
  intros Hl Hv. destruct (original_settled _ Hv) as [Hlen Hna]. simpl in *.
  split; simpl; [now rewrite shift_length|].
  intros i Hm Hi. rewrite shift_nth by lia.
  pose proof (list_max_ge _ _ Hl).
  destruct (Nat.ltb_spec i l); [unfold m in *; lia|].
  unfold no_missing in Hfull. rewrite Forall_forall in Hfull.
  specialize (Hfull _ Hv). rewrite Forall_forall in Hfull.
  apply Hfull, nth_In. simpl. lia.
Qed.

Lemma with_lag_columns_settled :
  Forall settled (data.with_lag_columns df_pct lags).
Proof.
  rewrite with_lag_columns_pairs. apply fold_step_Forall.
  - intros p v Hp Hv. apply in_lag_pairs in Hp as [_ Hl].
    apply shifted_settled with (col := fst p); [assumption|]. now apply lookup_In.
  - apply Forall_forall. apply original_settled.
Qed.

Lemma external_in_names col :
  In col (data.external_cols df_pct) -> In col (column_names df_pct).
Proof. unfold data.external_cols. intros H. now apply filter_In in H. Qed.

(** With an external column and a lag, the rows with a missing value are
    the first [m]. *)
Lemma row_has_na_with_lags i :
  data.external_cols df_pct <> [] -> lags <> [] -> i < n ->
  row_has_na (data.with_lag_columns df_pct lags) i = (i <? m).
Proof.
  intros Hext Hlags Hi.
  destruct (Nat.ltb_spec i m) as [Hlt|Hge].
  - destruct (data.external_cols df_pct) as [|c0 cs] eqn:Ecols; [congruence|].
    assert (Hc0 : In c0 (data.external_cols df_pct)) by (rewrite Ecols; now left).
    destruct (In_lookup _ _ (external_in_names _ Hc0)) as [v Hv].
    assert (Hlook : lookup (data.lag_col_name c0 m)
                      (data.with_lag_columns df_pct lags) = Some (shift m v)).
    { rewrite with_lag_columns_pairs.
      apply (fold_step_lookup _ _ (c0, m) Hv). left.
      apply in_lag_pairs. simpl. split; [assumption|].
      now apply list_max_In. }
    apply lookup_In in Hlook. unfold row_has_na. apply existsb_exists.
    eexists. split; [exact Hlook|]. simpl.
    destruct (original_settled _ (lookup_In _ _ Hv)) as [Hlen _]. simpl in Hlen.
    rewrite shift_nth by lia.
    destruct (Nat.ltb_spec i m); [reflexivity|lia].
  - unfold row_has_na.
    destruct (existsb _ _) eqn:E; [|reflexivity].
    apply existsb_exists in E as (c & Hc & Hna).
    pose proof with_lag_columns_settled as Hall. rewrite Forall_forall in Hall.
    destruct (Hall c Hc) as [_ H]. rewrite H in Hna by assumption. discriminate.
Qed.

Lemma add_lag_features_rows :
  data.external_cols df_pct <> [] -> lags <> [] ->
  nrows (data.add_lag_features df_pct lags) = n - m.
Proof.
  intros Hext Hlags. unfold data.add_lag_features, dropna.
  rewrite nrows_iloc. cbn [columns nrows index].
  rewrite (@filter_seq_from _ m (nrows df_pct)).
  - apply length_seq.
  - intros i Hi. fold n in Hi. now rewrite row_has_na_with_lags.
Qed.

(** Where the names of the augmented table come from. *)
Let sourced (c : string * list cell) : Prop :=
  In (fst c) (column_names df_pct) \/
  exists col l, In col (data.external_cols df_pct) /\ In l lags /\
                fst c = data.lag_col_name col l.

Lemma with_lag_columns_sourced :
  Forall sourced (data.with_lag_columns df_pct lags).
Proof.
  rewrite with_lag_columns_pairs. apply fold_step_Forall.
  - intros p v Hp _. apply in_lag_pairs in Hp as [Hc Hl].
    right. exists (fst p), (snd p). auto.
  - apply Forall_forall. intros c Hc. left. now apply in_map.
Qed.

Lemma add_lag_features_names name :
  In name (column_names (data.add_lag_features df_pct lags)) ->
  In name (column_names df_pct) \/
  exists col l, In col (column_names df_pct) /\
                String.prefix "BIST100" col = false /\ In l lags /\
                name = data.lag_col_name col l.
Proof.
  unfold data.add_lag_features, dropna. rewrite column_names_iloc.
  unfold column_names at 1. cbn [columns]. intros H.
  apply in_map_iff in H as (c & <- & Hc).
  pose proof with_lag_columns_sourced as Hall. rewrite Forall_forall in Hall.
  destruct (Hall c Hc) as [Ho|(col & l & Hcol & Hl & E)]; [now left|right].
  exists col, l. unfold data.external_cols in Hcol.
  apply filter_In in Hcol as [Hin Hpre]. apply negb_true_iff in Hpre. auto.
Qed.

End LagFeatures.

(** C3, as stated, fails on a change table that holds the target column
    only: no lag column is added, so no row is dropped (three rows stay
    three, where C3 expects two). *)
Lemma C3_counterexample_target_only :
  let df_pct :=
    pd.mkDF [1; 2; 3]%Z
            [("BIST100_change"%string, [pd.Num 1; pd.Num 2; pd.Num 3])] in
  spec.well_formed df_pct /\ spec.no_missing df_pct /\ [1] <> @nil nat /\
  pd.nrows (data.add_lag_features df_pct [1]) = 3 /\
  pd.nrows (data.add_lag_features df_pct [1])
    <> pd.nrows df_pct - list_max [1].
Proof.
  cbv zeta. split; [|split; [|split; [|split]]].
  - repeat constructor.
  - repeat constructor.
  - discriminate.
  - reflexivity.
  - vm_compute. discriminate.
Qed.

(** C3, amended. For every change table without missing values that has at
    least one column whose name does not start with BIST100, and every
    non-empty list of lags, the lag-augmented table has the rows of the
    change table minus the largest lag (none when the largest lag is at
    least the row count); every column of the result is a column of the
    change table or the lag column of a column that does not start with
    BIST100, so a column that starts with BIST100, the target among them,
    gets no lag column. *)
Theorem C3_lag_rows_and_target_unlagged (df_pct : pd.DataFrame) (lags : list nat) :
  spec.well_formed df_pct -> spec.no_missing df_pct -> lags <> [] ->
  data.external_cols df_pct <> [] ->
  pd.nrows (data.add_lag_features df_pct lags) = pd.nrows df_pct - list_max lags /\
  (forall name,
      In name (pd.column_names (data.add_lag_features df_pct lags)) ->
      In name (pd.column_names df_pct) \/
      exists col l, In col (pd.column_names df_pct) /\
                    String.prefix "BIST100" col = false /\ In l lags /\
                    name = data.lag_col_name col l) /\
  (forall col l,
      String.prefix "BIST100" col = true ->
      In (data.lag_col_name col l)
         (pd.column_names (data.add_lag_features df_pct lags)) ->
      In (data.lag_col_name col l) (pd.column_names df_pct)).
Proof.
  intros Hwf Hfull Hlags Hext. split; [|split].
  - now apply add_lag_features_rows.
  - apply add_lag_features_names.
  - intros col l Hpre Hin.
    apply add_lag_features_names in Hin as [Hin|(c & k & _ & Hc & _ & E)];
      [assumption|].
    exfalso. exact (lag_name_not_external _ _ _ _ Hpre Hc E).
Qed.

(* ===================================================================== *)
(** * The label series *)
(* ===================================================================== *)

Section Labels.
Import pd spec.

Lemma nth_removelast {A} (l : list A) i d :
  i < length l - 1 -> nth i (removelast l) d = nth i l d.
Proof.
  revert i; induction l as [|a l IH]; intros i Hi; simpl in *; [lia|].
  destruct l as [|b l]; [simpl in *; lia|].
  destruct i as [|i]; [reflexivity|].
  change (nth i (removelast (b :: l)) d = nth i (b :: l) d).
  apply IH. simpl in *. lia.
Qed.

Lemma length_removelast {A} (l : list A) : length (removelast l) = length l - 1.
Proof.
  induction l as [|a l IH]; [reflexivity|].
  destruct l as [|b l]; [reflexivity|].
  change (S (length (removelast (b :: l))) = S (length (b :: l)) - 1).
  rewrite IH. simpl. lia.
Qed.

Lemma nth_tl {A} (l : list A) i d : nth i (tl l) d = nth (S i) l d.
Proof. destruct l; [now destruct i|reflexivity]. Qed.

Lemma length_tl {A} (l : list A) : length (tl l) = length l - 1.
Proof. destruct l; simpl; lia. Qed.

Lemma map_fst_combine_eq {A B} (l : list A) (l' : list B) :
  length l = length l' -> map fst (combine l l') = l.
Proof.
  revert l'; induction l as [|a l IH]; intros [|b l'] H; simpl in *;
    try discriminate; [reflexivity|].
  f_equal. apply IH. lia.
Qed.

Lemma map_snd_combine_eq {A B} (l : list A) (l' : list B) :
  length l = length l' -> map snd (combine l l') = l'.
Proof.
  revert l'; induction l as [|a l IH]; intros [|b l'] H; simpl in *;
    try discriminate; [reflexivity|].
  f_equal. apply IH. lia.
Qed.

Lemma last_not_in_removelast (l : list date) d :
  NoDup l -> l <> [] -> ~ In (last l d) (removelast l).
Proof.
  intros Hnd Hne Hin.
  rewrite (app_removelast_last d Hne) in Hnd.
  apply NoDup_remove_2 in Hnd. rewrite app_nil_r in Hnd. contradiction.
Qed.

Lemma in_loc {A} labels (rows : list (date * A)) r :
  In r (loc labels rows) -> In r rows.
Proof.
  unfold loc. intros H. apply in_flat_map in H as (d & _ & H).
  now apply filter_In in H.
Qed.

Lemma increasing_lower d l : increasing (d :: l) -> Forall (fun e => (d < e)%Z) l.
Proof.
  revert d; induction l as [|e l IH]; intros d H; constructor.
  - simpl in H. tauto.
  - destruct H as [Hde H]. specialize (IH e H).
    revert IH. apply Forall_impl. intros; lia.
Qed.

Lemma increasing_NoDup l : increasing l -> NoDup l.
Proof.
  induction l as [|d l IH]; intros H; constructor.
  - pose proof (increasing_lower H) as Hl. rewrite Forall_forall in Hl.
    intros Hin. specialize (Hl d Hin). lia.
  - apply IH. simpl in H. tauto.
Qed.

Lemma target_frame_spec df bist :
  lookup "BIST100"%string (columns df) = Some bist -> length bist = nrows df ->
  exists labels,
    data_collector.target_frame df = Ok labels /\
    map fst labels = removelast (index df) /\
    length labels = nrows df - 1 /\
    forall i, i + 1 < nrows df ->
              nth i labels (0%Z, 0%Z)
              = (nth i (index df) 0%Z,
                 direction (nth (i + 1) bist NaN) (nth i bist NaN)).
Proof.
  intros Hb Hlen. unfold data_collector.target_frame, getitem. rewrite Hb. simpl.
  eexists. split; [reflexivity|].
  assert (Hl2 : length (map2 (fun tm td => if cell_gtb tm td then 1%Z else 0%Z)
                             (tl bist) (removelast bist)) = nrows df - 1).
  { rewrite map2_length, length_tl, length_removelast. lia. }
  assert (Hl1 : length (removelast (index df)) = nrows df - 1)
    by apply length_removelast.
  split; [apply map_fst_combine_eq; lia|].
  split; [rewrite length_combine; lia|].
  intros i Hi.
  rewrite combine_nth by lia.
  f_equal.
  - apply nth_removelast. unfold nrows in Hi. lia.
  - rewrite (map2_nth _ _ _ NaN NaN)
      by (rewrite ?length_tl, ?length_removelast; lia).
    rewrite nth_tl, nth_removelast by lia.
    unfold direction. now replace (i + 1) with (S i) by lia.
Qed.

End Labels.

Section PreparedLabels.
Import pd spec.

Lemma prepare_data_labels sqrt df use_lags lag_days labels p :
  data_collector.target_frame df = Ok labels ->
  data.prepare_data sqrt df use_lags lag_days = Ok p ->
  incl (data.y_data p) labels.
Proof.
  intros Ht Hp. unfold data.prepare_data in Hp. rewrite Ht in Hp. simpl in Hp.
  destruct (stats.fit_transform _ _) as [fitted|e]; simpl in Hp; [|discriminate].
  injection Hp as <-. simpl. intros r Hr. exact (in_loc _ _ _ Hr).
Qed.

Lemma prepare_training_data_labels sqrt df labels t :
  data_collector.target_frame df = Ok labels ->
  data_collector.prepare_training_data sqrt df = Ok t ->
  incl (data_collector.y_data t) labels.
Proof.
  intros Ht Hp. unfold data_collector.prepare_training_data in Hp.
  rewrite Ht in Hp. simpl in Hp.
  destruct (stats.fit_transform _ _) as [fitted|e]; simpl in Hp; [|discriminate].
  injection Hp as <-. simpl. intros r Hr. exact (in_loc _ _ _ Hr).
Qed.

End PreparedLabels.

(** C1. For every price table with unique dates, a BIST100 column and at
    least two rows, the label frame built by data preparation has one row
    per date except the last; the label of the [i]-th date is 1 when the
    BIST100 price of the next row is greater than that of the row, and 0
    otherwise; the last date has no label.  The labels returned by
    [prepare_data] and [prepare_training_data] are rows of this frame, so
    they carry the same values and none is for the last date. *)
Theorem C1_direction_labels (df : pd.DataFrame) (bist : list pd.cell) :
  NoDup (pd.index df) -> 2 <= pd.nrows df ->
  pd.lookup "BIST100"%string (pd.columns df) = Some bist ->
  length bist = pd.nrows df ->
  exists labels,
    data_collector.target_frame df = pd.Ok labels /\
    map fst labels = removelast (pd.index df) /\
    (forall i, i + 1 < pd.nrows df ->
       nth i labels (0%Z, 0%Z)
       = (nth i (pd.index df) 0%Z,
          if pd.cell_gtb (nth (i + 1) bist pd.NaN) (nth i bist pd.NaN)
          then 1%Z else 0%Z)) /\
    (forall v, ~ In (last (pd.index df) 0%Z, v) labels) /\
    (forall sqrt use_lags lag_days p,
       data.prepare_data sqrt df use_lags lag_days = pd.Ok p ->
       incl (data.y_data p) labels /\
       forall v, ~ In (last (pd.index df) 0%Z, v) (data.y_data p)) /\
    (forall sqrt t,
       data_collector.prepare_training_data sqrt df = pd.Ok t ->
       incl (data_collector.y_data t) labels /\
       forall v, ~ In (last (pd.index df) 0%Z, v) (data_collector.y_data t)).
Proof.
  intros Hnd Hrows Hb Hlen.
  destruct (target_frame_spec df Hb Hlen) as (labels & Ht & Hidx & _ & Hnth).
  assert (Hlast : forall v, ~ In (last (pd.index df) 0%Z, v) labels).
  { intros v Hin. apply (in_map fst) in Hin. rewrite Hidx in Hin. simpl in Hin.
    revert Hin. apply last_not_in_removelast; [assumption|].
    unfold pd.nrows in Hrows. destruct (pd.index df); simpl in *; [lia|discriminate]. }
  exists labels. repeat split; try assumption.
  - eapply prepare_data_labels; eassumption.
  - intros v Hin. apply (Hlast v).
    eapply prepare_data_labels; eassumption.
  - eapply prepare_training_data_labels; eassumption.
  - intros v Hin. apply (Hlast v).
    eapply prepare_training_data_labels; eassumption.
Qed.

(* ===================================================================== *)
(** * Lag-correlation records *)
(* ===================================================================== *)

Section LagRecords.
Import pd spec.

Lemma fold_left_emit {A B} (f : A -> list B) (l : list A) (acc : list B) :
  fold_left (fun acc x => acc ++ f x) l acc = acc ++ flat_map f l.
Proof.
  revert acc. induction l as [|a l IH]; intros acc; simpl.
  - now rewrite app_nil_r.
  - now rewrite IH, app_assoc.
Qed.

Lemma fold_left_ext {A B} (f g : A -> B -> A) (l : list B) (a : A) :
  (forall x y, f x y = g x y) -> fold_left f l a = fold_left g l a.
Proof.
  intros H. revert a. induction l as [|b l IH]; intros a; simpl; [reflexivity|].
  now rewrite H, IH.
Qed.

Lemma lag_step_emits sqrt df_pct target col acc lag :
  data.lag_step sqrt df_pct target col acc lag
  = acc ++ emitted sqrt df_pct target col lag.
Proof.
  unfold data.lag_step, emitted.
  destruct (lookup col (columns df_pct)) as [v|]; [|now rewrite app_nil_r].
  destruct (data.valid_idx _ _) as [|d idx]; simpl; [now rewrite app_nil_r|].
  reflexivity.
Qed.

(** The two loops append, column by column and lag by lag, what [emitted]
    gives. *)
Lemma collect_lag_corrs_flat sqrt df_pct target cols :
  data.collect_lag_corrs sqrt df_pct target cols
  = flat_map (fun col =>
                flat_map (emitted sqrt df_pct target col) (seq 1 data.max_lag))
             cols.
Proof.
  unfold data.collect_lag_corrs.
  rewrite (fold_left_ext _
             (fun acc col => acc ++ flat_map (emitted sqrt df_pct target col)
                                            (seq 1 data.max_lag))).
  - now rewrite fold_left_emit.
  - intros acc col.
    rewrite (fold_left_ext _ (fun a lag => a ++ emitted sqrt df_pct target col lag)).
    + apply fold_left_emit.
    + intros; apply lag_step_emits.
Qed.

Lemma in_emitted sqrt df_pct target col lag r :
  In r (emitted sqrt df_pct target col lag) <->
  exists v, lookup col (columns df_pct) = Some v /\
    let lagged := s_shift lag (series_of df_pct v) in
    let idx := data.valid_idx lagged target in
    idx <> [] /\
    r = data.mkLagCorr col lag (stats.corr sqrt (loc idx target) (loc idx lagged)).
Proof.
  unfold emitted. destruct (lookup col (columns df_pct)) as [v|].
  - destruct (data.valid_idx (s_shift lag (series_of df_pct v)) target)
      as [|d idx] eqn:E; simpl.
    + split; [tauto|]. intros (w & [= <-] & H). rewrite E in H. tauto.
    + split.
      * intros [<-|[]]. exists v. rewrite E. repeat split. discriminate.
      * intros (w & [= <-] & H). rewrite E in H. simpl in H. left. now destruct H.
  - simpl. split; [tauto|]. intros (w & Hw & _). discriminate.
Qed.

Lemma in_other_cols df_pct target_col col :
  In col (data.other_cols df_pct target_col) <->
  In col (column_names df_pct) /\ col <> target_col.
Proof.
  unfold data.other_cols. rewrite filter_In, negb_true_iff, String.eqb_neq. tauto.
Qed.

(** ** Few overlapping points *)

Lemma NoDup_take_rows (l : list Z) keep :
  NoDup l -> NoDup keep -> (forall i, In i keep -> i < length l) ->
  NoDup (take_rows 0%Z keep l).
Proof.
  intros Hl Hk Hlt. unfold take_rows.
  induction Hk as [|i keep Hi Hk IH]; simpl; constructor.
  - intros Hin. apply in_map_iff in Hin as (j & Hj & Hjin).
    assert (j = i).
    { apply (proj1 (NoDup_nth l 0%Z) Hl); auto using in_cons, in_eq. }
    subst. contradiction.
  - apply IH. intros; apply Hlt. now right.
Qed.

Lemma NoDup_index_dropna df : NoDup (index df) -> NoDup (index (dropna df)).
Proof.
  intros H. unfold dropna, iloc; simpl. apply NoDup_take_rows; [assumption| |].
  - apply NoDup_filter, seq_NoDup.
  - intros i Hi. apply filter_In in Hi as [Hi _]. apply in_seq in Hi.
    unfold nrows in Hi. lia.
Qed.

Lemma NoDup_fst_combine {B} (l : list Z) (l' : list B) :
  NoDup l -> NoDup (map fst (combine l l')).
Proof.
  intros H. revert l'. induction H as [|a l Ha H IH]; intros [|b l']; simpl;
    try constructor; auto.
  intros Hin. apply Ha. apply in_map_iff in Hin as ([x y] & <- & Hxy).
  simpl. eapply in_combine_l; eassumption.
Qed.

Lemma filter_label_unique {B} (rows : list (Z * B)) d :
  NoDup (map fst rows) -> length (filter (fun r => Z.eqb (fst r) d) rows) <= 1.
Proof.
  induction rows as [|[e x] rows IH]; simpl; intros H; [lia|].
  inversion H as [|? ? Hnin Hnd]; subst.
  destruct (Z.eqb_spec e d) as [->|Hne]; [|auto].
  rewrite filter_none; [simpl; lia|].
  intros [e' x'] Hin. simpl. destruct (Z.eqb_spec e' d) as [->|]; [|reflexivity].
  exfalso. apply Hnin. apply in_map_iff. now exists (d, x').
Qed.

Lemma loc_short {B} (rows : list (Z * B)) idx :
  NoDup (map fst rows) -> length idx < 2 -> length (loc idx rows) <= 1.
Proof.
  intros Hnd Hlen. destruct idx as [|d [|e idx]]; simpl in *; [lia| |lia].
  rewrite app_nil_r. now apply filter_label_unique.
Qed.

(** With at most one row on either side the correlation is NaN. *)
Lemma corr_short sqrt (a b : Series) :
  length a <= 1 -> length b <= 1 -> stats.corr sqrt a b = NaN.
Proof.
  intros Ha Hb.
  destruct a as [|[d x] [|? ?]]; simpl in Ha; try lia; [reflexivity|].
  destruct b as [|[e y] [|? ?]]; simpl in Hb; try lia; [reflexivity|].
  unfold stats.corr. simpl.
  destruct (Z.eqb e d); simpl; [|reflexivity].
  destruct (notna x && notna y); reflexivity.
Qed.

(** ** The pivot succeeds on the records of distinct columns *)

Lemma has_duplicate_key_NoDup rows :
  NoDup (map (fun r => (data.variable r, data.lag_days r)) rows) ->
  data.has_duplicate_key rows = false.
Proof.
  induction rows as [|r rows IH]; simpl; intros H; [reflexivity|].
  inversion H as [|? ? Hnin Hnd]; subst.
  rewrite (IH Hnd), orb_false_r.
  destruct (existsb (data.same_key r) rows) eqn:E; [|reflexivity].
  apply existsb_exists in E as (q & Hq & Hsame).
  unfold data.same_key in Hsame. apply andb_true_iff in Hsame as [Hv Hl].
  apply String.eqb_eq in Hv. apply Nat.eqb_eq in Hl.
  exfalso. apply Hnin. apply in_map_iff. exists q. split; [|assumption].
  now rewrite Hv, Hl.
Qed.

Lemma NoDup_flat_map {A B} (f : A -> list B) (l : list A) :
  NoDup l -> (forall x, In x l -> NoDup (f x)) ->
  (forall x y b, In x l -> In y l -> In b (f x) -> In b (f y) -> x = y) ->
  NoDup (flat_map f l).
Proof.
  induction 1 as [|a l Ha Hl IH]; intros Hf Hdisj; simpl; [constructor|].
  apply NoDup_app.
  - apply Hf. now left.
  - apply IH; [intros; apply Hf; now right|].
    intros x y b Hx Hy. apply Hdisj; now right.
  - intros b Hb Hb'. apply in_flat_map in Hb' as (y & Hy & Hby).
    assert (a = y) by (apply (Hdisj a y b); auto using in_eq, in_cons).
    subst. contradiction.
Qed.

Lemma emitted_keys sqrt df_pct target col lag :
  map (fun r => (data.variable r, data.lag_days r))
      (emitted sqrt df_pct target col lag) = [(col, lag)]
  \/ emitted sqrt df_pct target col lag = [].
Proof.
  unfold emitted. destruct (lookup col (columns df_pct)); [|now right].
  destruct (data.valid_idx _ _); [now right|now left].
Qed.

Lemma records_keys_NoDup sqrt df_pct target cols :
  NoDup cols ->
  NoDup (map (fun r => (data.variable r, data.lag_days r))
             (flat_map (fun col =>
                          flat_map (emitted sqrt df_pct target col)
                                   (seq 1 data.max_lag)) cols)).
Proof.
  intros Hnd. rewrite flat_map_concat_map, concat_map, map_map,
    <- flat_map_concat_map.
  apply NoDup_flat_map; [assumption| |].
  - intros col _. rewrite flat_map_concat_map, concat_map, map_map,
      <- flat_map_concat_map.
    apply NoDup_flat_map; [apply seq_NoDup| |].
    + intros lag _. destruct (emitted_keys sqrt df_pct target col lag) as [-> | ->];
        repeat constructor. simpl. tauto.
    + intros x y b _ _ Hx Hy.
      destruct (emitted_keys sqrt df_pct target col x) as [Ex|Ex];
        rewrite Ex in Hx; simpl in Hx; [|tauto].
      destruct (emitted_keys sqrt df_pct target col y) as [Ey|Ey];
        rewrite Ey in Hy; simpl in Hy; [|tauto].
      destruct Hx as [<-|[]]. destruct Hy as [[= ->]|[]]. reflexivity.
  - intros x y b _ _ Hx Hy.
    apply in_map_iff in Hx as (r & <- & Hr). apply in_map_iff in Hy as (q & Hq & Hq').
    apply in_flat_map in Hr as (l & _ & Hr). apply in_flat_map in Hq' as (k & _ & Hq').
    apply in_emitted in Hr as (v & _ & _ & ->).
    apply in_emitted in Hq' as (w & _ & _ & ->).
    simpl in Hq. now injection Hq.
Qed.

End LagRecords.

(* ===================================================================== *)
(** * The dates a lagged series shares with the target *)
(* ===================================================================== *)

Section Overlap.
Import pd spec.

Lemma firstn_repeat {A} (x : A) k n : firstn k (repeat x n) = repeat x (Nat.min k n).
Proof.
  revert n; induction k as [|k IH]; intros [|n]; simpl; auto.
  now rewrite IH.
Qed.

(** A shifted column: the NaN that fit, then the head of the column. *)
Lemma shift_split k v :
  shift k v = repeat NaN (Nat.min (length v) k) ++ firstn (length v - k) v.
Proof.
  unfold shift. rewrite firstn_app, firstn_repeat, repeat_length. reflexivity.
Qed.

Lemma combine_app_eq {A B} (l1 l2 : list A) (m1 m2 : list B) :
  length l1 = length m1 ->
  combine (l1 ++ l2) (m1 ++ m2) = combine l1 m1 ++ combine l2 m2.
Proof.
  revert m1; induction l1 as [|a l1 IH]; intros [|b m1] H; simpl in *;
    try discriminate; [reflexivity|].
  f_equal. apply IH. lia.
Qed.

Lemma well_formed_dropna df : well_formed (dropna df).
Proof.
  unfold well_formed, dropna, iloc, nrows; simpl.
  apply Forall_map, Forall_forall. intros c _. simpl.
  now rewrite !take_rows_length.
Qed.

Lemma unique_NoDup l : NoDup l -> unique l = l.
Proof.
  induction 1 as [|d l Hd Hl IH]; simpl; [reflexivity|].
  rewrite IH. f_equal. apply filter_all.
  intros e He. destruct (Z.eqb_spec d e) as [->|]; [contradiction|reflexivity].
Qed.

Lemma NoDup_skipn {A} k (l : list A) : NoDup l -> NoDup (skipn k l).
Proof.
  intros H. rewrite <- (firstn_skipn k l) in H.
  now apply NoDup_app_remove_l in H.
Qed.

Lemma in_firstn {A} k (l : list A) x : In x (firstn k l) -> In x l.
Proof.
  intros H. rewrite <- (firstn_skipn k l). apply in_or_app. now left.
Qed.

Lemma dropna_shifted_index idx v lag :
  length v = length idx -> Forall (fun x => isna x = false) v ->
  s_index (s_dropna (combine idx (shift lag v))) = skipn lag idx.
Proof.
  intros Hlen Hv. unfold s_index, s_dropna.
  rewrite shift_split, Hlen.
  rewrite <- (firstn_skipn (Nat.min (length idx) lag) idx) at 1.
  rewrite combine_app_eq
    by (rewrite length_firstn, repeat_length; lia).
  rewrite filter_app, map_app.
  rewrite filter_none, filter_all; simpl.
  - rewrite map_fst_combine_eq
      by (rewrite length_skipn, length_firstn; lia).
    destruct (Nat.le_gt_cases (length idx) lag) as [Hle|Hgt].
    + rewrite Nat.min_l by lia. now rewrite !skipn_all2 by lia.
    + now rewrite Nat.min_r by lia.
  - intros [d x] Hin. apply in_combine_r in Hin. apply in_firstn in Hin.
    rewrite Forall_forall in Hv. simpl. unfold notna. now rewrite (Hv x Hin).
  - intros [d x] Hin. apply in_combine_r in Hin. apply repeat_spec in Hin.
    now subst.
Qed.

(** On a change table with unique dates the dates a series lagged by [lag]
    shares with the target are the dates from row [lag] on. *)
Lemma overlap_dates df_pct col v tv lag :
  well_formed df_pct -> no_missing df_pct -> NoDup (index df_pct) ->
  lookup col (columns df_pct) = Some v ->
  length tv = nrows df_pct ->
  data.valid_idx (s_shift lag (series_of df_pct v)) (series_of df_pct tv)
  = skipn lag (index df_pct).
Proof.
  intros Hwf Hfull Hnd Hv Htv.
  apply lookup_In in Hv.
  unfold well_formed, no_missing in *. rewrite Forall_forall in Hwf, Hfull.
  pose proof (Hwf _ Hv) as Hlen. pose proof (Hfull _ Hv) as Hna. simpl in *.
  unfold nrows in *. unfold data.valid_idx, s_shift, series_of.
  unfold s_index at 2, s_values.
  rewrite map_fst_combine_eq, map_snd_combine_eq by lia.
  rewrite dropna_shifted_index by assumption.
  unfold intersection, s_index. rewrite map_fst_combine_eq by lia.
  rewrite filter_all.
  - apply unique_NoDup. now apply NoDup_skipn.
  - intros d Hd. unfold mem_date. apply existsb_exists. exists d.
    split; [|apply Z.eqb_refl].
    rewrite <- (firstn_skipn lag (index df_pct)). apply in_or_app. now right.
Qed.

End Overlap.

Section Analyzer.
Import pd spec.

Lemma lag_corrs_flat sqrt df target_col tv :
  getitem (data.change_table df) target_col = Ok tv ->
  data.lag_corrs sqrt df target_col
  = Ok (flat_map
          (fun col =>
             flat_map (emitted sqrt (data.change_table df)
                               (series_of (data.change_table df) tv) col)
                      (seq 1 30))
          (data.other_cols (data.change_table df) target_col)).
Proof.
  intros Ht. unfold data.lag_corrs. rewrite Ht. simpl.
  now rewrite collect_lag_corrs_flat.
Qed.

Lemma pivot_records records :
  records <> [] ->
  NoDup (map (fun r => (data.variable r, data.lag_days r)) records) ->
  exists pv, data.pivot (data.DataFrame_of records) = Ok pv.
Proof.
  intros Hne Hnd. destruct records as [|r records]; [congruence|].
  unfold data.pivot. cbn [data.DataFrame_of data.has_column data.rf_columns
                          data.rf_rows existsb].
  rewrite (has_duplicate_key_NoDup _ Hnd). simpl. eauto.
Qed.

Lemma pivot_no_records :
  data.pivot (data.DataFrame_of []) = Raise (KeyError "variable").
Proof. reflexivity. Qed.

Lemma column_names_change_table df :
  column_names (data.change_table df) = column_names df.
Proof.
  unfold data.change_table, dropna. rewrite column_names_iloc.
  unfold column_names, pct_change; simpl. now rewrite map_map.
Qed.

(** A table with the target column only gives no record. *)
Lemma target_only_no_records sqrt df target_col :
  column_names df = [target_col] ->
  data.lag_corrs sqrt df target_col = Ok [].
Proof.
  intros Hcols.
  assert (Hin : In target_col (column_names (data.change_table df))).
  { rewrite column_names_change_table, Hcols. now left. }
  destruct (In_lookup _ _ Hin) as [tv Htv].
  rewrite (@lag_corrs_flat sqrt df target_col tv)
    by (unfold getitem; now rewrite Htv).
  unfold data.other_cols. rewrite column_names_change_table, Hcols. simpl.
  now rewrite String.eqb_refl.
Qed.

End Analyzer.

(** C4. When the change table has the target column, the analyzer goes
    through the columns other than the target in table order and, for each,
    through the lags 1 to 30 in increasing order.  It emits a record for a
    column and a lag exactly when the dates on which the lagged series has a
    value and the target has a row are not empty, and the correlation of the
    record is that of the target and the lagged series restricted to these
    dates; a pair without such a date leaves no record.  With unique dates a
    record over fewer than two dates has the correlation NaN, and the shared
    dates of a column lagged by [lag] are the dates of the change table from
    row [lag] on (so a pair leaves a record exactly when the lag is smaller
    than the number of change rows).  The long-form
    table the analyzer returns holds exactly these records, and it does
    return when the column names are distinct and there is a record. *)
Theorem C4_lag_records (sqrt : Q -> Q) (df : pd.DataFrame) (target_col : string)
        (tv : list pd.cell) :
  pd.getitem (data.change_table df) target_col = pd.Ok tv ->
  let df_pct := data.change_table df in
  let target := pd.series_of df_pct tv in
  let lagged col_values lag := pd.s_shift lag (pd.series_of df_pct col_values) in
  let overlap col_values lag :=
    pd.intersection (pd.s_index (pd.s_dropna (lagged col_values lag)))
                    (pd.s_index target) in
  exists records,
    data.lag_corrs sqrt df target_col = pd.Ok records /\
    records
    = flat_map (fun col =>
                  flat_map (spec.emitted sqrt df_pct target col) (seq 1 30))
               (data.other_cols df_pct target_col) /\
    (forall r,
        In r records <->
        exists v,
          data.variable r <> target_col /\
          pd.lookup (data.variable r) (pd.columns df_pct) = Some v /\
          1 <= data.lag_days r <= 30 /\
          overlap v (data.lag_days r) <> [] /\
          data.correlation r
          = stats.corr sqrt (pd.loc (overlap v (data.lag_days r)) target)
                       (pd.loc (overlap v (data.lag_days r))
                               (lagged v (data.lag_days r)))) /\
    (NoDup (pd.index df) ->
     forall r v,
       In r records ->
       pd.lookup (data.variable r) (pd.columns df_pct) = Some v ->
       length (overlap v (data.lag_days r)) < 2 ->
       data.correlation r = pd.NaN) /\
    (NoDup (pd.index df) ->
     forall col v lag,
       pd.lookup col (pd.columns df_pct) = Some v ->
       overlap v lag = skipn lag (pd.index df_pct)) /\
    (forall f pv,
        data.analyze_lag_importance sqrt df target_col = pd.Ok (f, pv) ->
        data.rf_rows f = records) /\
    (NoDup (pd.column_names df) -> records <> [] ->
     exists pv,
       data.analyze_lag_importance sqrt df target_col
       = pd.Ok (data.DataFrame_of records, pv)).
Proof.
  intros Ht df_pct target lagged overlap.
  pose proof (@lag_corrs_flat sqrt df target_col tv Ht) as Hflat.
  fold df_pct target in Hflat.
  eexists. split; [exact Hflat|]. split; [reflexivity|].
  assert (Hmem : forall r,
    In r (flat_map (fun col =>
                      flat_map (spec.emitted sqrt df_pct target col) (seq 1 30))
                   (data.other_cols df_pct target_col)) <->
    exists v,
      data.variable r <> target_col /\
      pd.lookup (data.variable r) (pd.columns df_pct) = Some v /\
      1 <= data.lag_days r <= 30 /\
      overlap v (data.lag_days r) <> [] /\
      data.correlation r
      = stats.corr sqrt (pd.loc (overlap v (data.lag_days r)) target)
                   (pd.loc (overlap v (data.lag_days r))
                           (lagged v (data.lag_days r)))).
  { intros r. rewrite in_flat_map. split.
    - intros (col & Hcol & Hr). apply in_flat_map in Hr as (lag & Hlag & Hr).
      apply in_other_cols in Hcol as [_ Hne]. apply in_seq in Hlag.
      apply in_emitted in Hr as (v & Hv & Hidx & ->). simpl.
      exists v. repeat split; auto; lia.
    - intros (v & Hne & Hv & Hlag & Hidx & Hcorr).
      exists (data.variable r). split.
      + apply in_other_cols. split; [|assumption].
        apply lookup_In in Hv. now apply (in_map fst) in Hv.
      + apply in_flat_map. exists (data.lag_days r). split; [apply in_seq; lia|].
        apply in_emitted. exists v. split; [assumption|]. split; [assumption|].
        destruct r as [var lag c]. simpl in *. now rewrite Hcorr. }
  split; [exact Hmem|]. split; [|split; [|split]].
  - intros Hnd r v Hr Hv Hlen.
    apply Hmem in Hr as (w & _ & Hw & _ & _ & ->).
    rewrite Hv in Hw. injection Hw as <-.
    assert (Hidx : NoDup (pd.index df_pct)) by now apply NoDup_index_dropna.
    apply corr_short; apply loc_short; try assumption.
    + apply NoDup_fst_combine, Hidx.
    + unfold lagged, pd.s_shift. apply NoDup_fst_combine.
      unfold pd.s_index, pd.series_of. apply NoDup_fst_combine, Hidx.
  - intros Hnd col v lag Hv.
    apply (@overlap_dates df_pct col v tv lag).
    + apply well_formed_dropna.
    + apply dropna_no_missing.
    + now apply NoDup_index_dropna.
    + exact Hv.
    + assert (Ew : pd.lookup target_col (pd.columns (data.change_table df))
                   = Some tv).
      { unfold pd.getitem in Ht.
        destruct (pd.lookup target_col (pd.columns (data.change_table df)));
          [now injection Ht as ->|discriminate]. }
      apply lookup_In in Ew.
      pose proof (well_formed_dropna (pd.pct_change df)) as Hwf.
      unfold spec.well_formed in Hwf. rewrite Forall_forall in Hwf.
      exact (Hwf _ Ew).
  - intros f pv Han. unfold data.analyze_lag_importance in Han.
    rewrite Hflat in Han. simpl in Han.
    destruct (data.pivot _) as [p|e]; simpl in Han; [|discriminate].
    now injection Han as <- _.
  - intros Hnd Hne. unfold data.analyze_lag_importance. rewrite Hflat.
    cbn [pd.bind].
    destruct (pivot_records Hne) as [pv Hpv].
    + apply records_keys_NoDup. unfold data.other_cols. apply NoDup_filter.
      unfold df_pct. now rewrite column_names_change_table.
    + exists pv. now rewrite Hpv.
Qed.

(** C10. Whenever the loops of the analyzer end without a record, the
    frame built from the records has no column and the pivot raises
    KeyError('variable'): the analyzer returns neither an empty long-form
    table nor an empty pivot. *)
Theorem C10_no_record_raises (sqrt : Q -> Q) (df : pd.DataFrame) (target_col : string) :
  data.lag_corrs sqrt df target_col = pd.Ok [] ->
  data.analyze_lag_importance sqrt df target_col
  = pd.Raise (pd.KeyError "variable") /\
  forall f pv,
    data.analyze_lag_importance sqrt df target_col <> pd.Ok (f, pv).
Proof.
  intros Hrec. unfold data.analyze_lag_importance. rewrite Hrec. simpl.
  split; [reflexivity|discriminate].
Qed.

(** A table of two days gives no record either: its change table has one
    row, which no lag leaves in place. *)
Lemma two_days_no_record :
  data.lag_corrs example.sqrt0
    (pd.mkDF [1; 2]%Z [("BIST100"%string, map example.price [10; 12]%Z);
                       ("Gold"%string, map example.price [4; 5]%Z)])
    "BIST100" = pd.Ok [].
Proof. vm_compute. reflexivity. Qed.

(* ===================================================================== *)
(** * Model selection *)
(* ===================================================================== *)

Section Selection.
Import pd io xgb spec.






Variable predict : XGBClassifier -> list cell -> Z.
Variable cross_val_score : XGBClassifier -> DataFrame -> list cell -> nat -> list Q.
Variable permutation : nat -> nat -> list nat.

Lemma fit_candidate_scored s params :
  model.fit_candidate predict s params = Ok (scored predict s params).
Proof. reflexivity. Qed.

Lemma select_from_fold verbose s combos : forall i b out,
  exists out',
    model.select_from predict verbose s i combos b out
    = Ok (fold_left model.consider (map (scored predict s) combos) b, out').
Proof.
  induction combos as [|params rest IH]; intros i b out; simpl.
  - eauto.
  - apply IH.
Qed.

Lemma load_Xy_found file disk prepared y :
  lookup file disk = Some (Csv prepared) ->
  getitem prepared "target" = Ok y ->
  model.load_Xy file disk = (Ok (features_of prepared, y), disk).
Proof.
  intros Hf Hy. unfold model.load_Xy, mbind, read_csv, lift.
  rewrite Hf, Hy. reflexivity.
Qed.

(** A run of the selector on a readable data file that can be split: the
    returned best is the fold of [consider] over the scored candidates, and
    the model file is written exactly when there is a best model and
    [verbose] is set. *)
Lemma run_selector file verbose disk prepared y s :
  lookup file disk = Some (Csv prepared) ->
  getitem prepared "target" = Ok y ->
  model.train_test_split permutation (features_of prepared) y (2 # 10)%Q 42 = Ok s ->
  let b := fold_left model.consider
                     (map (scored predict s) model.param_combinations)
                     model.no_best in
  exists out,
    model.train_with_different_params predict cross_val_score permutation
                                      (Some file) verbose disk
    = (Ok (b, out),
       match model.best_model b, verbose with
       | Some m, true => set_column model.model_path (ModelPkl m) disk
       | _, _ => disk
       end)
    /\ (verbose = true -> model.best_model b <> None ->
        exists pre,
          out = pre ++ [if Qltb (55 # 100)%Q (model.best_accuracy b)
                        then model.CriterionMetAndSaved
                        else model.SavedButCriterionNotMet;
                        model.Finished]).
Proof.
  intros Hf Hy Hs b.
  unfold model.train_with_different_params.
  unfold mbind at 1. unfold try_except, mbind at 1.
  rewrite (load_Xy_found _ _ Hf Hy). cbn [ret].
  unfold mbind at 1. unfold lift at 1. rewrite Hs.
  unfold mbind at 1. unfold lift at 1.
  destruct (select_from_fold verbose s model.param_combinations 0 model.no_best
                             (model.say verbose [model.Started] []))
    as [out' Hsel].
  rewrite Hsel. fold b.
  destruct (model.best_model b) as [m|] eqn:Em; destruct verbose.
  - eexists. split; [reflexivity|]. intros _ _. eexists.
    rewrite <- app_assoc. simpl. reflexivity.
  - eexists. split; [reflexivity|]. discriminate.
  - eexists. split; [reflexivity|]. intros _ H. congruence.
  - eexists. split; [reflexivity|]. discriminate.
Qed.

End Selection.



(* ===================================================================== *)
(** * Persistence of the selected model *)
(* ===================================================================== *)

Section Persistence.
Import pd io xgb spec.

Variable predict : XGBClassifier -> list cell -> Z.
Variable cross_val_score : XGBClassifier -> DataFrame -> list cell -> nat -> list Q.
Variable permutation : nat -> nat -> list nat.

(** With [verbose] set, a best model is written to the model file whatever
    its accuracy, and the last line but one says whether the criterion was
    met. *)
Lemma verbose_run_persists file disk prepared y s :
  lookup file disk = Some (Csv prepared) ->
  getitem prepared "target" = Ok y ->
  model.train_test_split permutation (features_of prepared) y (2 # 10)%Q 42 = Ok s ->
  forall b out disk' m,
    model.train_with_different_params predict cross_val_score permutation
                                      (Some file) true disk
    = (Ok (b, out), disk') ->
    model.best_model b = Some m ->
    lookup model.model_path disk' = Some (ModelPkl m) /\
    exists pre,
      out = pre ++ [if Qltb (55 # 100)%Q (model.best_accuracy b)
                    then model.CriterionMetAndSaved
                    else model.SavedButCriterionNotMet;
                    model.Finished].
Proof.
  intros Hf Hy Hs b out disk' m Hrun Hm.
  destruct (run_selector predict cross_val_score permutation file true disk
                         Hf Hy Hs) as (out0 & Hrun0 & Hout).
  rewrite Hrun0 in Hrun. injection Hrun as <- <- <-.
  split.
  - rewrite Hm. apply lookup_set_column_eq.
  - apply Hout; [reflexivity|]. intros Hn.
    pose proof (eq_trans (eq_sym Hn) Hm) as F. discriminate F.
Qed.

(** Without [verbose] nothing is written. *)
Lemma quiet_run_writes_nothing file disk prepared y s :
  lookup file disk = Some (Csv prepared) ->
  getitem prepared "target" = Ok y ->
  model.train_test_split permutation (features_of prepared) y (2 # 10)%Q 42 = Ok s ->
  snd (model.train_with_different_params predict cross_val_score permutation
                                         (Some file) false disk) = disk.
Proof.
  intros Hf Hy Hs.
  destruct (run_selector predict cross_val_score permutation file false disk
                         Hf Hy Hs) as (out0 & Hrun0 & _).
  rewrite Hrun0. simpl. now destruct (model.best_model _).
Qed.

(** [train_and_evaluate_model] writes the model before it looks at the
    criterion, which only sets the returned flag. *)
Lemma trainer_persists data_file test_size n_est seed name disk t disk' :
  model_trainer.train_and_evaluate_model predict cross_val_score permutation
    data_file test_size n_est seed name "xgboost" disk = (Ok (Some t), disk') ->
  lookup (model_trainer.model_path_of name) disk'
  = Some (ModelPkl (model_trainer.t_model t)) \/
  model_trainer.model_path_of name = "models/model_metadata.pkl"%string.
Proof.
  unfold model_trainer.train_and_evaluate_model, model_trainer.load_prepared_data.
  unfold mbind at 1. unfold mbind at 1. unfold exists_ at 1.
  set (file := match data_file with Some f => f | None => _ end).
  destruct (lookup file disk) as [f|]; [|discriminate].
  unfold mbind at 1.
  destruct (model.load_Xy file disk) as [[[X y]|e] d1] eqn:El; [|discriminate].
  assert (d1 = disk).
  { unfold model.load_Xy, mbind, read_csv, lift in El.
    destruct (lookup file disk) as [[df| | |]|]; try (injection El; congruence).
    destruct (getitem df "target"); injection El; congruence. }
  subst d1. cbn [ret].
  unfold mbind at 1. unfold lift at 1.
  destruct (model.train_test_split permutation X y test_size seed) as [s|e];
    [|discriminate].
  unfold mbind at 1. unfold lift at 1. cbn [model.train_model String.eqb].
  simpl (String.eqb _ _). cbv iota.
  unfold mbind, model.save_model, model_trainer.save_model_metadata, dump, ret.
  intros H. injection H as <- <-. cbn [model_trainer.t_model].
  destruct (String.eqb_spec (model_trainer.metadata_path_of
                               (model_trainer.model_path_of name))
                            (model_trainer.model_path_of name)) as [E|Hne].
  - right. now rewrite <- E.
  - left. rewrite lookup_set_column_ne by assumption.
    apply lookup_set_column_eq.
Qed.

End Persistence.


(* ===================================================================== *)
(** * The served feature vector *)
(* ===================================================================== *)

Section Serving.
Import pd io xgb spec.

Lemma assign_app pre x y r :
  app.assign (length pre) x (pre ++ y :: r) = pre ++ x :: r.
Proof. induction pre as [|a pre IH]; simpl; [reflexivity|]. now rewrite IH. Qed.

Lemma zero_fill_loop cols : forall mf pre,
  fold_left
    (fun features '(i, feat) =>
       match lookup feat cols with
       | Some x => app.assign i x features
       | None => features
       end)
    (combine (seq (length pre) (length mf)) mf)
    (pre ++ repeat (Num 0) (length mf))
  = pre ++ map (or_zero cols) mf.
Proof.
  induction mf as [|feat mf IH]; intros pre; simpl; [reflexivity|].
  assert (E : match lookup feat cols with
              | Some x => app.assign (length pre) x
                            (pre ++ Num 0 :: repeat (Num 0) (length mf))
              | None => pre ++ Num 0 :: repeat (Num 0) (length mf)
              end = (pre ++ [or_zero cols feat]) ++ repeat (Num 0) (length mf)).
  { unfold or_zero. destruct (lookup feat cols).
    - rewrite assign_app, <- app_assoc. reflexivity.
    - rewrite <- app_assoc. reflexivity. }
  rewrite E. specialize (IH (pre ++ [or_zero cols feat])).
  rewrite length_app in IH. simpl in IH.
  replace (length pre + 1) with (S (length pre)) in IH by lia.
  rewrite IH, <- app_assoc. reflexivity.
Qed.

Lemma zero_filled_aligned mf cols : app.zero_filled mf cols = aligned mf cols.
Proof.
  unfold app.zero_filled. exact (zero_fill_loop cols mf []).
Qed.

Lemma has_feature_lookup (cols : list (string * cell)) feat :
  app.has_feature cols feat = true -> exists x, lookup feat cols = Some x.
Proof.
  unfold app.has_feature. intros H. apply existsb_exists in H as ([n x] & Hin & E).
  simpl in E. apply String.eqb_eq in E. subst n.
  apply In_lookup. apply in_map_iff. now exists (feat, x).
Qed.

Lemma selected_aligned mf cols :
  forallb (app.has_feature cols) mf = true ->
  map (fun feat => match lookup feat cols with Some x => x | None => NaN end) mf
  = aligned mf cols.
Proof.
  intros H. unfold aligned, or_zero. apply map_ext_in. intros feat Hin.
  rewrite forallb_forall in H.
  destruct (has_feature_lookup _ _ (H feat Hin)) as [x ->]. reflexivity.
Qed.

Lemma features_for_aligned mf cols :
  mf <> [] -> app.features_for (Some mf) cols = aligned mf cols.
Proof.
  intros Hne. destruct mf as [|f mf]; [congruence|].
  unfold app.features_for.
  destruct (forallb (app.has_feature cols) (f :: mf)) eqn:E.
  - now apply selected_aligned.
  - apply zero_filled_aligned.
Qed.

(** Without stored names, or with an empty stored list, every computed
    change is handed over. *)
Lemma no_stored_names_serves_everything cols :
  app.features_for None cols = map snd cols /\
  app.features_for (Some []) cols = map snd cols.
Proof. split; reflexivity. Qed.

Variable predict : XGBClassifier -> list cell -> result (Z * Q).

(** What the tab shows once the four headline changes could be read: the
    answer of the classifier on the served vector, or the error notice. *)
Lemma prediction_tab_outcome raw disk m names :
  lookup "models/bist_model.pkl"%string disk = Some (ModelPkl m) ->
  (forall name, In name ["BIST100"; "Gold"; "Oil"; "USDTRY"]%string ->
                exists x, app.last_change (app.daily_change raw) name = Ok x) ->
  (match lookup "models/model_metadata.pkl"%string disk with
   | Some (ModelMetadataPkl md) => Some (md_feature_names md)
   | _ => None
   end) = names ->
  app.prediction_tab predict raw disk
  = (Ok (match predict m (app.served_features names raw) with
         | Ok p => app.Prediction (fst p) (snd p)
         | Raise _ => app.PredictionError
         end), disk).
Proof.
  intros Hm Hmetrics Hnames.
  unfold app.prediction_tab, app.load_trained_model, model.load_model.
  unfold mbind at 1. rewrite Hm.
  destruct (Hmetrics "BIST100"%string) as [x1 H1]; [simpl; auto|].
  destruct (Hmetrics "Gold"%string) as [x2 H2]; [simpl; auto|].
  destruct (Hmetrics "Oil"%string) as [x3 H3]; [simpl; auto|].
  destruct (Hmetrics "USDTRY"%string) as [x4 H4]; [simpl; auto 6|].
  unfold mbind at 1. unfold lift at 1. rewrite H1.
  unfold mbind at 1. unfold lift at 1. rewrite H2.
  unfold mbind at 1. unfold lift at 1. rewrite H3.
  unfold mbind at 1. unfold lift at 1. rewrite H4.
  unfold mbind at 1. unfold app.load_model_features at 1. rewrite Hnames.
  unfold try_except, mbind, lift, ret. fold (app.served_features names raw).
  destruct (predict m (app.served_features names raw)); reflexivity.
Qed.

End Serving.

(** C7. For every stored feature-name list that is not empty, the vector
    handed to the classifier has one entry per stored name, in the order of
    the stored list: the value the computed change row has under that name,
    and 0.0 for a name the row does not have.  With the stored list
    ["Gold_change", "Oil_change"] and a row that has Gold_change only, the
    vector is the Gold_change value followed by 0.0.  The prediction step
    does not raise: once the headline changes are read, the tab shows the
    prediction or the error notice, and the disk is untouched. *)
Theorem C7_served_vector_follows_stored_names
        (model_features : list string) (cols : list (string * pd.cell)) :
  model_features <> [] ->
  app.features_for (Some model_features) cols
  = map (fun feat => match pd.lookup feat cols with
                     | Some x => x
                     | None => pd.Num 0
                     end) model_features /\
  length (app.features_for (Some model_features) cols) = length model_features /\
  (forall x,
      app.features_for (Some ["Gold_change"; "Oil_change"]%string)
                       [("Gold_change"%string, x)]
      = [x; pd.Num 0]) /\
  (forall predict raw disk m md,
      pd.lookup "models/bist_model.pkl"%string disk = Some (io.ModelPkl m) ->
      pd.lookup "models/model_metadata.pkl"%string disk
      = Some (io.ModelMetadataPkl md) ->
      xgb.md_feature_names md = model_features ->
      (forall name, In name ["BIST100"; "Gold"; "Oil"; "USDTRY"]%string ->
                    exists x, app.last_change (app.daily_change raw) name = pd.Ok x) ->
      exists shown,
        app.prediction_tab predict raw disk = (pd.Ok shown, disk) /\
        shown <> app.NoModel).
Proof.
  intros Hne. split; [|split; [|split]].
  - now apply features_for_aligned.
  - rewrite features_for_aligned by assumption.
    unfold spec.aligned. apply length_map.
  - intros x. reflexivity.
  - intros predict raw disk m md Hm Hmd Hnames Hmetrics.
    rewrite (@prediction_tab_outcome predict raw disk m (Some model_features)
               Hm Hmetrics) by (rewrite Hmd, Hnames; reflexivity).
    eexists. split; [reflexivity|].
    destruct (predict m _); discriminate.
Qed.

Section Scaler.
Import pd spec.

(** Data preparation returns the scaler it fitted on the feature table,
    and the matrix that scaler gives for it. *)
Lemma prepare_data_scaler sqrt df use_lags lag_days p :
  data.prepare_data sqrt df use_lags lag_days = Ok p ->
  stats.fit sqrt (data.X_data p) = Ok (data.scaler p) /\
  stats.transform (data.scaler p) (data.X_data p) = Ok (data.X_scaled p).
Proof.
  unfold data.prepare_data.
  destruct (data_collector.target_frame df) as [labels|e]; [|discriminate].
  cbn [bind]. unfold stats.fit_transform.
  match goal with |- context [stats.fit sqrt ?X] =>
    destruct (stats.fit sqrt X) as [sc|e] eqn:Efit; [|discriminate];
    cbn [bind];
    destruct (stats.transform sc X) as [Xs|e] eqn:Etr; [|discriminate]
  end.
  cbn [bind fst snd]. intros [= <-]. cbn [data.X_data data.scaler data.X_scaled].
  auto.
Qed.

End Scaler.

(** C8, as stated, fails on the six-day table [example.prices].  Data
    preparation fits a scaler with mean 1 and scale 1 for each of the four
    change columns.  The serving path hands the classifier the vector of
    zeros (the stored names end in [_change], the computed row is labelled
    with the raw series names), which is neither the standardised form of
    itself nor the standardised last change row. *)
Lemma C8_counterexample_unscaled_serving :
  (exists p,
      data.prepare_data example.sqrt0 example.prices false [] = pd.Ok p /\
      data.scaler p = example.fitted_scaler /\
      data.feature_names p = example.stored_names) /\
  app.served_features (Some example.stored_names) example.prices
  = [pd.Num 0; pd.Num 0; pd.Num 0; pd.Num 0] /\
  spec.same_values
    (spec.standardize (stats.mean_ example.fitted_scaler)
                      (stats.scale_ example.fitted_scaler)
                      (app.served_features (Some example.stored_names)
                                           example.prices))
    (app.served_features (Some example.stored_names) example.prices) = false /\
  spec.same_values
    (spec.standardize (stats.mean_ example.fitted_scaler)
                      (stats.scale_ example.fitted_scaler)
                      (spec.aligned example.stored_names
                         (app.all_change_features
                            (data_collector.rename_change
                               (data.change_table example.prices)))))
    (app.served_features (Some example.stored_names) example.prices) = false.
Proof.
  split; [|split; [|split]].
  - eexists. split; [vm_compute; reflexivity|]. split; vm_compute; reflexivity.
  - vm_compute. reflexivity.
  - vm_compute. reflexivity.
  - vm_compute. reflexivity.
Qed.

(** C8, amended. Data preparation fits the per-column mean and scale on the
    feature table and returns them with the matrix they give.  The serving
    path reads the classifier and the stored feature names only: once the
    headline changes are read, what it shows is the answer of the classifier
    on the percentage changes of the latest row, taken under the stored
    names and 0.0 where a name is absent, without any scaling and without
    statistics of the new row. *)
Theorem C8_serving_hands_over_unscaled_changes
        (predict : xgb.XGBClassifier -> list pd.cell -> pd.result (Z * Q))
        (raw : pd.DataFrame) (disk : io.fs)
        (m : xgb.XGBClassifier) (md : xgb.model_metadata) :
  pd.lookup "models/bist_model.pkl"%string disk = Some (io.ModelPkl m) ->
  pd.lookup "models/model_metadata.pkl"%string disk
  = Some (io.ModelMetadataPkl md) ->
  xgb.md_feature_names md <> [] ->
  (forall name, In name ["BIST100"; "Gold"; "Oil"; "USDTRY"]%string ->
                exists x, app.last_change (app.daily_change raw) name = pd.Ok x) ->
  let change_row :=
    app.all_change_features
      (pd.iloc_from 1 (pd.scale_by 100 (pd.pct_change (pd.tail 5 raw)))) in
  let handed_over :=
    map (fun feat => match pd.lookup feat change_row with
                     | Some x => x
                     | None => pd.Num 0
                     end) (xgb.md_feature_names md) in
  app.prediction_tab predict raw disk
  = (pd.Ok (match predict m handed_over with
            | pd.Ok p => app.Prediction (fst p) (snd p)
            | pd.Raise _ => app.PredictionError
            end), disk) /\
  (forall sqrt df use_lags lag_days p,
      data.prepare_data sqrt df use_lags lag_days = pd.Ok p ->
      stats.fit sqrt (data.X_data p) = pd.Ok (data.scaler p) /\
      stats.transform (data.scaler p) (data.X_data p) = pd.Ok (data.X_scaled p)).
Proof.
  intros Hm Hmd Hne Hmetrics change_row handed_over. split.
  - rewrite (@prediction_tab_outcome predict raw disk m
               (Some (xgb.md_feature_names md)) Hm Hmetrics)
      by (rewrite Hmd; reflexivity).
    unfold app.served_features. rewrite (features_for_aligned _ Hne).
    reflexivity.
  - intros sqrt df use_lags lag_days p. apply prepare_data_scaler.
Qed.

(* ===================================================================== *)
(** * Acquisition *)
(* ===================================================================== *)

Section Acquisition.
Import pd io spec.

Variable yf_download : data_collector.provider.
Variables start stop : Z.

Lemma fetch_loop symbols : forall acc,
  NoDup (map fst acc ++ map fst symbols) ->
  fold_left
    (fun data_frames '(name, symbol) =>
       match yf_download symbol start stop with
       | data_collector.Close ((_ :: _) as s) => set_column name s data_frames
       | _ => data_frames
       end) symbols acc
  = acc ++ flat_map (kept yf_download start stop) symbols.
Proof.
  induction symbols as [|[name symbol] symbols IH]; intros acc Hnd; simpl.
  - now rewrite app_nil_r.
  - unfold kept at 1. simpl.
    destruct (yf_download symbol start stop) as [|[|r s]].
    + apply IH. now apply NoDup_remove_1 in Hnd.
    + apply IH. now apply NoDup_remove_1 in Hnd.
    + rewrite set_column_fresh.
      * rewrite IH; [now rewrite <- app_assoc|].
        rewrite map_app, <- app_assoc. exact Hnd.
      * apply NoDup_remove_2 in Hnd. intros Hin. apply Hnd.
        apply in_or_app. now left.
Qed.

Lemma fetch_all_kept symbols :
  NoDup (map fst symbols) ->
  data_collector.fetch_all yf_download start stop symbols
  = flat_map (kept yf_download start stop) symbols.
Proof.
  intros Hnd. unfold data_collector.fetch_all.
  now rewrite fetch_loop.
Qed.

Lemma kept_names symbols :
  map fst (flat_map (kept yf_download start stop) symbols)
  = retrieved yf_download start stop symbols.
Proof.
  unfold retrieved. induction symbols as [|e symbols IH]; simpl; [reflexivity|].
  unfold kept at 1, retrievable at 1.
  destruct (yf_download (snd e) start stop) as [|[|r s]]; simpl; now rewrite ?IH.
Qed.

Lemma kept_not_empty symbols :
  Forall (fun e => snd e <> [])
         (flat_map (kept yf_download start stop) symbols).
Proof.
  induction symbols as [|e symbols IH]; simpl; [constructor|].
  apply Forall_app. split; [|assumption].
  unfold kept. destruct (yf_download (snd e) start stop) as [|[|r s]];
    repeat constructor. discriminate.
Qed.

Lemma column_names_set_fresh name v (cols : list (string * list cell)) :
  ~ In name (map fst cols) ->
  map fst (set_column name v cols) = map fst cols ++ [name].
Proof. intros H. rewrite set_column_fresh by assumption. now rewrite map_app. Qed.

Lemma merge_loop data_frames : forall df,
  index df <> [] ->
  NoDup (column_names df ++ map fst data_frames) ->
  column_names
    (fold_left (fun df '(name, series) => data_collector.setitem_series df name series)
               data_frames df)
  = column_names df ++ map fst data_frames.
Proof.
  induction data_frames as [|[name s] rest IH]; intros df Hidx Hnd; simpl.
  - now rewrite app_nil_r.
  - assert (Hfresh : ~ In name (column_names df)).
    { apply NoDup_remove_2 in Hnd. intros Hin. apply Hnd, in_or_app. now left. }
    unfold data_collector.setitem_series at 2.
    destruct (index df) as [|d idx] eqn:Ei; [congruence|]. simpl.
    rewrite IH; simpl.
    + unfold column_names at 1. simpl.
      rewrite column_names_set_fresh by assumption.
      now rewrite <- app_assoc.
    + discriminate.
    + unfold column_names. simpl.
      rewrite column_names_set_fresh by assumption.
      rewrite <- app_assoc. exact Hnd.
Qed.

Lemma merge_frames_names data_frames :
  NoDup (map fst data_frames) ->
  Forall (fun e => snd e <> []) data_frames ->
  column_names (data_collector.merge_frames data_frames) = map fst data_frames.
Proof.
  intros Hnd Hne. unfold data_collector.merge_frames.
  destruct data_frames as [|[name s] rest]; [reflexivity|].
  simpl. unfold data_collector.setitem_series at 2. simpl.
  inversion Hne as [|? ? Hs _]; subst. simpl in Hs.
  rewrite merge_loop; simpl; auto.
  destruct s; [congruence|discriminate].
Qed.

Lemma fill_gaps_names df :
  column_names (data_collector.fill_gaps df) = column_names df.
Proof.
  unfold data_collector.fill_gaps. destruct (any_na df); [|reflexivity].
  unfold column_names, df_bfill, df_ffill. simpl. now rewrite !map_map.
Qed.

Lemma retrieved_NoDup symbols :
  NoDup (map fst symbols) -> NoDup (retrieved yf_download start stop symbols).
Proof.
  unfold retrieved. induction symbols as [|e symbols IH]; simpl; intros H;
    [constructor|].
  inversion H as [|? ? Hnin Hnd]; subst.
  destruct (retrievable yf_download start stop e); simpl; [|auto].
  constructor; [|auto]. intros Hin. apply Hnin.
  apply in_map_iff in Hin as (x & Hx & Hin). apply filter_In in Hin as [Hin _].
  apply in_map_iff. eauto.
Qed.

(** The merged and filled table of a loop has one column per retrieved
    symbol, in registry order. *)
Lemma merged_names symbols :
  NoDup (map fst symbols) ->
  column_names
    (data_collector.fill_gaps
       (data_collector.merge_frames
          (data_collector.fetch_all yf_download start stop symbols)))
  = retrieved yf_download start stop symbols.
Proof.
  intros Hnd. rewrite fill_gaps_names, fetch_all_kept by assumption.
  rewrite merge_frames_names.
  - apply kept_names.
  - rewrite kept_names. now apply retrieved_NoDup.
  - apply kept_not_empty.
Qed.

Lemma download_data_None symbols :
  NoDup (map fst symbols) ->
  data_collector.download_data yf_download start stop symbols = None <->
  retrieved yf_download start stop symbols = [].
Proof.
  intros Hnd. unfold data_collector.download_data.
  rewrite <- kept_names, <- fetch_all_kept by assumption.
  destruct (data_collector.fetch_all yf_download start stop symbols); simpl;
    split; congruence.
Qed.

Lemma download_data_Some symbols df :
  NoDup (map fst symbols) ->
  data_collector.download_data yf_download start stop symbols = Some df ->
  column_names df = retrieved yf_download start stop symbols /\
  retrieved yf_download start stop symbols <> [].
Proof.
  intros Hnd H. split.
  - unfold data_collector.download_data in H.
    destruct (length _ =? 0); [discriminate|]. injection H as <-.
    now apply merged_names.
  - intros E. apply download_data_None in E; [congruence|assumption].
Qed.

Lemma manual_download_result symbols disk :
  NoDup (map fst symbols) ->
  exists df,
    data.manual_download yf_download start stop symbols disk
    = (Ok df, set_column data_collector.raw_path (Csv df) disk) /\
    column_names df = retrieved yf_download start stop symbols.
Proof.
  intros Hnd. eexists. split; [reflexivity|]. now apply merged_names.
Qed.

End Acquisition.

Section GetData.
Import pd io spec.

Lemma symbols_NoDup : NoDup (map fst data_collector.get_symbols).
Proof.
  simpl. repeat constructor; simpl; intros H;
    repeat (destruct H as [H|H]; [discriminate H|]); exact H.
Qed.

Lemma collect_data_downloaded yf sqrt now years save disk df p mp disk' :
  data_collector.collect_data yf sqrt now years save disk
  = (Ok (Some (df, p, mp)), disk') ->
  data_collector.download_data yf (now - Qfloor (365 * years))%Z now
                               data_collector.get_symbols = Some df.
Proof.
  unfold data_collector.collect_data.
  destruct (data_collector.download_data _ _ _ _) as [df0|]; [|discriminate].
  destruct save;
    unfold mbind, lift, ret, raise, data_collector.save_raw_data,
      data_collector.save_prepared_data, data_collector.save_metadata,
      to_csv, dump;
    destruct (data_collector.prepare_training_data sqrt df0) as [t|e];
    intros H; try discriminate H.
  injection H as <- _ _ _. reflexivity.
Qed.

Lemma column_names_between a b df : column_names (between a b df) = column_names df.
Proof. apply column_names_iloc. Qed.

(** Without a cached file [get_data] returns a table whatever the provider
    answers: the collector's download, or the download over the requested
    range, or the manual loop over it. *)
Lemma get_data_uncached yf sqrt now start stop disk :
  lookup data_collector.raw_path disk = None ->
  exists df disk',
    data.get_data yf sqrt now start stop disk = (Ok df, disk') /\
    (column_names df = retrieved yf start stop data_collector.get_symbols
     \/ exists start',
          column_names df = retrieved yf start' now data_collector.get_symbols /\
          column_names df <> []).
Proof.
  intros Hnone. unfold data.get_data.
  unfold mbind at 1, exists_ at 1. rewrite Hnone.
  unfold try_except at 1. unfold mbind at 1.
  match goal with |- context [data_collector.collect_data ?a ?b ?c ?y ?s disk] =>
    destruct (data_collector.collect_data a b c y s disk)
      as [[[[[df p] mp]|]|e] d1] eqn:Ec
  end.
  - exists (between start stop df), d1. split; [reflexivity|]. right.
    apply collect_data_downloaded in Ec.
    apply download_data_Some in Ec as [Hn Hne]; [|apply symbols_NoDup].
    eexists. rewrite column_names_between. split; [exact Hn|congruence].
  - unfold raise at 1. unfold try_except.
    destruct (data_collector.download_data yf start stop data_collector.get_symbols)
      as [df|] eqn:Ed.
    + eexists. eexists. split; [reflexivity|]. left.
      now apply (@download_data_Some yf start stop _ _ symbols_NoDup Ed).
    + unfold raise.
      destruct (@manual_download_result yf start stop _ d1 symbols_NoDup)
        as (df & -> & Hn).
      eauto.
  - unfold try_except.
    destruct (data_collector.download_data yf start stop data_collector.get_symbols)
      as [df|] eqn:Ed.
    + eexists. eexists. split; [reflexivity|]. left.
      now apply (@download_data_Some yf start stop _ _ symbols_NoDup Ed).
    + unfold raise.
      destruct (@manual_download_result yf start stop _ d1 symbols_NoDup)
        as (df & -> & Hn).
      eauto.
Qed.

End GetData.

(** C9. For every provider and range, and every registry with distinct
    names: [download_data] returns a table as soon as one symbol was
    retrieved, with exactly the retrieved symbols as columns, in registry
    order, and returns None exactly when none was; the manual loop of
    [get_data] returns (and caches) the table of the retrieved symbols, which
    has no column exactly when none was retrieved; and without a cached file
    [get_data] never raises, whatever the provider answers. *)
Theorem C9_missing_symbols_do_not_fail
        (yf_download : data_collector.provider) (start stop : Z)
        (symbols : list (string * string)) :
  NoDup (map fst symbols) ->
  (data_collector.download_data yf_download start stop symbols = None <->
   spec.retrieved yf_download start stop symbols = []) /\
  (spec.retrieved yf_download start stop symbols <> [] ->
   exists df,
     data_collector.download_data yf_download start stop symbols = Some df /\
     pd.column_names df = spec.retrieved yf_download start stop symbols) /\
  (forall disk,
      exists df,
        data.manual_download yf_download start stop symbols disk
        = (pd.Ok df, pd.set_column data_collector.raw_path (io.Csv df) disk) /\
        pd.column_names df = spec.retrieved yf_download start stop symbols /\
        (pd.column_names df = [] <->
         spec.retrieved yf_download start stop symbols = [])) /\
  (forall sqrt now disk,
      pd.lookup data_collector.raw_path disk = None ->
      exists df disk',
        data.get_data yf_download sqrt now start stop disk = (pd.Ok df, disk') /\
        (pd.column_names df
         = spec.retrieved yf_download start stop data_collector.get_symbols
         \/ exists start',
              pd.column_names df
              = spec.retrieved yf_download start' now data_collector.get_symbols /\
              pd.column_names df <> [])).
Proof.
  intros Hnd. split; [|split; [|split]].
  - now apply download_data_None.
  - intros Hne.
    destruct (data_collector.download_data yf_download start stop symbols)
      as [df|] eqn:Ed.
    + exists df. split; [reflexivity|].
      now apply (@download_data_Some yf_download start stop _ _ Hnd Ed).
    + apply download_data_None in Ed; [contradiction|assumption].
  - intros disk.
    destruct (@manual_download_result yf_download start stop _ disk Hnd)
      as (df & Hrun & Hn).
    exists df. split; [exact Hrun|]. split; [exact Hn|]. now rewrite Hn.
  - intros sqrt now disk. apply get_data_uncached.
Qed.

(* ===================================================================== *)
(** * The theorems at concrete inputs *)
(* ===================================================================== *)

(** C1 on the four-day table: labels 1, 0, 1 for the first three dates, none
    for the fourth. *)
Lemma C1_witness_zigzag :
  NoDup (pd.index example.zigzag) /\ 2 <= pd.nrows example.zigzag /\
  exists labels,
    data_collector.target_frame example.zigzag = pd.Ok labels /\
    map fst labels = [10; 11; 12]%Z /\
    nth 1 labels (0%Z, 0%Z) = (11%Z, 0%Z) /\
    forall v, ~ In (13%Z, v) labels.
Proof.
  assert (Hnd : NoDup (pd.index example.zigzag)).
  { simpl. repeat constructor; simpl; intros H;
      repeat (destruct H as [H|H]; [discriminate H|]); exact H. }
  assert (Hrows : 2 <= pd.nrows example.zigzag) by (vm_compute; lia).
  split; [exact Hnd|]. split; [exact Hrows|].
  destruct (@C1_direction_labels example.zigzag
              (map example.price [10; 12; 9; 15]%Z) Hnd Hrows eq_refl eq_refl)
    as (labels & Ht & Hidx & Hnth & Hlast & _).
  exists labels. split; [exact Ht|]. split; [exact Hidx|].
  split; [|exact Hlast].
  rewrite (Hnth 1) by (vm_compute; lia). reflexivity.
Defined.

(** C2 on the six-day table: five change rows, nothing missing. *)
Lemma C2_witness_prices :
  spec.PriceTable example.prices /\
  pd.nrows (data.change_table example.prices) = 5 /\
  spec.no_missing (data.change_table example.prices).
Proof.
  assert (Hpt : spec.PriceTable example.prices).
  { constructor.
    - discriminate.
    - repeat constructor.
    - simpl. repeat split; lia.
    - repeat constructor. }
  split; [exact Hpt|].
  destruct (@C2_change_table_rows_and_values example.prices Hpt) as (Hr & Hm & _).
  split; [exact Hr|exact Hm].
Defined.

(** C3 on a four-row change table with lags 1 and 2: two rows are left. *)
Lemma C3_witness_changes :
  spec.well_formed example.changes /\ spec.no_missing example.changes /\
  data.external_cols example.changes <> [] /\
  pd.nrows (data.add_lag_features example.changes [1; 2]) = 2.
Proof.
  assert (Hwf : spec.well_formed example.changes) by repeat constructor.
  assert (Hfull : spec.no_missing example.changes) by repeat constructor.
  assert (Hext : data.external_cols example.changes <> [])
    by (vm_compute; discriminate).
  assert (Hlags : [1; 2] <> @nil nat) by discriminate.
  split; [exact Hwf|]. split; [exact Hfull|]. split; [exact Hext|].
  exact (proj1 (@C3_lag_rows_and_target_unlagged example.changes [1; 2]
                  Hwf Hfull Hlags Hext)).
Defined.

(** C4 on the four-day table: records for Gold at lags 1 and 2 only, the
    second over a single date. *)
Lemma C4_witness_zigzag :
  exists tv records,
    pd.getitem (data.change_table example.zigzag) "BIST100" = pd.Ok tv /\
    data.lag_corrs example.sqrt0 example.zigzag "BIST100" = pd.Ok records /\
    map (fun r => (data.variable r, data.lag_days r)) records
    = [("Gold"%string, 1); ("Gold"%string, 2)] /\
    forall r, In r records -> data.lag_days r = 2 -> data.correlation r = pd.NaN.
Proof.
  destruct (pd.getitem (data.change_table example.zigzag) "BIST100")
    as [tv|e] eqn:Ht; [|vm_compute in Ht; discriminate Ht].
  exists tv.
  destruct (@C4_lag_records example.sqrt0 example.zigzag "BIST100" tv Ht)
    as (records & Hrec & _).
  exists records. split; [reflexivity|]. split; [exact Hrec|].
  assert (E : pd.Ok records
              = pd.Ok (match data.lag_corrs example.sqrt0 example.zigzag "BIST100"
                       with pd.Ok l => l | pd.Raise _ => [] end))
    by (rewrite Hrec; reflexivity).
  injection E as E. split.
  - rewrite E. vm_compute. reflexivity.
  - intros r Hr Hlag.
    rewrite E in Hr. vm_compute in Hr.
    destruct Hr as [<-|[<-|[]]]; [discriminate Hlag|reflexivity].
Defined.


(** C7 on the stored list of two names and a row with the first only. *)
Lemma C7_witness_gold_only :
  ["Gold_change"; "Oil_change"]%string <> [] /\
  app.features_for (Some ["Gold_change"; "Oil_change"]%string)
                   [("Gold_change"%string, pd.Num 5)]
  = [pd.Num 5; pd.Num 0].
Proof.
  assert (Hne : ["Gold_change"; "Oil_change"]%string <> []) by discriminate.
  split; [exact Hne|].
  exact (proj1 (@C7_served_vector_follows_stored_names
                  ["Gold_change"; "Oil_change"]%string
                  [("Gold_change"%string, pd.Num 5)] Hne)).
Defined.

(** C8 on the six-day table and a disk with a classifier and its metadata. *)
Lemma C8_witness_served_prices :
  xgb.md_feature_names example.a_metadata <> [] /\
  app.prediction_tab example.predict_up example.prices example.served_disk
  = (pd.Ok (app.Prediction 1 (1 # 2)), example.served_disk).
Proof.
  assert (Hne : xgb.md_feature_names example.a_metadata <> [])
    by (vm_compute; discriminate).
  assert (Hmetrics :
    forall name, In name ["BIST100"; "Gold"; "Oil"; "USDTRY"]%string ->
      exists x, app.last_change (app.daily_change example.prices) name = pd.Ok x).
  { intros name [<-|[<-|[<-|[<-|[]]]]]; eexists; vm_compute; reflexivity. }
  split; [exact Hne|].
  exact (proj1 (@C8_serving_hands_over_unscaled_changes
                  example.predict_up example.prices example.served_disk
                  example.a_model example.a_metadata eq_refl eq_refl Hne Hmetrics)).
Defined.

(** C9 with a provider that has gold and oil only. *)
Lemma C9_witness_gold_and_oil :
  NoDup (map fst data_collector.get_symbols) /\
  exists df,
    data_collector.download_data example.gold_and_oil 0 10 data_collector.get_symbols
    = Some df /\
    pd.column_names df = ["Gold"; "Oil"]%string.
Proof.
  split; [exact symbols_NoDup|].
  assert (Hne : spec.retrieved example.gold_and_oil 0 10 data_collector.get_symbols
                <> []) by (vm_compute; discriminate).
  destruct (@C9_missing_symbols_do_not_fail example.gold_and_oil 0%Z 10%Z
              data_collector.get_symbols symbols_NoDup)
    as (_ & Hsome & _).
  destruct (Hsome Hne) as (df & Hd & Hn).
  exists df. split; [exact Hd|exact Hn].
Defined.

(** C10 on a table with the target series only. *)
Lemma C10_witness_target_only :
  data.lag_corrs example.sqrt0 example.target_only "BIST100" = pd.Ok [] /\
  data.analyze_lag_importance example.sqrt0 example.target_only "BIST100"
  = pd.Raise (pd.KeyError "variable").
Proof.
  assert (H : data.lag_corrs example.sqrt0 example.target_only "BIST100" = pd.Ok [])
    by (vm_compute; reflexivity).
  split; [exact H|].
  exact (proj1 (@C10_no_record_raises example.sqrt0 example.target_only
                  "BIST100" H)).
Defined.

(* ===================================================================== *)
(** * Further properties: files and acquisition *)
(* ===================================================================== *)

Section Rows.
Import pd spec.

Lemma map_nth_seq_all {A} (l : list A) d :
  map (fun i => nth i l d) (seq 0 (length l)) = l.
Proof.
  induction l as [|a l IH]; simpl; [reflexivity|].
  f_equal. rewrite <- seq_shift, map_map. exact IH.
Qed.

Lemma map_nth_seq_skipn {A} (l : list A) d k :
  map (fun i => nth i l d) (seq k (length l - k)) = skipn k l.
Proof.
  revert k. induction l as [|a l IH]; intros k; simpl.
  - now destruct k.
  - destruct k as [|k].
    + simpl. f_equal. rewrite <- seq_shift, map_map. apply map_nth_seq_all.
    + simpl. rewrite <- seq_shift, map_map. apply IH.
Qed.

Lemma iloc_all df : well_formed df -> iloc (seq 0 (nrows df)) df = df.
Proof.
  intros Hwf. destruct df as [idx cols]. unfold iloc, nrows, take_rows in *.
  unfold well_formed, nrows in Hwf. simpl in *.
  f_equal; [apply map_nth_seq_all|].
  induction cols as [|[n v] cols IH]; simpl; [reflexivity|].
  inversion Hwf as [|? ? Hv Hcols]; subst. simpl in Hv.
  rewrite IH by assumption. f_equal. f_equal.
  rewrite <- Hv. apply map_nth_seq_all.
Qed.

Lemma well_formed_iloc keep df : well_formed (iloc keep df).
Proof.
  unfold well_formed, iloc, nrows; simpl.
  apply Forall_map, Forall_forall. intros c _. simpl.
  now rewrite !take_rows_length.
Qed.

Lemma lookup_map_values {A B} (f : A -> B) name (cols : list (string * A)) :
  lookup name (map (fun c => (fst c, f (snd c))) cols)
  = option_map f (lookup name cols).
Proof.
  induction cols as [|[n v] cols IH]; simpl; [reflexivity|].
  destruct (String.eqb n name); [reflexivity|exact IH].
Qed.

End Rows.


Section Cache.
Import pd io spec.

Lemma between_dates start stop df d :
  In d (index (between start stop df)) -> (start <= d <= stop)%Z.
Proof.
  unfold between, iloc, take_rows; simpl. intros H.
  apply in_map_iff in H as (i & <- & Hi). apply filter_In in Hi as [_ Hi].
  apply andb_true_iff in Hi as [H1 H2].
  apply Z.leb_le in H1. apply Z.leb_le in H2. lia.
Qed.

Lemma between_all start stop df :
  well_formed df ->
  (forall d, In d (index df) -> (start <= d <= stop)%Z) ->
  between start stop df = df.
Proof.
  intros Hwf Hin. unfold between. rewrite filter_all; [now apply iloc_all|].
  intros i Hi. apply in_seq in Hi.
  destruct (Hin (nth i (index df) 0%Z)) as [H1 H2].
  { apply nth_In. unfold nrows in Hi. lia. }
  apply andb_true_iff. split; now apply Z.leb_le.
Qed.

Lemma get_data_cached yf sqrt now start stop disk cached :
  lookup data_collector.raw_path disk = Some (Csv cached) ->
  data.get_data yf sqrt now start stop disk = (Ok (between start stop cached), disk).
Proof.
  intros Hc. unfold data.get_data, mbind, exists_, read_csv, ret.
  cbv beta. rewrite Hc. cbv beta iota. rewrite Hc. reflexivity.
Qed.

End Cache.

(** X2. When the cached price file exists, [get_data] answers from it alone:
    whatever the provider would return, the result is the cached table cut
    to the requested dates, with the cached columns, and the disk is left as
    it was.  Every returned date lies in the requested range, and a cached
    table that lies in the range comes back unchanged. *)
Theorem X2_get_data_answers_from_cache
        (yf_download : data_collector.provider) (sqrt : Q -> Q)
        (now start stop : Z) (disk : io.fs) (cached : pd.DataFrame) :
  pd.lookup data_collector.raw_path disk = Some (io.Csv cached) ->
  data.get_data yf_download sqrt now start stop disk
  = (pd.Ok (pd.between start stop cached), disk) /\
  pd.column_names (pd.between start stop cached) = pd.column_names cached /\
  (forall d, In d (pd.index (pd.between start stop cached)) ->
             (start <= d <= stop)%Z) /\
  (spec.well_formed cached ->
   (forall d, In d (pd.index cached) -> (start <= d <= stop)%Z) ->
   pd.between start stop cached = cached).
Proof.
  intros Hc. split; [|split; [|split]].
  - now apply get_data_cached.
  - apply column_names_between.
  - intros d. apply between_dates.
  - apply between_all.
Qed.

Section Collector.
Import pd io spec.

Lemma collect_data_unsaved yf sqrt now years disk :
  snd (data_collector.collect_data yf sqrt now years false disk) = disk /\
  (forall r, fst (data_collector.collect_data yf sqrt now years false disk)
             <> Ok (Some r)) /\
  (fst (data_collector.collect_data yf sqrt now years false disk) = Ok None <->
   data_collector.download_data yf (now - Qfloor (365 * years))%Z now
                                data_collector.get_symbols = None).
Proof.
  unfold data_collector.collect_data.
  destruct (data_collector.download_data _ _ _ _) as [df|].
  - unfold mbind, lift, ret, raise.
    destruct (data_collector.prepare_training_data sqrt df) as [t|e]; simpl;
      repeat split; try discriminate; intros H; discriminate H.
  - simpl. repeat split; try discriminate.
Qed.

Lemma target_frame_missing df :
  lookup "BIST100"%string (columns df) = None ->
  data_collector.target_frame df = Raise (KeyError "BIST100").
Proof.
  intros H. unfold data_collector.target_frame, getitem. now rewrite H.
Qed.

End Collector.

(** X3. [collect_data(save=False)] never returns data and never writes: it
    returns the three None when no symbol could be downloaded, and raises
    otherwise (the preparation error, or the unbound [metadata_path] of its
    return statement). *)
Theorem X3_unsaved_collection_returns_nothing
        (yf_download : data_collector.provider) (sqrt : Q -> Q) (now : Z)
        (years : Q) (disk : io.fs) :
  snd (data_collector.collect_data yf_download sqrt now years false disk) = disk /\
  (forall r,
      fst (data_collector.collect_data yf_download sqrt now years false disk)
      <> pd.Ok (Some r)) /\
  (fst (data_collector.collect_data yf_download sqrt now years false disk)
   = pd.Ok None <->
   data_collector.download_data yf_download (now - Qfloor (365 * years))%Z now
                                data_collector.get_symbols = None).
Proof. apply collect_data_unsaved. Qed.

(** X4. A table without a BIST100 column cannot be prepared: [prepare_data]
    and [prepare_training_data] raise KeyError('BIST100').  When the
    download of [collect_data(save=True)] is such a table, the call raises
    that error after the raw file has been written and before the prepared
    file and the metadata are. *)
Theorem X4_missing_target_column_raises
        (sqrt : Q -> Q) (df : pd.DataFrame) :
  pd.lookup "BIST100"%string (pd.columns df) = None ->
  (forall use_lags lag_days,
      data.prepare_data sqrt df use_lags lag_days
      = pd.Raise (pd.KeyError "BIST100")) /\
  data_collector.prepare_training_data sqrt df
  = pd.Raise (pd.KeyError "BIST100") /\
  (forall yf_download now years disk,
      data_collector.download_data yf_download (now - Qfloor (365 * years))%Z now
                                   data_collector.get_symbols = Some df ->
      data_collector.collect_data yf_download sqrt now years true disk
      = (pd.Raise (pd.KeyError "BIST100"),
         pd.set_column data_collector.raw_path (io.Csv df) disk)).
Proof.
  intros Hmiss. pose proof (target_frame_missing df Hmiss) as Ht.
  split; [|split].
  - intros use_lags lag_days. unfold data.prepare_data. now rewrite Ht.
  - unfold data_collector.prepare_training_data. now rewrite Ht.
  - intros yf_download now years disk Hd.
    unfold data_collector.collect_data. rewrite Hd.
    unfold io.mbind, io.lift, io.ret, data_collector.save_raw_data, io.to_csv.
    unfold data_collector.prepare_training_data. now rewrite Ht.
Qed.

(* ===================================================================== *)
(** * Further properties: filling gaps *)
(* ===================================================================== *)

Section Filling.
Import pd spec.

Lemma ffill_from_keeps last v i :
  isna (nth i v NaN) = false -> nth i (ffill_from last v) NaN = nth i v NaN.
Proof.
  revert last i. induction v as [|c v IH]; intros last i H; [reflexivity|].
  destruct i as [|i]; simpl in *.
  - now rewrite H.
  - now apply IH.
Qed.

Lemma bfill_length v : length (bfill v) = length v.
Proof. induction v; simpl; auto. Qed.

Lemma bfill_keeps v i :
  isna (nth i v NaN) = false -> nth i (bfill v) NaN = nth i v NaN.
Proof.
  revert i. induction v as [|c v IH]; intros i H; [reflexivity|].
  destruct i as [|i]; simpl in *.
  - now rewrite H.
  - now apply IH.
Qed.

Lemma bfill_present v :
  Forall (fun x => isna x = false) v -> bfill v = v.
Proof.
  induction 1 as [|c v Hc Hv IH]; simpl; [reflexivity|].
  now rewrite Hc, IH.
Qed.

Lemma ffill_from_settled last v :
  isna last = false -> Forall (fun x => isna x = false) (ffill_from last v).
Proof.
  revert last. induction v as [|c v IH]; intros last H; simpl; constructor.
  - destruct (isna c) eqn:E; assumption.
  - apply IH. destruct (isna c) eqn:E; assumption.
Qed.

(** Forward filling leaves gaps at the head only. *)
Lemma ffill_head v :
  exists k w, ffill v = repeat NaN k ++ w /\
              Forall (fun x => isna x = false) w /\
              (existsb notna v = true -> w <> []) /\
              (existsb notna v = false -> w = [] /\ v = repeat NaN k).
Proof.
  unfold ffill. induction v as [|c v IH].
  - exists 0, []. simpl. repeat split; auto. discriminate.
  - destruct c as [| | |q].
    + destruct IH as (k & w & E & Hw & Hs & Hn).
      exists (S k), w. simpl. rewrite E. repeat split; auto.
      * apply Hn. assumption.
      * f_equal. apply Hn. assumption.
    + exists 0, (ffill_from PInf (PInf :: v)). simpl.
      repeat split; try discriminate.
      constructor; [reflexivity|]. now apply ffill_from_settled.
    + exists 0, (ffill_from NInf (NInf :: v)). simpl.
      repeat split; try discriminate.
      constructor; [reflexivity|]. now apply ffill_from_settled.
    + exists 0, (ffill_from (Num q) (Num q :: v)). simpl.
      repeat split; try discriminate.
      constructor; [reflexivity|]. now apply ffill_from_settled.
Qed.

Lemma bfill_head k w :
  w <> [] -> Forall (fun x => isna x = false) w ->
  Forall (fun x => isna x = false) (bfill (repeat NaN k ++ w)).
Proof.
  intros Hne Hw. induction k as [|k IH]; simpl.
  - now rewrite bfill_present.
  - constructor; [|exact IH].
    destruct (bfill (repeat NaN k ++ w)) as [|x r] eqn:E.
    + apply (f_equal (@length _)) in E. rewrite bfill_length, length_app in E.
      destruct w; [congruence|]. simpl in E. lia.
    + simpl. now inversion IH.
Qed.

Lemma bfill_all_missing k : bfill (repeat NaN k) = repeat NaN k.
Proof.
  induction k as [|k IH]; simpl; [reflexivity|].
  rewrite IH. f_equal. now destruct k.
Qed.

(** A column after [ffill().bfill()]. *)
Lemma refilled v :
  length (bfill (ffill v)) = length v /\
  (forall i, isna (nth i v NaN) = false ->
             nth i (bfill (ffill v)) NaN = nth i v NaN) /\
  (existsb notna v = true -> Forall (fun x => isna x = false) (bfill (ffill v))) /\
  (existsb notna v = false -> bfill (ffill v) = v).
Proof.
  split; [|split; [|split]].
  - unfold ffill. now rewrite bfill_length, ffill_from_length.
  - intros i H. unfold ffill. rewrite bfill_keeps; rewrite ffill_from_keeps; auto.
  - intros H. destruct (ffill_head v) as (k & w & E & Hw & Hs & _).
    rewrite E. apply bfill_head; auto.
  - intros H. destruct (ffill_head v) as (k & w & E & _ & _ & Hn).
    destruct (Hn H) as [-> Hv]. rewrite E, app_nil_r, bfill_all_missing.
    now symmetry.
Qed.

Lemma any_na_false df c :
  any_na df = false -> In c (columns df) ->
  Forall (fun x => isna x = false) (snd c).
Proof.
  intros H Hin. unfold any_na in H.
  pose proof (existsb_false _ _ c H Hin) as Hc. simpl in Hc.
  apply Forall_forall. intros x Hx. exact (existsb_false _ _ x Hc Hx).
Qed.

End Filling.

(** X5. [download_data]'s gap filling ([ffill().bfill()] when any value is
    missing) keeps the dates, the column names and the column lengths, never
    changes a value that is present, leaves no gap in a column that has at
    least one value, and leaves a column without any value as it is. *)
Theorem X5_fill_gaps_closes_every_gap
        (df : pd.DataFrame) (name : string) (v : list pd.cell) :
  pd.lookup name (pd.columns df) = Some v ->
  pd.index (data_collector.fill_gaps df) = pd.index df /\
  pd.column_names (data_collector.fill_gaps df) = pd.column_names df /\
  exists w,
    pd.lookup name (pd.columns (data_collector.fill_gaps df)) = Some w /\
    length w = length v /\
    (forall i, pd.isna (nth i v pd.NaN) = false ->
               nth i w pd.NaN = nth i v pd.NaN) /\
    (existsb pd.notna v = true -> Forall (fun x => pd.isna x = false) w) /\
    (existsb pd.notna v = false -> w = v).
Proof.
  intros Hv. split; [|split].
  - unfold data_collector.fill_gaps. now destruct (pd.any_na df).
  - apply fill_gaps_names.
  - unfold data_collector.fill_gaps. destruct (pd.any_na df) eqn:Ena.
    + exists (pd.bfill (pd.ffill v)). split.
      * unfold pd.df_bfill, pd.df_ffill. simpl. rewrite map_map. simpl.
        rewrite (lookup_map_values (fun x => pd.bfill (pd.ffill x))).
        now rewrite Hv.
      * apply refilled.
    + exists v. split; [exact Hv|]. split; [reflexivity|].
      split; [reflexivity|]. split; [|reflexivity].
      intros _. apply (any_na_false df (name, v) Ena).
      now apply lookup_In.
Qed.

(* ===================================================================== *)
(** * Further properties: training *)
(* ===================================================================== *)

Section Training.
Import pd io xgb spec.

Variable predict : XGBClassifier -> list cell -> Z.
Variable cross_val_score : XGBClassifier -> DataFrame -> list cell -> nat -> list Q.
Variable permutation : nat -> nat -> list nat.

Lemma load_Xy_reads_only file disk : snd (model.load_Xy file disk) = disk.
Proof.
  unfold model.load_Xy, mbind, read_csv, lift, ret.
  destruct (lookup file disk) as [[df| | |]|]; try reflexivity.
  now destruct (getitem df "target").
Qed.

Lemma load_Xy_unreadable file disk :
  (forall df, lookup file disk <> Some (Csv df)) ->
  exists e, model.load_Xy file disk = (Raise e, disk).
Proof.
  intros H. unfold model.load_Xy, mbind, read_csv.
  destruct (lookup file disk) as [[df| | |]|]; eauto.
  now destruct (H df).
Qed.

Lemma load_Xy_no_target file disk df :
  lookup file disk = Some (Csv df) -> lookup "target"%string (columns df) = None ->
  model.load_Xy file disk = (Raise (KeyError "target"), disk).
Proof.
  intros Hf Ht. unfold model.load_Xy, mbind, read_csv, lift, getitem.
  now rewrite Hf, Ht.
Qed.

(** Every outcome of the selector. *)
Lemma selector_outcomes data_file verbose disk :
  let run := model.train_with_different_params predict cross_val_score
               permutation data_file verbose disk in
  let file := match data_file with
              | Some f => f
              | None => model.default_data_file
              end in
  (exists e, fst (model.load_Xy file disk) = Raise e /\
             fst run = Ok (model.no_best,
                           model.say verbose [model.LoadError]
                                     (model.say verbose [model.Started] [])) /\
             snd run = disk)
  \/ (exists X y e,
         fst (model.load_Xy file disk) = Ok (X, y) /\
         model.train_test_split permutation X y (2 # 10)%Q 42 = Raise e /\
         run = (Raise e, disk))
  \/ (exists X y s out,
         fst (model.load_Xy file disk) = Ok (X, y) /\
         model.train_test_split permutation X y (2 # 10)%Q 42 = Ok s /\
         let b := fold_left model.consider
                            (map (scored predict s) model.param_combinations)
                            model.no_best in
         run = (Ok (b, out),
                match model.best_model b, verbose with
                | Some m, true => set_column model.model_path (ModelPkl m) disk
                | _, _ => disk
                end)).
Proof.
  cbv zeta.
  set (file := match data_file with Some f => f | None => _ end).
  pose proof (load_Xy_reads_only file disk) as Hd.
  destruct (model.load_Xy file disk) as [[[X y]|e] d1] eqn:El; simpl in Hd; subst d1.
  - destruct (model.train_test_split permutation X y (2 # 10)%Q 42) as [s|e] eqn:Es.
    + right; right. exists X, y, s.
      destruct (select_from_fold predict verbose s model.param_combinations 0
                  model.no_best (model.say verbose [model.Started] []))
        as [out' Hsel].
      destruct (model.best_model
                  (fold_left model.consider
                     (map (scored predict s) model.param_combinations)
                     model.no_best)) as [m|] eqn:Em; destruct verbose;
        eexists; (split; [reflexivity|]); (split; [exact Es|]);
        cbv zeta; unfold model.train_with_different_params; fold file;
        unfold mbind at 1; unfold try_except, mbind at 1; rewrite El; cbn [ret];
        unfold mbind at 1; unfold lift at 1; rewrite Es;
        unfold mbind at 1; unfold lift at 1; rewrite Hsel, Em; reflexivity.
    + right; left. exists X, y, e. split; [reflexivity|]. split; [exact Es|].
      unfold model.train_with_different_params; fold file.
      unfold mbind at 1; unfold try_except, mbind at 1; rewrite El; cbn [ret].
      unfold mbind at 1; unfold lift at 1; rewrite Es. reflexivity.
  - left. exists e. split; [reflexivity|].
    assert (model.train_with_different_params predict cross_val_score
              permutation data_file verbose disk
            = (Ok (model.no_best,
                   model.say verbose [model.LoadError]
                             (model.say verbose [model.Started] [])), disk)) as ->.
    { unfold model.train_with_different_params; fold file.
      unfold mbind at 1; unfold try_except, mbind at 1; rewrite El.
      reflexivity. }
    split; reflexivity.
Qed.




End Training.

Section Strings.

Lemma append_length (a b : string) :
  String.length (a ++ b) = String.length a + String.length b.
Proof. induction a as [|c a IH]; simpl; auto. Qed.



End Strings.

(** X6. [train_with_different_params] writes at most one file, the model
    file [models/bist_model.pkl]; with [verbose=False] it writes nothing at
    all.  When the data file cannot be read as a table, or has no [target]
    column, it does not raise: it returns (None, None, 0, None) and leaves
    the disk as it was. *)
Theorem X6_selector_touches_only_the_model_file
        (predict : xgb.XGBClassifier -> list pd.cell -> Z)
        (cross_val_score : xgb.XGBClassifier -> pd.DataFrame -> list pd.cell
                           -> nat -> list Q)
        (permutation : nat -> nat -> list nat)
        (data_file : option string) (verbose : bool) (disk : io.fs) :
  let run := model.train_with_different_params predict cross_val_score
               permutation data_file verbose disk in
  let file := match data_file with
              | Some f => f
              | None => model.default_data_file
              end in
  (forall other, other <> model.model_path ->
                 pd.lookup other (snd run) = pd.lookup other disk) /\
  (verbose = false -> snd run = disk) /\
  ((forall df, pd.lookup file disk = Some (io.Csv df) ->
               pd.lookup "target"%string (pd.columns df) = None) ->
   exists out, run = (pd.Ok (model.no_best, out), disk)).
Proof.
  cbv zeta.
  pose proof (selector_outcomes predict cross_val_score permutation
                                data_file verbose disk) as H.
  cbv zeta in H.
  set (file := match data_file with Some f => f | None => _ end) in *.
  set (run := model.train_with_different_params _ _ _ _ _ _) in *.
  split; [|split].
  - intros other Hne.
    destruct H as [(e & _ & _ & ->)|[(X & y & e & _ & _ & ->)
                                    |(X & y & s & out & _ & _ & ->)]];
      try reflexivity.
    simpl. destruct (model.best_model _); [|reflexivity].
    destruct verbose; [|reflexivity].
    apply lookup_set_column_ne. congruence.
  - intros ->.
    destruct H as [(e & _ & _ & ->)|[(X & y & e & _ & _ & ->)
                                    |(X & y & s & out & _ & _ & ->)]];
      try reflexivity.
    simpl. now destruct (model.best_model _).
  - intros Hbad.
    assert (exists e, model.load_Xy file disk = (pd.Raise e, disk)) as [e He].
    { destruct (pd.lookup file disk) as [[df| | |]|] eqn:Ef.
      - eexists. apply (load_Xy_no_target _ _ Ef). now apply Hbad.
      - apply load_Xy_unreadable. intros df. rewrite Ef. discriminate.
      - apply load_Xy_unreadable. intros df. rewrite Ef. discriminate.
      - apply load_Xy_unreadable. intros df. rewrite Ef. discriminate.
      - apply load_Xy_unreadable. intros df. rewrite Ef. discriminate. }
    rewrite He in H. simpl in H.
    destruct H as [(e' & _ & Hr & Hs)|[(X & y & e' & F & _)
                                      |(X & y & s & out & F & _)]];
      try discriminate.
    eexists. rewrite (surjective_pairing run), Hr, Hs. reflexivity.
Qed.



(* ===================================================================== *)
(** * Further properties: the dashboard *)
(* ===================================================================== *)

Section Tab.
Import pd io xgb spec.

Variable predict : XGBClassifier -> list cell -> result (Z * Q).

Lemma prediction_tab_run raw disk :
  app.prediction_tab predict raw disk
  = match lookup "models/bist_model.pkl"%string disk with
    | Some (ModelPkl m) =>
        let dc := app.daily_change raw in
        match app.last_change dc "BIST100" with
        | Raise e => (Raise e, disk)
        | Ok _ =>
        match app.last_change dc "Gold" with
        | Raise e => (Raise e, disk)
        | Ok _ =>
        match app.last_change dc "Oil" with
        | Raise e => (Raise e, disk)
        | Ok _ =>
        match app.last_change dc "USDTRY" with
        | Raise e => (Raise e, disk)
        | Ok _ =>
            (Ok (match predict m
                         (app.served_features
                            (match lookup "models/model_metadata.pkl"%string disk with
                             | Some (ModelMetadataPkl md) => Some (md_feature_names md)
                             | _ => None
                             end) raw) with
                 | Ok p => app.Prediction (fst p) (snd p)
                 | Raise _ => app.PredictionError
                 end), disk)
        end end end end
    | _ => (Ok app.NoModel, disk)
    end.
Proof.
  unfold app.prediction_tab, app.load_trained_model, model.load_model,
    app.load_model_features, app.served_features.
  unfold mbind, try_except, lift, ret. cbv beta iota zeta.
  destruct (lookup "models/bist_model.pkl"%string disk) as [[| |m|]|];
    try reflexivity.
  destruct (app.last_change _ "BIST100"); [|reflexivity]. cbv beta iota.
  destruct (app.last_change _ "Gold"); [|reflexivity]. cbv beta iota.
  destruct (app.last_change _ "Oil"); [|reflexivity]. cbv beta iota.
  destruct (app.last_change _ "USDTRY"); [|reflexivity]. cbv beta iota.
  destruct (predict m _); reflexivity.
Qed.

Lemma daily_change_column raw name :
  exists f, lookup name (columns (app.daily_change raw))
            = option_map f (lookup name (columns raw)).
Proof.
  unfold app.daily_change, iloc_from, iloc, scale_by, pct_change, tail. simpl.
  rewrite !map_map. simpl.
  eexists.
  rewrite (lookup_map_values
             (fun v => take_rows NaN _
                         (map (fun x => cell_mul x (Num 100))
                              (pct_change_values (take_rows NaN _ v))))).
  reflexivity.
Qed.

Lemma daily_change_lookup raw name :
  lookup name (columns raw) = None ->
  lookup name (columns (app.daily_change raw)) = None.
Proof.
  intros H. destruct (daily_change_column raw name) as [f ->]. now rewrite H.
Qed.

Lemma daily_change_short raw name v :
  nrows raw <= 1 ->
  lookup name (columns (app.daily_change raw)) = Some v -> v = [].
Proof.
  intros Hn Hv. apply lookup_In in Hv.
  unfold app.daily_change, iloc_from, iloc in Hv. simpl in Hv.
  apply in_map_iff in Hv as (c & E & _). injection E as _ <-.
  unfold take_rows.
  replace (nrows (scale_by 100 (pct_change (tail 5 raw))) - 1) with 0;
    [reflexivity|].
  change (nrows (scale_by 100 (pct_change (tail 5 raw))))
    with (nrows (tail 5 raw)).
  unfold tail. rewrite nrows_iloc, length_seq. lia.
Qed.

End Tab.

(** X9. The prediction tab never writes.  Without a model file it shows
    the no-model notice whatever the data.  With a model, the four headline
    metrics are computed before the prediction and outside its try block:
    when the raw table lacks the BIST100 column the tab raises
    KeyError('BIST100'), when it lacks any of BIST100, Gold, Oil or USDTRY
    the tab raises, and when the raw table has a single row the tab raises
    as well (there is no change row to read), IndexError if BIST100 is
    there. *)
Theorem X9_prediction_tab_fails_on_missing_series
        (predict : xgb.XGBClassifier -> list pd.cell -> pd.result (Z * Q))
        (raw : pd.DataFrame) (disk : io.fs) :
  let run := app.prediction_tab predict raw disk in
  snd run = disk /\
  ((forall m, pd.lookup "models/bist_model.pkl"%string disk
              <> Some (io.ModelPkl m)) ->
   fst run = pd.Ok app.NoModel) /\
  (forall m, pd.lookup "models/bist_model.pkl"%string disk
             = Some (io.ModelPkl m) ->
     fst run <> pd.Ok app.NoModel /\
     (pd.lookup "BIST100"%string (pd.columns raw) = None ->
      fst run = pd.Raise (pd.KeyError "BIST100")) /\
     (forall name, In name ["BIST100"; "Gold"; "Oil"; "USDTRY"]%string ->
                   pd.lookup name (pd.columns raw) = None ->
                   exists e, fst run = pd.Raise e) /\
     (pd.nrows raw <= 1 ->
      exists e, fst run = pd.Raise e /\
                (pd.lookup "BIST100"%string (pd.columns raw) <> None ->
                 e = pd.IndexError "single positional indexer is out-of-bounds"))).
Proof.
  cbv zeta. rewrite prediction_tab_run.
  split; [|split].
  - destruct (pd.lookup "models/bist_model.pkl"%string disk) as [[| |m|]|];
      try reflexivity.
    cbv zeta.
    repeat (destruct (app.last_change _ _); [|reflexivity]). reflexivity.
  - intros Hno.
    destruct (pd.lookup "models/bist_model.pkl"%string disk) as [[| |m|]|];
      try reflexivity.
    now destruct (Hno m).
  - intros m ->. cbv zeta.
    assert (Hmiss : forall name,
               pd.lookup name (pd.columns raw) = None ->
               app.last_change (app.daily_change raw) name
               = pd.Raise (pd.KeyError name)).
    { intros name H. unfold app.last_change, pd.getitem.
      now rewrite (daily_change_lookup raw name H). }
    split; [|split; [|split]].
    + repeat (destruct (app.last_change _ _); [|discriminate]).
      simpl. destruct (predict m _); discriminate.
    + intros H. now rewrite (Hmiss _ H).
    + intros name Hin H. pose proof (Hmiss _ H) as E.
      destruct Hin as [<-|[<-|[<-|[<-|[]]]]].
      * rewrite E. simpl. eauto.
      * destruct (app.last_change _ "BIST100"); [|simpl; eauto].
        rewrite E. simpl. eauto.
      * destruct (app.last_change _ "BIST100"); [|simpl; eauto].
        destruct (app.last_change _ "Gold"); [|simpl; eauto].
        rewrite E. simpl. eauto.
      * destruct (app.last_change _ "BIST100"); [|simpl; eauto].
        destruct (app.last_change _ "Gold"); [|simpl; eauto].
        destruct (app.last_change _ "Oil"); [|simpl; eauto].
        rewrite E. simpl. eauto.
    + intros Hn.
      assert (E : exists e, app.last_change (app.daily_change raw) "BIST100"
                            = pd.Raise e /\
                            (pd.lookup "BIST100"%string (pd.columns raw) <> None ->
                             e = pd.IndexError
                                   "single positional indexer is out-of-bounds")).
      { destruct (pd.lookup "BIST100"%string (pd.columns raw)) eqn:Eb.
        - unfold app.last_change, pd.getitem.
          destruct (pd.lookup "BIST100"%string
                              (pd.columns (app.daily_change raw))) as [v|] eqn:Ev.
          + rewrite (daily_change_short raw _ Hn Ev). simpl. eauto.
          + simpl. eexists. split; [reflexivity|]. intros _.
            exfalso. destruct (daily_change_column raw "BIST100") as [f Ef].
            rewrite Ef, Eb in Ev. discriminate.
        - rewrite (Hmiss _ Eb). eexists. split; [reflexivity|]. congruence. }
      destruct E as (e & -> & He). exists e. split; [reflexivity|exact He].
Qed.

(* ===================================================================== *)
(** * Further properties: the data behind the charts *)
(* ===================================================================== *)

Section Display.
Import pd spec.

Lemma period_rows_positive view_period k :
  visualization.period_rows view_period = Some k -> In k [30; 90; 180; 365].
Proof.
  unfold visualization.period_rows.
  repeat (destruct (String.eqb view_period _);
          [intros [= <-]; simpl; auto|]).
  discriminate.
Qed.

Lemma index_tail k df : index (tail k df) = skipn (nrows df - k) (index df).
Proof.
  unfold tail, iloc, take_rows, nrows. simpl.
  replace (Nat.min k (length (index df)))
    with (length (index df) - (length (index df) - k)) by lia.
  apply map_nth_seq_skipn.
Qed.

Lemma column_tail k df name v :
  lookup name (columns df) = Some v -> length v = nrows df ->
  lookup name (columns (tail k df)) = Some (skipn (nrows df - k) v).
Proof.
  intros Hv Hlen. unfold tail, iloc. simpl.
  rewrite (lookup_map_values (take_rows NaN _)), Hv. simpl. f_equal.
  unfold take_rows.
  replace (Nat.min k (nrows df)) with (length v - (nrows df - k)) by lia.
  apply map_nth_seq_skipn.
Qed.

Lemma lookup_app_fresh {A} name (pre rest : list (string * A)) :
  ~ In name (map fst pre) -> lookup name (pre ++ rest) = lookup name rest.
Proof.
  induction pre as [|[n w] pre IH]; simpl; [reflexivity|].
  intros H. destruct (String.eqb_spec n name) as [->|Hn]; [tauto|].
  apply IH. tauto.
Qed.

Lemma set_column_app_fresh {A} name (v w : A) pre rest :
  ~ In name (map fst pre) ->
  set_column name w (pre ++ (name, v) :: rest) = pre ++ (name, w) :: rest.
Proof.
  induction pre as [|[n x] pre IH]; simpl.
  - now rewrite String.eqb_refl.
  - intros H. destruct (String.eqb_spec n name) as [->|Hn]; [tauto|].
    f_equal. apply IH. tauto.
Qed.

(** The loop over the columns rebases each column in place. *)
Lemma rebase_columns_in_place rest : forall pre,
  NoDup (map fst (pre ++ rest)) ->
  Forall (fun c => snd c <> []) rest ->
  visualization.rebase_columns (map fst rest) (pre ++ rest)
  = Ok (pre ++ map (fun c => (fst c,
                              map (fun x => cell_mul (cell_div x (hd NaN (snd c)))
                                                     (Num 100)) (snd c))) rest).
Proof.
  induction rest as [|[n v] rest IH]; intros pre Hnd Hne; simpl.
  - reflexivity.
  - inversion Hne as [|? ? Hv Hrest]; subst. simpl in Hv.
    assert (Hfresh : ~ In n (map fst pre)).
    { rewrite map_app in Hnd. simpl in Hnd.
      apply NoDup_remove_2 in Hnd. intros H. apply Hnd.
      apply in_or_app. now left. }
    rewrite lookup_app_fresh by assumption. simpl. rewrite String.eqb_refl.
    simpl. destruct v as [|first v']; [congruence|]. simpl.
    rewrite set_column_app_fresh by assumption.
    change (pre ++ (n, ?w) :: rest) with (pre ++ [(n, w)] ++ rest).
    rewrite app_assoc. rewrite IH.
    + now rewrite <- app_assoc.
    + rewrite <- app_assoc. simpl. rewrite map_app in *. exact Hnd.
    + assumption.
Qed.

Lemma rebase_columns_empty n rest (cols : list (string * list cell)) :
  lookup n cols = Some [] ->
  visualization.rebase_columns (n :: rest) cols
  = Raise (IndexError "single positional indexer is out-of-bounds").
Proof. intros H. simpl. now rewrite H. Qed.

End Display.

(** X10. Without normalisation [prepare_display_data] returns the same
    table twice: the last 30, 90, 180 or 365 rows of the raw table for the
    four period labels (all rows when the table has fewer), the whole table
    for any other label.  The columns keep their names and hold the last
    values of the raw columns. *)
Theorem X10_display_window_is_the_last_rows
        (raw : pd.DataFrame) (view_period : string) :
  exists view,
    visualization.prepare_display_data raw view_period false
    = pd.Ok (view, view) /\
    pd.column_names view = pd.column_names raw /\
    match visualization.period_rows view_period with
    | Some k =>
        In k [30; 90; 180; 365] /\
        pd.nrows view = Nat.min k (pd.nrows raw) /\
        pd.index view = skipn (pd.nrows raw - k) (pd.index raw) /\
        forall name v,
          pd.lookup name (pd.columns raw) = Some v ->
          length v = pd.nrows raw ->
          pd.lookup name (pd.columns view) = Some (skipn (pd.nrows raw - k) v)
    | None => view = raw
    end.
Proof.
  unfold visualization.prepare_display_data.
  destruct (visualization.period_rows view_period) as [k|] eqn:Ek.
  - exists (pd.tail k raw). split; [reflexivity|]. split.
    { unfold pd.tail. apply column_names_iloc. }
    split; [now apply (period_rows_positive view_period)|]. split.
    { unfold pd.tail. now rewrite nrows_iloc, length_seq. }
    split; [apply index_tail|]. intros name v. apply column_tail.
  - exists raw. repeat split; reflexivity.
Qed.

(** X11. With normalisation, on a table with rows, distinct column names
    and full columns, [prepare_display_data] returns beside the unscaled
    view a table with the same dates and names in which every column is
    divided by its own first value in the view and multiplied by 100. *)
Theorem X11_normalised_columns_are_rebased
        (raw : pd.DataFrame) (view_period : string) :
  NoDup (pd.column_names raw) -> spec.well_formed raw -> 0 < pd.nrows raw ->
  exists plot view,
    visualization.prepare_display_data raw view_period true
    = pd.Ok (plot, view) /\
    visualization.prepare_display_data raw view_period false
    = pd.Ok (view, view) /\
    pd.index plot = pd.index view /\
    pd.column_names plot = pd.column_names view /\
    forall name v,
      pd.lookup name (pd.columns view) = Some v ->
      v <> [] /\
      pd.lookup name (pd.columns plot)
      = Some (map (fun x => pd.cell_mul (pd.cell_div x (hd pd.NaN v)) (pd.Num 100))
                  v).
Proof.
  intros Hnd Hwf Hrows.
  set (view := match visualization.period_rows view_period with
               | Some k => pd.tail k raw
               | None => raw
               end).
  assert (Hnames : pd.column_names view = pd.column_names raw).
  { unfold view. destruct (visualization.period_rows view_period); [|reflexivity].
    unfold pd.tail. apply column_names_iloc. }
  assert (Hfull : Forall (fun c => snd c <> []) (pd.columns view)).
  { assert (Hv : spec.well_formed view /\ 0 < pd.nrows view).
    { unfold view.
      destruct (visualization.period_rows view_period) as [k|] eqn:Ek; [|auto].
      split; [apply well_formed_iloc|].
      unfold pd.tail. rewrite nrows_iloc, length_seq.
      apply period_rows_positive in Ek. simpl in Ek.
      destruct Ek as [<-|[<-|[<-|[<-|[]]]]]; lia. }
    destruct Hv as [Hv Hpos]. unfold spec.well_formed in Hv.
    eapply Forall_impl; [|exact Hv]. intros c Hc E. simpl in Hc.
    rewrite E in Hc. simpl in Hc. lia. }
  pose proof (@rebase_columns_in_place (pd.columns view) []) as Hloop.
  simpl in Hloop. fold (pd.column_names view) in Hloop.
  rewrite Hnames in Hloop. specialize (Hloop Hnd Hfull).
  eexists _, view. split; [|split; [|split; [|split]]].
  - unfold visualization.prepare_display_data. fold view.
    rewrite Hnames, Hloop. reflexivity.
  - reflexivity.
  - reflexivity.
  - unfold pd.column_names. simpl. now rewrite map_map.
  - intros name v Hv. split.
    + apply lookup_In in Hv. rewrite Forall_forall in Hfull.
      exact (Hfull _ Hv).
    + simpl.
      pose proof (lookup_map_values
                 (fun v => map (fun x => pd.cell_mul (pd.cell_div x (hd pd.NaN v))
                                                     (pd.Num 100)) v)
                 name (pd.columns view)) as Hl.
      simpl in Hl. rewrite Hv in Hl. exact Hl.
Qed.

(** X12. With normalisation a view that has columns but no row cannot be
    rebased: reading the first value of the first column raises
    IndexError; without normalisation the same call returns the empty
    view. *)
Theorem X12_normalising_an_empty_view_raises
        (raw : pd.DataFrame) (view_period : string) :
  pd.columns raw <> [] -> spec.well_formed raw -> pd.nrows raw = 0 ->
  visualization.prepare_display_data raw view_period true
  = pd.Raise (pd.IndexError "single positional indexer is out-of-bounds") /\
  exists view,
    visualization.prepare_display_data raw view_period false = pd.Ok (view, view) /\
    pd.nrows view = 0.
Proof.
  intros Hcols Hwf Hrows.
  set (view := match visualization.period_rows view_period with
               | Some k => pd.tail k raw
               | None => raw
               end).
  assert (Hv : spec.well_formed view /\ pd.nrows view = 0 /\ pd.columns view <> []).
  { unfold view. destruct (visualization.period_rows view_period) as [k|]; [|auto].
    split; [apply well_formed_iloc|]. split.
    - unfold pd.tail. rewrite nrows_iloc, length_seq. lia.
    - unfold pd.tail, pd.iloc. simpl. destruct (pd.columns raw); [congruence|].
      discriminate. }
  destruct Hv as (Hvwf & Hvrows & Hvcols). split.
  - unfold visualization.prepare_display_data. fold view.
    unfold pd.column_names.
    destruct (pd.columns view) as [|[n v] cols] eqn:Ec; [congruence|].
    cbn [map fst]. rewrite rebase_columns_empty; [reflexivity|].
    simpl. rewrite String.eqb_refl.
    unfold spec.well_formed in Hvwf. rewrite Ec in Hvwf.
    inversion Hvwf as [|? ? Hlen _]; subst. simpl in Hlen.
    rewrite Hvrows in Hlen. destruct v; [reflexivity|discriminate].
  - exists view. split; [reflexivity|exact Hvrows].
Qed.

(* ===================================================================== *)
(** * Further properties: what the collector leaves on disk *)
(* ===================================================================== *)

Section Frame.
Import pd io spec.

Lemma collect_data_run yf sqrt now years save disk :
  data_collector.collect_data yf sqrt now years save disk
  = match data_collector.download_data yf (now - Qfloor (365 * years))%Z now
                                       data_collector.get_symbols with
    | None => (Ok None, disk)
    | Some df =>
        let d1 := if save then set_column data_collector.raw_path (Csv df) disk
                  else disk in
        match data_collector.prepare_training_data sqrt df with
        | Raise e => (Raise e, d1)
        | Ok t =>
            if save then
              (Ok (Some (df, data_collector.prepared_data t,
                         data_collector.metadata_path)),
               set_column data_collector.metadata_path
                 (MetadataPkl (column_names df)
                              (column_names (data_collector.X_data t)))
                 (set_column data_collector.prepared_path
                             (Csv (data_collector.prepared_data t)) d1))
            else
              (Raise (Exception
                        "local variable 'metadata_path' referenced before assignment"),
               d1)
        end
    end.
Proof.
  unfold data_collector.collect_data.
  destruct (data_collector.download_data _ _ _ _) as [df|]; [|reflexivity].
  unfold mbind, lift, ret, raise, data_collector.save_raw_data,
    data_collector.save_prepared_data, data_collector.save_metadata, to_csv, dump.
  destruct save; destruct (data_collector.prepare_training_data sqrt df);
    reflexivity.
Qed.

Lemma collect_data_frame yf sqrt now years save disk other :
  other <> data_collector.raw_path ->
  other <> data_collector.prepared_path ->
  other <> data_collector.metadata_path ->
  lookup other (snd (data_collector.collect_data yf sqrt now years save disk))
  = lookup other disk.
Proof.
  intros H1 H2 H3. rewrite collect_data_run.
  destruct (data_collector.download_data _ _ _ _) as [df|]; [|reflexivity].
  cbv zeta.
  destruct (data_collector.prepare_training_data sqrt df) as [t|e];
    destruct save; simpl; try reflexivity;
    rewrite ?lookup_set_column_ne by congruence; reflexivity.
Qed.

End Frame.

(** X13. [collect_data] writes at most three files: the raw table, the
    prepared table and [data/metadata.pkl]; every other path keeps its
    content.  The dashboard's loader also needs [data/metadata.txt], which
    the collector never writes: on a disk without that file the loader
    returns the three None after any collection, and it never raises. *)
Theorem X13_collector_does_not_write_the_text_metadata
        (yf_download : data_collector.provider) (sqrt : Q -> Q) (now : Z)
        (years : Q) (save : bool) (disk : io.fs)
        (parse_lines : io.file -> list (string * string)) :
  pd.lookup dashboard.metadata_txt disk = None ->
  let disk' := snd (data_collector.collect_data yf_download sqrt now years
                                                save disk) in
  (forall other,
      other <> data_collector.raw_path ->
      other <> data_collector.prepared_path ->
      other <> data_collector.metadata_path ->
      pd.lookup other disk' = pd.lookup other disk) /\
  dashboard.load_prepared_data parse_lines disk' = (pd.Ok None, disk').
Proof.
  intros Hno. cbv zeta. split.
  - intros other. apply collect_data_frame.
  - set (disk' := snd _).
    assert (Hno' : pd.lookup dashboard.metadata_txt disk' = None).
    { unfold disk'. rewrite collect_data_frame; [exact Hno|discriminate..]. }
    unfold dashboard.load_prepared_data, dashboard.read_metadata, io.try_except,
      io.mbind, io.read_csv, io.ret. cbv beta.
    destruct (pd.lookup data_collector.raw_path disk') as [[| | |]|];
      try reflexivity.
    cbv beta iota.
    destruct (pd.lookup data_collector.prepared_path disk') as [[| | |]|];
      try reflexivity.
    cbv beta iota. rewrite Hno'. reflexivity.
Qed.

(** X14. The dashboard's loader never raises and never writes; it returns
    the raw table, the prepared table and the parsed metadata exactly when
    the two CSV files and [data/metadata.txt] are all there. *)
Theorem X14_loader_returns_all_or_nothing
        (parse_lines : io.file -> list (string * string)) (disk : io.fs) :
  snd (dashboard.load_prepared_data parse_lines disk) = disk /\
  (exists r, fst (dashboard.load_prepared_data parse_lines disk) = pd.Ok r) /\
  forall df prepared_df metadata,
    fst (dashboard.load_prepared_data parse_lines disk)
    = pd.Ok (Some (df, prepared_df, metadata)) <->
    pd.lookup data_collector.raw_path disk = Some (io.Csv df) /\
    pd.lookup data_collector.prepared_path disk = Some (io.Csv prepared_df) /\
    exists f, pd.lookup dashboard.metadata_txt disk = Some f /\
              metadata = parse_lines f.
Proof.
  unfold dashboard.load_prepared_data, dashboard.read_metadata, io.try_except,
    io.mbind, io.read_csv, io.ret. cbv beta.
  destruct (pd.lookup data_collector.raw_path disk) as [[df0| | |]|];
    cbv beta iota;
    try (split; [reflexivity|]; split; [eexists; reflexivity|];
         intros df' p' md'; simpl; split;
         [discriminate|intros (H & _); discriminate]).
  destruct (pd.lookup data_collector.prepared_path disk) as [[p0| | |]|];
    cbv beta iota;
    try (split; [reflexivity|]; split; [eexists; reflexivity|];
         intros df' p' md'; simpl; split;
         [discriminate|intros (_ & H & _); discriminate]).
  destruct (pd.lookup dashboard.metadata_txt disk) as [f|].
  - split; [reflexivity|]. split; [eexists; reflexivity|].
    intros df p md. simpl. split.
    + intros [= <- <- <-]. repeat split. eauto.
    + intros ([= ->] & [= ->] & f' & [= <-] & ->). reflexivity.
  - split; [reflexivity|]. split; [eexists; reflexivity|].
    intros df p md. simpl. split; [discriminate|].
    intros (_ & _ & f' & H & _). discriminate.
Qed.

(* ===================================================================== *)
(** * Further properties: the prepared samples *)
(* ===================================================================== *)

Section Alignment.
Import pd spec.

Lemma filter_label_single {B} (rows : list (Z * B)) d :
  NoDup (map fst rows) -> In d (map fst rows) ->
  exists b, filter (fun r => Z.eqb (fst r) d) rows = [(d, b)].
Proof.
  induction rows as [|[e x] rows IH]; simpl; intros Hnd Hin; [tauto|].
  inversion Hnd as [|? ? Hnin Hnd']; subst.
  destruct (Z.eqb_spec e d) as [->|Hne].
  - exists x. f_equal. apply filter_none.
    intros [e' x'] Hin'. simpl. destruct (Z.eqb_spec e' d) as [->|]; [|reflexivity].
    exfalso. apply Hnin. apply in_map_iff. now exists (d, x').
  - destruct Hin as [->|Hin]; [congruence|]. now apply IH.
Qed.

(** Selecting labels that each occur once gives one row per label, in the
    order of the labels. *)
Lemma loc_keys {B} labels (rows : list (Z * B)) :
  NoDup (map fst rows) -> (forall d, In d labels -> In d (map fst rows)) ->
  map fst (loc labels rows) = labels.
Proof.
  intros Hnd. induction labels as [|d labels IH]; intros Hin; [reflexivity|].
  unfold loc. simpl. rewrite map_app.
  destruct (@filter_label_single _ rows d Hnd (Hin d (or_introl eq_refl))) as [b ->].
  simpl. f_equal. apply IH. intros; apply Hin; now right.
Qed.

Lemma in_unique d l : In d (unique l) -> In d l.
Proof.
  induction l as [|e l IH]; simpl; [tauto|].
  intros [->|H]; [now left|]. apply filter_In in H as [H _]. right. auto.
Qed.

Lemma NoDup_unique l : NoDup (unique l).
Proof.
  induction l as [|e l IH]; simpl; constructor.
  - intros H. apply filter_In in H as [_ H]. now rewrite Z.eqb_refl in H.
  - now apply NoDup_filter.
Qed.

Lemma in_intersection d a b : In d (intersection a b) -> In d a /\ In d b.
Proof.
  unfold intersection. intros H. apply in_unique, filter_In in H as [Ha Hb].
  split; [assumption|]. unfold mem_date in Hb.
  apply existsb_exists in Hb as (x & Hx & E). apply Z.eqb_eq in E. now subst.
Qed.

Lemma NoDup_removelast {A} (l : list A) : NoDup l -> NoDup (removelast l).
Proof.
  destruct l as [|a l]; [auto|]. intros H.
  rewrite (@app_removelast_last _ (a :: l) a) in H by discriminate.
  apply NoDup_remove_1 in H. now rewrite app_nil_r in H.
Qed.

Lemma in_removelast {A} (l : list A) x : In x (removelast l) -> In x l.
Proof.
  destruct l as [|a l]; [auto|]. intros H.
  rewrite (@app_removelast_last _ (a :: l) a) by discriminate.
  apply in_or_app. now left.
Qed.

Lemma index_df_loc labels df :
  NoDup (index df) -> (forall d, In d labels -> In d (index df)) ->
  index (df_loc labels df) = labels.
Proof.
  intros Hnd Hin. unfold df_loc. simpl. apply loc_keys.
  - now apply NoDup_fst_combine.
  - now rewrite map_fst_combine_eq.
Qed.

Lemma well_formed_df_loc labels df :
  NoDup (index df) -> well_formed df ->
  (forall d, In d labels -> In d (index df)) ->
  well_formed (df_loc labels df).
Proof.
  intros Hnd Hwf Hin. unfold well_formed, nrows.
  rewrite index_df_loc by assumption.
  unfold df_loc. simpl. apply Forall_map.
  unfold well_formed in Hwf. revert Hwf. apply Forall_impl.
  intros c Hc. simpl. rewrite length_map.
  rewrite <- (length_map fst). rewrite loc_keys; [reflexivity| |].
  - now apply NoDup_fst_combine.
  - rewrite map_fst_combine_eq; [assumption|]. now rewrite Hc.
Qed.

Lemma target_frame_keys df labels :
  data_collector.target_frame df = Ok labels -> NoDup (index df) ->
  NoDup (map fst labels) /\
  forall d, In d (map fst labels) -> In d (removelast (index df)).
Proof.
  unfold data_collector.target_frame. destruct (getitem df "BIST100") as [bist|];
    simpl; [|discriminate].
  intros [= <-] Hnd. split.
  - apply NoDup_fst_combine. now apply NoDup_removelast.
  - intros d Hd. apply in_map_iff in Hd as ([x y] & <- & Hxy).
    simpl. eapply in_combine_l; eassumption.
Qed.

Lemma prepare_data_inv sqrt df use_lags lag_days p :
  data.prepare_data sqrt df use_lags lag_days = Ok p ->
  exists labels,
    data_collector.target_frame df = Ok labels /\
    let df_pct := notions.feature_table df use_lags lag_days in
    let clean := intersection (index df_pct) (map fst labels) in
    data.X_data p = df_loc clean df_pct /\
    data.y_data p = loc clean labels /\
    stats.fit_transform sqrt (df_loc clean df_pct)
    = Ok (data.scaler p, data.X_scaled p) /\
    data.feature_names p = column_names (df_loc clean df_pct).
Proof.
  unfold data.prepare_data. fold (notions.feature_table df use_lags lag_days).
  destruct (data_collector.target_frame df) as [labels|]; simpl; [|discriminate].
  destruct (stats.fit_transform _ _) as [[sc Xs]|] eqn:Ef; simpl; [|discriminate].
  intros [= <-]. exists labels. simpl. repeat split; auto.
Qed.

Lemma feature_table_facts df use_lags lag_days :
  NoDup (index df) ->
  NoDup (index (notions.feature_table df use_lags lag_days)) /\
  well_formed (notions.feature_table df use_lags lag_days).
Proof.
  intros Hnd.
  assert (H0 : NoDup (index (data_collector.rename_change (data.change_table df)))).
  { change (NoDup (index (dropna (pct_change df)))).
    now apply NoDup_index_dropna. }
  unfold notions.feature_table. destruct use_lags.
  - split.
    + unfold data.add_lag_features. now apply NoDup_index_dropna.
    + apply well_formed_dropna.
  - split; [assumption|].
    pose proof (well_formed_dropna (pct_change df)) as Hwf.
    unfold well_formed, data_collector.rename_change, data.change_table in *.
    simpl. apply Forall_map. revert Hwf. apply Forall_impl. auto.
Qed.

End Alignment.

(** X15. The features and the labels [prepare_data] returns are aligned
    row by row: when the dates of the price table are distinct, the feature
    table and the label series carry the same dates in the same order, each
    once, every feature column has one value per date, the dates are dates
    of the price table other than its last one, and there is at least one
    sample.  This holds with and without lag features. *)
Theorem X15_features_and_labels_are_aligned
        (sqrt : Q -> Q) (df : pd.DataFrame) (use_lags : bool)
        (lag_days : list nat) (p : data.prepared) :
  NoDup (pd.index df) ->
  data.prepare_data sqrt df use_lags lag_days = pd.Ok p ->
  pd.index (data.X_data p) = map fst (data.y_data p) /\
  NoDup (pd.index (data.X_data p)) /\
  spec.well_formed (data.X_data p) /\
  length (data.y_values p) = pd.nrows (data.X_data p) /\
  0 < pd.nrows (data.X_data p) /\
  (forall d, In d (pd.index (data.X_data p)) ->
             In d (pd.index (notions.feature_table df use_lags lag_days)) /\
             In d (pd.index df) /\ d <> last (pd.index df) 0%Z).
Proof.
  intros Hnd Hp.
  destruct (prepare_data_inv _ _ _ _ Hp) as (labels & Ht & HX & Hy & Hfit & _).
  destruct (target_frame_keys _ Ht Hnd) as [Hlnd Hlin].
  destruct (feature_table_facts df use_lags lag_days Hnd) as [Hfnd Hfwf].
  set (df_pct := notions.feature_table df use_lags lag_days) in *.
  set (clean := pd.intersection (pd.index df_pct) (map fst labels)) in *.
  assert (Hclean : forall d, In d clean ->
                             In d (pd.index df_pct) /\ In d (map fst labels)).
  { intros d. apply in_intersection. }
  assert (HiX : pd.index (data.X_data p) = clean).
  { rewrite HX. apply index_df_loc; [assumption|]. intros d Hd.
    now apply Hclean. }
  assert (Hiy : map fst (data.y_data p) = clean).
  { rewrite Hy. apply loc_keys; [assumption|]. intros d Hd. now apply Hclean. }
  split; [congruence|]. split.
  { rewrite HiX. apply NoDup_unique. }
  split.
  { rewrite HX. apply well_formed_df_loc; try assumption.
    intros d Hd. now apply Hclean. }
  split.
  { unfold data.y_values, pd.nrows. rewrite length_map, HiX, <- Hiy.
    now rewrite length_map. }
  split.
  { unfold stats.fit_transform, stats.fit in Hfit. rewrite <- HX in Hfit.
    destruct (pd.nrows (data.X_data p)); [discriminate Hfit|lia]. }
  intros d Hd. rewrite HiX in Hd. destruct (Hclean d Hd) as [H1 H2].
  split; [assumption|]. apply Hlin in H2. split.
  - now apply in_removelast.
  - intros E. apply (@last_not_in_removelast (pd.index df) 0%Z Hnd).
    + intros E'. rewrite E' in H2. exact H2.
    + rewrite <- E. exact H2.
Qed.

(* ===================================================================== *)
(** * Further properties: the values of the change table *)
(* ===================================================================== *)

Section Changes.
Import pd spec.

Lemma nth_take_rows {A} (d : A) keep v i :
  i < length keep -> nth i (take_rows d keep v) d = nth (nth i keep 0) v d.
Proof.
  intros Hi. unfold take_rows.
  rewrite (nth_indep _ d ((fun j => nth j v d) 0)) by now rewrite length_map.
  apply (map_nth (fun j => nth j v d)).
Qed.

Lemma change_table_iloc df :
  PriceTable df ->
  data.change_table df = iloc (seq 1 (nrows df - 1)) (pct_change df).
Proof.
  intros Hpt. unfold data.change_table, dropna.
  rewrite nrows_pct_change, (@filter_seq_from _ 1 (nrows df)).
  - now destruct (nrows df).
  - intros i Hi. rewrite row_has_na_pct_change by assumption. now destruct i.
Qed.

Lemma index_change_table df :
  PriceTable df -> index (data.change_table df) = tl (index df).
Proof.
  intros Hpt. rewrite change_table_iloc by assumption.
  unfold iloc, take_rows, nrows. simpl.
  rewrite map_nth_seq_skipn. now destruct (index df).
Qed.

Lemma change_column df name v :
  PriceTable df -> lookup name (columns df) = Some v ->
  lookup name (columns (data.change_table df))
  = Some (take_rows NaN (seq 1 (nrows df - 1)) (pct_change_values v)).
Proof.
  intros Hpt Hv. rewrite change_table_iloc by assumption.
  unfold iloc, pct_change. simpl. rewrite map_map. simpl.
  rewrite (lookup_map_values
             (fun v => take_rows NaN (seq 1 (nrows df - 1)) (pct_change_values v))).
  now rewrite Hv.
Qed.

Lemma change_value v i :
  Forall (fun x => positive x = true) v -> S i < length v ->
  nth (S i) (pct_change_values v) NaN
  = cell_sub (cell_div (nth (S i) v NaN) (nth i v NaN)) (Num 1) /\
  isfinite (nth (S i) (pct_change_values v) NaN) = true.
Proof.
  intros Hpos Hi. unfold pct_change_values, ffill.
  rewrite (ffill_from_present NaN (positive_present Hpos)).
  rewrite (map2_nth _ v (shift 1 v) NaN NaN) by (rewrite ?shift_length; lia).
  rewrite shift_nth by lia. simpl (S i <? 1). cbv iota.
  replace (S i - 1) with i by lia.
  split; [reflexivity|].
  rewrite Forall_forall in Hpos.
  destruct (positive_inv _ (Hpos (nth (S i) v NaN) (nth_In _ _ Hi))) as (b & -> & _).
  assert (Hi' : i < length v) by lia.
  destruct (positive_inv _ (Hpos (nth i v NaN) (nth_In _ _ Hi'))) as (a & -> & Ha).
  simpl. now rewrite Ha.
Qed.

Lemma change_table_finite df :
  PriceTable df ->
  Forall (fun c => Forall (fun x => isfinite x = true) (snd c))
         (columns (data.change_table df)).
Proof.
  intros Hpt. rewrite change_table_iloc by assumption.
  destruct Hpt as [_ Hwf _ Hpos].
  unfold iloc, pct_change. simpl. rewrite map_map. simpl.
  apply Forall_map. unfold well_formed in Hwf.
  rewrite Forall_forall in *. intros c Hc. simpl.
  unfold take_rows. apply Forall_map, Forall_forall. intros j Hj.
  apply in_seq in Hj. destruct j as [|i]; [lia|].
  apply change_value; [now apply Hpos|]. rewrite (Hwf c Hc). lia.
Qed.

End Changes.

(** X16. On a price table (dates increasing, every price present and
    positive) the change table carries the dates from the second on, and in
    every column the entry of a date is the price of that date over the
    price of the date before, minus one: a finite number. *)
Theorem X16_change_table_holds_the_daily_changes
        (df : pd.DataFrame) (name : string) (v : list pd.cell) :
  spec.PriceTable df ->
  pd.lookup name (pd.columns df) = Some v ->
  pd.index (data.change_table df) = tl (pd.index df) /\
  exists w,
    pd.lookup name (pd.columns (data.change_table df)) = Some w /\
    length w = pd.nrows df - 1 /\
    forall i, i + 1 < pd.nrows df ->
      nth i w pd.NaN
      = pd.cell_sub (pd.cell_div (nth (i + 1) v pd.NaN) (nth i v pd.NaN))
                    (pd.Num 1) /\
      pd.isfinite (nth i w pd.NaN) = true.
Proof.
  intros Hpt Hv. split; [now apply index_change_table|].
  exists (pd.take_rows pd.NaN (seq 1 (pd.nrows df - 1)) (pd.pct_change_values v)).
  split; [apply change_column; assumption|]. split.
  - now rewrite take_rows_length, length_seq.
  - intros i Hi.
    rewrite nth_take_rows by (rewrite length_seq; lia).
    rewrite seq_nth by lia. simpl (1 + i).
    replace (i + 1) with (S i) by lia.
    apply change_value.
    + destruct Hpt as [_ _ _ Hpos]. rewrite Forall_forall in Hpos.
      exact (Hpos _ (lookup_In _ _ Hv)).
    + destruct Hpt as [_ Hwf _ _]. unfold spec.well_formed in Hwf.
      rewrite Forall_forall in Hwf.
      pose proof (Hwf _ (lookup_In _ _ Hv)) as Hl. simpl in Hl. lia.
Qed.

Section Samples.
Import pd spec.

Lemma in_last {A} (l : list A) d : l <> [] -> In (last l d) l.
Proof.
  induction l as [|a l IH]; [congruence|]. intros _.
  destruct l as [|b l]; [now left|]. right. apply IH. discriminate.
Qed.

Lemma overlap_of_changes (l : list Z) :
  NoDup l -> intersection (tl l) (removelast l) = removelast (tl l).
Proof.
  intros Hnd. unfold intersection.
  destruct l as [|a l]; [reflexivity|]. simpl tl.
  destruct l as [|b l]; [reflexivity|].
  assert (Hne : b :: l <> []) by discriminate.
  change (removelast (a :: b :: l)) with (a :: removelast (b :: l)).
  inversion Hnd as [|? ? Ha Hl]; subst.
  rewrite (app_removelast_last 0%Z Hne) at 1.
  rewrite filter_app, filter_all, filter_none.
  - rewrite app_nil_r. apply unique_NoDup. now apply NoDup_removelast.
  - intros d [<-|[]]. unfold mem_date. apply not_true_is_false. intros H.
    apply existsb_exists in H as (x & [<-|Hx] & E); apply Z.eqb_eq in E.
    + apply Ha. rewrite <- E. now apply in_last.
    + subst x. exact (@last_not_in_removelast (b :: l) 0%Z Hl Hne Hx).
  - intros d Hd. unfold mem_date. apply existsb_exists. exists d.
    split; [now right|apply Z.eqb_refl].
Qed.

Lemma transform_columns_length ms ss (cols : list (string * list cell)) :
  length ms = length cols -> length ss = length cols ->
  length (stats.transform_columns ms ss cols) = length cols.
Proof.
  revert ms ss. induction cols as [|c cols IH]; intros [|m ms] [|s ss];
    simpl; intros H1 H2; try discriminate; auto.
Qed.

Lemma fit_transform_ok sqrt X :
  nrows X <> 0 -> columns X <> [] ->
  Forall (fun c => Forall (fun x => isfinite x = true) (snd c)) (columns X) ->
  exists sc Xs,
    stats.fit_transform sqrt X = Ok (sc, Xs) /\
    length Xs = length (columns X) /\
    length (stats.mean_ sc) = length (columns X) /\
    length (stats.scale_ sc) = length (columns X).
Proof.
  intros Hr Hc Hfin. unfold stats.fit_transform, stats.fit.
  destruct (Nat.eqb_spec (nrows X) 0) as [|_]; [contradiction|].
  destruct (Nat.eqb_spec (length (columns X)) 0) as [E|_].
  { destruct (columns X); [contradiction|discriminate]. }
  assert (Hall : forallb (fun c => forallb isfinite (snd c)) (columns X) = true).
  { apply forallb_forall. rewrite Forall_forall in Hfin. intros c Hin.
    apply forallb_forall. specialize (Hfin c Hin). rewrite Forall_forall in Hfin.
    exact Hfin. }
  simpl. rewrite Hall. simpl. unfold stats.transform. simpl.
  rewrite length_map, Nat.eqb_refl. simpl.
  eexists _, _. split; [reflexivity|]. simpl.
  rewrite transform_columns_length, !length_map; auto using length_map.
Qed.

Lemma fit_no_sample sqrt X :
  nrows X = 0 ->
  stats.fit_transform sqrt X
  = Raise (ValueError "Found array with 0 sample(s) or 0 feature(s)").
Proof.
  intros H. unfold stats.fit_transform, stats.fit. now rewrite H.
Qed.

Lemma df_loc_finite labels df :
  Forall (fun c => Forall (fun x => isfinite x = true) (snd c)) (columns df) ->
  Forall (fun c => Forall (fun x => isfinite x = true) (snd c))
         (columns (df_loc labels df)).
Proof.
  intros H. unfold df_loc. simpl. apply Forall_map.
  revert H. apply Forall_impl. intros c Hc. simpl.
  apply Forall_map, Forall_forall. intros r Hr.
  apply in_loc in Hr. rewrite Forall_forall in Hc. apply Hc.
  destruct r as [d x]. simpl. eapply in_combine_r; eassumption.
Qed.

Lemma column_names_df_loc labels df :
  column_names (df_loc labels df) = column_names df.
Proof. unfold column_names, df_loc. simpl. now rewrite map_map. Qed.

Lemma column_names_rename df :
  column_names (data_collector.rename_change df)
  = map (fun n => (n ++ "_change")%string) (column_names df).
Proof.
  unfold column_names, data_collector.rename_change. simpl.
  now rewrite !map_map.
Qed.

Lemma index_dropna_rows df d :
  In d (index (dropna df)) ->
  exists i, i < nrows df /\ d = nth i (index df) 0%Z /\
            row_has_na (columns df) i = false.
Proof.
  unfold dropna, iloc, take_rows. simpl. intros H.
  apply in_map_iff in H as (i & <- & Hi). apply filter_In in Hi as [Hi Hf].
  apply in_seq in Hi. exists i. split; [lia|]. split; [reflexivity|].
  now apply negb_true_iff in Hf.
Qed.

Lemma pct_change_values_first v : nth 0 (pct_change_values v) NaN = NaN.
Proof.
  unfold pct_change_values, ffill. destruct v as [|c v]; [reflexivity|].
  unfold shift. simpl. now destruct (if isna c then NaN else c).
Qed.

Lemma first_row_missing df :
  columns df <> [] -> row_has_na (columns (pct_change df)) 0 = true.
Proof.
  intros Hne. unfold row_has_na, pct_change. simpl.
  destruct (columns df) as [|c cols]; [congruence|]. simpl.
  now rewrite pct_change_values_first.
Qed.

Lemma nth_last {A} (l : list A) d : nth (length l - 1) l d = last l d.
Proof.
  induction l as [|a l IH]; [reflexivity|].
  destruct l as [|b l]; [reflexivity|].
  change (last (a :: b :: l) d) with (last (b :: l) d). rewrite <- IH.
  simpl. now rewrite Nat.sub_0_r.
Qed.

(** With at most two rows no date has both a change and a label. *)
Lemma no_sample_dates df use_lags lag_days labels :
  NoDup (index df) -> nrows df <= 2 -> columns df <> [] ->
  data_collector.target_frame df = Ok labels ->
  intersection (index (notions.feature_table df use_lags lag_days))
               (map fst labels) = [].
Proof.
  intros Hnd Hn Hc Ht.
  destruct (target_frame_keys _ Ht Hnd) as [_ Hlin].
  assert (Hchg : forall d, In d (index (data.change_table df)) ->
                           ~ In d (map fst labels)).
  { intros d Hd Hl. apply Hlin in Hl.
    apply index_dropna_rows in Hd as (i & Hi & -> & Hrow).
    rewrite nrows_pct_change in Hi.
    destruct i as [|i]; [rewrite (first_row_missing df Hc) in Hrow; discriminate|].
    change (index (pct_change df)) with (index df) in Hl.
    assert (E : S i = length (index df) - 1) by (unfold nrows in *; lia).
    rewrite E, nth_last in Hl. revert Hl.
    apply last_not_in_removelast; [assumption|].
    intros E'. unfold nrows in Hi. rewrite E' in Hi. simpl in Hi. lia. }
  assert (Hsub : forall d,
             In d (index (notions.feature_table df use_lags lag_days)) ->
             In d (index (data.change_table df))).
  { intros d. unfold notions.feature_table. destruct use_lags; [|auto].
    unfold data.add_lag_features. intros Hd.
    apply index_dropna_rows in Hd as (i & Hi & -> & _). simpl.
    apply nth_In. exact Hi. }
  unfold intersection. rewrite filter_none; [reflexivity|].
  intros d Hd. apply not_true_is_false. intros Hm.
  apply (Hchg d (Hsub d Hd)). unfold mem_date in Hm.
  apply existsb_exists in Hm as (x & Hx & E). apply Z.eqb_eq in E. now subst.
Qed.

End Samples.

(** X17. On a price table with a BIST100 series and at least three days,
    [prepare_data] without lag features succeeds: the samples are the dates
    that have both a change and a next day, that is all dates but the first
    and the last, in order; the feature names are the series names with
    [_change] appended; and the scaler and the scaled matrix have one entry
    per feature. *)
Theorem X17_price_table_is_prepared
        (sqrt : Q -> Q) (df : pd.DataFrame) (lag_days : list nat)
        (bist : list pd.cell) :
  spec.PriceTable df ->
  pd.lookup "BIST100"%string (pd.columns df) = Some bist ->
  3 <= pd.nrows df ->
  exists p,
    data.prepare_data sqrt df false lag_days = pd.Ok p /\
    pd.index (data.X_data p) = removelast (tl (pd.index df)) /\
    map fst (data.y_data p) = removelast (tl (pd.index df)) /\
    pd.nrows (data.X_data p) = pd.nrows df - 2 /\
    data.feature_names p
    = map (fun n => (n ++ "_change")%string) (pd.column_names df) /\
    length (data.X_scaled p) = length (pd.columns df) /\
    length (stats.mean_ (data.scaler p)) = length (pd.columns df) /\
    length (stats.scale_ (data.scaler p)) = length (pd.columns df).
Proof.
  intros Hpt Hb Hn.
  pose proof (increasing_NoDup _ (spec.pt_sorted Hpt)) as Hnd.
  assert (Hlen : length bist = pd.nrows df).
  { pose proof (spec.pt_shape Hpt) as Hwf. unfold spec.well_formed in Hwf.
    rewrite Forall_forall in Hwf. exact (Hwf _ (lookup_In _ _ Hb)). }
  destruct (target_frame_spec df Hb Hlen) as (labels & Ht & Hkeys & _).
  set (df_pct := data_collector.rename_change (data.change_table df)).
  assert (Hidx : pd.index df_pct = tl (pd.index df))
    by now apply index_change_table.
  assert (Hclean : pd.intersection (pd.index df_pct) (map fst labels)
                   = removelast (tl (pd.index df))).
  { rewrite Hidx, Hkeys. now apply overlap_of_changes. }
  destruct (feature_table_facts df false lag_days Hnd) as [Hfnd Hfwf].
  change (notions.feature_table df false lag_days) with df_pct in Hfnd, Hfwf.
  assert (Hsub : forall d, In d (removelast (tl (pd.index df))) ->
                           In d (pd.index df_pct)).
  { intros d Hd. rewrite Hidx. now apply in_removelast. }
  set (X := pd.df_loc (removelast (tl (pd.index df))) df_pct).
  assert (HiX : pd.index X = removelast (tl (pd.index df))).
  { apply index_df_loc; assumption. }
  assert (Hrows : pd.nrows X = pd.nrows df - 2).
  { unfold pd.nrows. rewrite HiX, length_removelast, length_tl. lia. }
  assert (Hcols : length (pd.columns X) = length (pd.columns df)).
  { unfold X, pd.df_loc, df_pct, data_collector.rename_change,
      data.change_table, pd.dropna, pd.iloc, pd.pct_change.
    cbn [pd.columns]. now rewrite !length_map. }
  destruct (@fit_transform_ok sqrt X) as (sc & Xs & Hfit & HXs & Hm & Hs).
  { lia. }
  { intros E. rewrite E in Hcols. simpl in Hcols.
    destruct (pd.columns df) eqn:Ec; [|discriminate].
    exact (spec.pt_series Hpt Ec). }
  { apply df_loc_finite. unfold df_pct, data_collector.rename_change. simpl.
    apply Forall_map. pose proof (change_table_finite Hpt) as Hfin.
    revert Hfin. apply Forall_impl. auto. }
  exists (data.mkPrepared X (pd.loc (removelast (tl (pd.index df))) labels)
                          Xs sc (pd.column_names X)).
  split.
  { unfold data.prepare_data. fold df_pct. rewrite Ht. cbn [pd.bind].
    rewrite Hclean. fold X. rewrite Hfit. reflexivity. }
  cbn [data.X_data data.y_data data.feature_names data.X_scaled data.scaler].
  split; [exact HiX|]. split.
  { apply loc_keys.
    - rewrite Hkeys. now apply NoDup_removelast.
    - intros d Hd. rewrite Hkeys. rewrite <- Hclean in Hd.
      apply in_intersection in Hd as [_ Hd]. now rewrite <- Hkeys. }
  split; [exact Hrows|]. split.
  { unfold X, df_pct.
    now rewrite column_names_df_loc, column_names_rename,
      column_names_change_table. }
  rewrite HXs, Hm, Hs, Hcols. auto.
Qed.

(** X18. A table with distinct dates, a BIST100 column and at most two
    rows cannot be prepared: no date has both a change and a next day, the
    feature matrix has no row, and the scaler refuses it.  [prepare_data]
    (with or without lag features) and [prepare_training_data] raise
    ValueError. *)
Theorem X18_two_days_are_not_enough
        (sqrt : Q -> Q) (df : pd.DataFrame) (bist : list pd.cell) :
  NoDup (pd.index df) ->
  pd.lookup "BIST100"%string (pd.columns df) = Some bist ->
  pd.nrows df <= 2 ->
  exists msg,
    (forall use_lags lag_days,
        data.prepare_data sqrt df use_lags lag_days
        = pd.Raise (pd.ValueError msg)) /\
    data_collector.prepare_training_data sqrt df = pd.Raise (pd.ValueError msg).
Proof.
  intros Hnd Hb Hn.
  assert (Hc : pd.columns df <> []).
  { intros E. rewrite E in Hb. discriminate. }
  assert (Ht : exists labels, data_collector.target_frame df = pd.Ok labels).
  { unfold data_collector.target_frame, pd.getitem. rewrite Hb. simpl. eauto. }
  destruct Ht as [labels Ht].
  eexists. split.
  - intros use_lags lag_days. unfold data.prepare_data.
    fold (notions.feature_table df use_lags lag_days).
    rewrite Ht. cbn [pd.bind].
    rewrite (@no_sample_dates df use_lags lag_days labels Hnd Hn Hc Ht).
    now rewrite fit_no_sample.
  - unfold data_collector.prepare_training_data.
    rewrite Ht. cbn [pd.bind].
    pose proof (@no_sample_dates df false [] labels Hnd Hn Hc Ht) as E.
    unfold notions.feature_table in E. unfold data.change_table in E.
    rewrite E. now rewrite fit_no_sample.
Qed.

(* ===================================================================== *)
(** * Further properties: from the collector to the trainer *)
(* ===================================================================== *)

Section Handover.
Import pd io spec.

Lemma not_target n : (n ++ "_change")%string <> "target"%string.
Proof.
  intros E. apply (f_equal String.length) in E.
  rewrite append_length in E. simpl in E. lia.
Qed.

Lemma with_values_names ms ss (cols : list (string * list cell)) :
  length ms = length cols -> length ss = length cols ->
  map fst (data_collector.with_values cols (stats.transform_columns ms ss cols))
  = map fst cols.
Proof.
  revert ms ss. induction cols as [|c cols IH]; intros [|m ms] [|s ss];
    simpl; intros H1 H2; try discriminate; [reflexivity|].
  f_equal. apply IH; lia.
Qed.

Lemma fit_transform_inv sqrt X sc Xs :
  stats.fit_transform sqrt X = Ok (sc, Xs) ->
  Xs = stats.transform_columns (stats.mean_ sc) (stats.scale_ sc) (columns X) /\
  length (stats.mean_ sc) = length (columns X) /\
  length (stats.scale_ sc) = length (columns X).
Proof.
  unfold stats.fit_transform, stats.fit.
  destruct (_ || _); [discriminate|].
  destruct (negb _); [discriminate|].
  simpl. unfold stats.transform. simpl. rewrite length_map, Nat.eqb_refl. simpl.
  intros [= <- <-]. simpl. now rewrite !length_map.
Qed.

Lemma reindex_self (s : Series) :
  NoDup (map fst s) -> data_collector.reindex (map fst s) s = map snd s.
Proof.
  unfold data_collector.reindex. rewrite map_map.
  intros Hnd. apply map_ext_in. intros [d x] Hin. simpl.
  assert (Hd : In d (map fst s)) by (apply in_map_iff; now exists (d, x)).
  destruct (filter_label_single s d Hnd Hd) as [b Hb].
  assert (Hx : b = x).
  { assert (In (d, x) (filter (fun r => Z.eqb (fst r) d) s)).
    { apply filter_In. split; [assumption|]. apply Z.eqb_refl. }
    rewrite Hb in H. destruct H as [[= ->]|[]]. reflexivity. }
  subst b. clear Hin Hd Hnd.
  induction s as [|[e y] s IH]; simpl in *; [discriminate|].
  destruct (Z.eqb_spec e d) as [->|Hne].
  - now injection Hb as ->.
  - now apply IH.
Qed.

Lemma reindex_labels (y : list (Z * Z)) idx :
  map fst y = idx -> NoDup idx ->
  data_collector.reindex
    idx (map (fun r => (fst r, data_collector.int_cell (snd r))) y)
  = map (fun r => data_collector.int_cell (snd r)) y.
Proof.
  intros <- Hnd.
  assert (E : map fst y
              = map fst (map (fun r : Z * Z =>
                                (fst r, data_collector.int_cell (snd r))) y))
    by now rewrite map_map.
  rewrite E at 1. rewrite reindex_self.
  - now rewrite map_map.
  - now rewrite <- E.
Qed.

Lemma filter_features (v : list cell) (cols : list (string * list cell)) :
  ~ In "target"%string (map fst cols) ->
  filter (fun c => negb (String.eqb (fst c) "target")) (set_column "target" v cols)
  = cols.
Proof.
  intros H. rewrite set_column_fresh by assumption.
  rewrite filter_app, filter_all; simpl; [apply app_nil_r|].
  intros c Hc. apply negb_true_iff. apply String.eqb_neq. intros E.
  apply H. rewrite <- E. now apply in_map.
Qed.

Lemma prepare_training_data_inv sqrt df t :
  data_collector.prepare_training_data sqrt df = Ok t ->
  exists labels sc,
    data_collector.target_frame df = Ok labels /\
    let df_pct := notions.feature_table df false [] in
    let clean := intersection (index df_pct) (map fst labels) in
    let X := df_loc clean df_pct in
    let Xs := mkDF (index X)
                   (data_collector.with_values
                      (columns X)
                      (stats.transform_columns (stats.mean_ sc) (stats.scale_ sc)
                                               (columns X))) in
    length (stats.mean_ sc) = length (columns X) /\
    length (stats.scale_ sc) = length (columns X) /\
    data_collector.X_data t = X /\
    data_collector.y_data t = loc clean labels /\
    data_collector.X_scaled_df t = Xs /\
    data_collector.prepared_data t
    = mkDF (index Xs)
           (set_column "target"
              (data_collector.reindex
                 (index Xs)
                 (map (fun r => (fst r, data_collector.int_cell (snd r)))
                      (loc clean labels)))
              (columns Xs)).
Proof.
  unfold data_collector.prepare_training_data.
  change (data_collector.rename_change (dropna (pct_change df)))
    with (notions.feature_table df false []).
  destruct (data_collector.target_frame df) as [labels|]; simpl; [|discriminate].
  destruct (stats.fit_transform _ _) as [[sc Xs]|] eqn:Ef; simpl; [|discriminate].
  apply fit_transform_inv in Ef as (-> & Hm & Hs).
  intros [= <-]. exists labels, sc. simpl. repeat split; auto.
Qed.

Lemma target_frame_binary df labels r :
  data_collector.target_frame df = Ok labels -> In r labels ->
  snd r = 0%Z \/ snd r = 1%Z.
Proof.
  unfold data_collector.target_frame. destruct (getitem df "BIST100") as [bist|];
    simpl; [|discriminate].
  intros [= <-] Hin. destruct r as [d z]. apply in_combine_r in Hin. simpl.
  revert Hin. generalize (tl bist) (removelast bist).
  induction l as [|a l IH]; intros [|b l']; simpl; try tauto.
  intros [<-|H]; [destruct (cell_gtb a b); auto|eauto].
Qed.

End Handover.

(** X19. What the collector writes is what the trainer reads.  When the
    dates are distinct and [prepare_training_data] succeeds, the prepared
    file holds the standardised feature columns, named after the series
    with [_change] appended and in the order of the raw table, followed by
    one [target] column; reading it back with the trainer's loader gives
    exactly the standardised feature table and, row by row, the labels,
    each 0 or 1. *)
Theorem X19_trainer_reads_what_the_collector_wrote
        (sqrt : Q -> Q) (df : pd.DataFrame) (t : data_collector.training_data)
        (disk : io.fs) :
  NoDup (pd.index df) ->
  data_collector.prepare_training_data sqrt df = pd.Ok t ->
  let disk' := snd (data_collector.save_prepared_data
                      (data_collector.prepared_data t) disk) in
  model.load_Xy model.default_data_file disk'
  = (pd.Ok (data_collector.X_scaled_df t,
            map (fun r => data_collector.int_cell (snd r))
                (data_collector.y_data t)), disk') /\
  pd.column_names (data_collector.X_scaled_df t)
  = map (fun n => (n ++ "_change")%string) (pd.column_names df) /\
  pd.column_names (data_collector.prepared_data t)
  = pd.column_names (data_collector.X_scaled_df t) ++ ["target"%string] /\
  pd.index (data_collector.prepared_data t)
  = map fst (data_collector.y_data t) /\
  (forall r, In r (data_collector.y_data t) -> snd r = 0%Z \/ snd r = 1%Z).
Proof.
  intros Hnd Hp. cbv zeta.
  destruct (prepare_training_data_inv _ _ Hp)
    as (labels & sc & Ht & Hm & Hs & HX & Hy & HXs & Hprep).
  cbv zeta in *.
  destruct (target_frame_keys _ Ht Hnd) as [Hlnd Hlin].
  destruct (feature_table_facts df false [] Hnd) as [Hfnd Hfwf].
  set (df_pct := notions.feature_table df false []) in *.
  set (clean := pd.intersection (pd.index df_pct) (map fst labels)) in *.
  set (X := pd.df_loc clean df_pct) in *.
  assert (Hclean : forall d, In d clean ->
                             In d (pd.index df_pct) /\ In d (map fst labels)).
  { intros d. apply in_intersection. }
  assert (HiX : pd.index X = clean).
  { apply index_df_loc; [assumption|]. intros d Hd. now apply Hclean. }
  assert (Hiy : map fst (pd.loc clean labels) = clean).
  { apply loc_keys; [assumption|]. intros d Hd. now apply Hclean. }
  assert (Hnames : map fst (data_collector.with_values
                              (pd.columns X)
                              (stats.transform_columns (stats.mean_ sc)
                                                       (stats.scale_ sc)
                                                       (pd.columns X)))
                   = map (fun n => (n ++ "_change")%string) (pd.column_names df)).
  { rewrite with_values_names by assumption.
    change (map fst (pd.columns X)) with (pd.column_names X).
    unfold X, df_pct, notions.feature_table.
    now rewrite column_names_df_loc, column_names_rename,
      column_names_change_table. }
  assert (Hfresh : ~ In "target"%string
                     (map fst (data_collector.with_values
                                 (pd.columns X)
                                 (stats.transform_columns (stats.mean_ sc)
                                                          (stats.scale_ sc)
                                                          (pd.columns X))))).
  { rewrite Hnames. intros Hin. apply in_map_iff in Hin as (n & E & _).
    exact (not_target n E). }
  assert (Htarget : data_collector.reindex
                      (pd.index X)
                      (map (fun r => (fst r, data_collector.int_cell (snd r)))
                           (pd.loc clean labels))
                    = map (fun r => data_collector.int_cell (snd r))
                          (pd.loc clean labels)).
  { apply reindex_labels; [congruence|]. rewrite HiX. apply NoDup_unique. }
  split; [|split; [|split; [|split]]].
  - unfold data_collector.save_prepared_data, io.mbind, io.to_csv, io.ret. simpl.
    unfold model.load_Xy, io.mbind, io.read_csv, io.lift, io.ret.
    change model.default_data_file with data_collector.prepared_path.
    rewrite lookup_set_column_eq. rewrite Hprep, HXs, Hy.
    unfold pd.getitem. cbn [pd.columns pd.index].
    rewrite lookup_set_column_eq, Htarget.
    now rewrite filter_features.
  - rewrite HXs. exact Hnames.
  - rewrite Hprep, HXs. unfold pd.column_names. cbn [pd.columns pd.index].
    now rewrite column_names_set_fresh.
  - rewrite Hprep, Hy. cbn [pd.index]. congruence.
  - intros r Hr. rewrite Hy in Hr. apply in_loc in Hr.
    eapply target_frame_binary; eassumption.
Qed.

(* ===================================================================== *)
(** * Further properties: the cache of [get_data] *)
(* ===================================================================== *)

Section Caching.
Import pd io spec.

(** The fallbacks of [get_data] return the table they cache. *)
Lemma fallback_caches yf start stop d :
  exists full,
    try_except
      (match data_collector.download_data yf start stop data_collector.get_symbols with
       | Some df => data_collector.save_raw_data df ;;; ret df
       | None => raise data.failed
       end)
      (fun _ => data.manual_download yf start stop data_collector.get_symbols) d
    = (Ok full, set_column data_collector.raw_path (Csv full) d).
Proof.
  unfold try_except.
  destruct (data_collector.download_data yf start stop data_collector.get_symbols)
    as [df|]; eexists; reflexivity.
Qed.

End Caching.

(** X20. Without a cached file [get_data] leaves one behind: whatever the
    provider answers, the call returns a table, the raw file then holds a
    table of which the returned one is either the whole or the part within
    the requested dates, and any later call for the same dates is answered
    from that file, with the part within the requested dates. *)
Theorem X20_get_data_fills_the_cache
        (yf_download : data_collector.provider) (sqrt : Q -> Q)
        (now start stop : Z) (disk : io.fs) :
  pd.lookup data_collector.raw_path disk = None ->
  exists df full disk',
    data.get_data yf_download sqrt now start stop disk = (pd.Ok df, disk') /\
    pd.lookup data_collector.raw_path disk' = Some (io.Csv full) /\
    (df = full \/ df = pd.between start stop full) /\
    forall yf_download' sqrt' now',
      data.get_data yf_download' sqrt' now' start stop disk'
      = (pd.Ok (pd.between start stop full), disk').
Proof.
  intros Hnone.
  assert (Hgoal : exists df full disk',
             data.get_data yf_download sqrt now start stop disk = (pd.Ok df, disk') /\
             pd.lookup data_collector.raw_path disk' = Some (io.Csv full) /\
             (df = full \/ df = pd.between start stop full)).
  { unfold data.get_data.
    unfold io.mbind at 1, io.exists_ at 1. rewrite Hnone.
    unfold io.try_except at 1. unfold io.mbind at 1.
    rewrite collect_data_run.
    destruct (data_collector.download_data yf_download _ now
                                           data_collector.get_symbols) as [df0|].
    - cbv zeta.
      destruct (data_collector.prepare_training_data sqrt df0) as [t|e].
      + exists (pd.between start stop df0), df0. eexists.
        split; [reflexivity|]. split; [|now right].
        rewrite !lookup_set_column_ne by discriminate.
        apply lookup_set_column_eq.
      + destruct (fallback_caches yf_download start stop
                    (pd.set_column data_collector.raw_path (io.Csv df0) disk))
          as [full Hf].
        exists full, full. eexists. split; [exact Hf|].
        split; [apply lookup_set_column_eq|now left].
    - unfold io.ret at 1. unfold io.raise at 1.
      destruct (fallback_caches yf_download start stop disk) as [full Hf].
      exists full, full. eexists. split; [exact Hf|].
      split; [apply lookup_set_column_eq|now left]. }
  destruct Hgoal as (df & full & disk' & Hrun & Hfile & Hdf).
  exists df, full, disk'. repeat split; try assumption.
  intros yf' sqrt' now'. now apply get_data_cached.
Qed.

(** X21. When [collect_data] returns data, it was called with
    [save=True], the BIST100 symbol was among the retrieved ones, and the
    three files hold what is returned: the raw file the raw table, the
    prepared file the prepared table, and the metadata pickle (the returned
    path) the names of the raw columns and of the feature columns, which are
    the raw names with [_change] appended. *)
Theorem X21_collected_files_hold_what_is_returned
        (yf_download : data_collector.provider) (sqrt : Q -> Q) (now : Z)
        (years : Q) (save : bool) (disk disk' : io.fs)
        (df prepared : pd.DataFrame) (path : string) :
  data_collector.collect_data yf_download sqrt now years save disk
  = (pd.Ok (Some (df, prepared, path)), disk') ->
  save = true /\
  path = data_collector.metadata_path /\
  pd.lookup data_collector.raw_path disk' = Some (io.Csv df) /\
  pd.lookup data_collector.prepared_path disk' = Some (io.Csv prepared) /\
  pd.lookup data_collector.metadata_path disk'
  = Some (io.MetadataPkl
            (pd.column_names df)
            (map (fun n => (n ++ "_change")%string) (pd.column_names df))) /\
  In "BIST100"%string (pd.column_names df) /\
  pd.column_names df
  = spec.retrieved yf_download (now - Qfloor (365 * years))%Z now
                   data_collector.get_symbols.
Proof.
  rewrite collect_data_run.
  destruct (data_collector.download_data yf_download _ now
                                         data_collector.get_symbols)
    as [df0|] eqn:Ed; [|discriminate].
  cbv zeta.
  destruct (data_collector.prepare_training_data sqrt df0) as [t|e] eqn:Ep;
    [|discriminate].
  destruct save; [|discriminate].
  intros [= <- <- <- <-].
  destruct (prepare_training_data_inv _ _ Ep)
    as (labels & sc & Ht & _ & _ & HX & _).
  cbv zeta in HX.
  split; [reflexivity|]. split; [reflexivity|]. split.
  { rewrite !lookup_set_column_ne by discriminate. apply lookup_set_column_eq. }
  split.
  { rewrite lookup_set_column_ne by discriminate. apply lookup_set_column_eq. }
  split.
  { rewrite lookup_set_column_eq. f_equal. f_equal. rewrite HX.
    unfold notions.feature_table.
    now rewrite column_names_df_loc, column_names_rename,
      column_names_change_table. }
  split.
  { unfold data_collector.target_frame, pd.getitem in Ht.
    destruct (pd.lookup "BIST100"%string (pd.columns df0)) as [b|] eqn:Eb;
      [|discriminate].
    apply lookup_In in Eb. now apply (in_map fst) in Eb. }
  apply (@download_data_Some yf_download _ now _ _ symbols_NoDup Ed).
Qed.

(* ===================================================================== *)
(** * Further properties: the values of the lag columns *)
(* ===================================================================== *)

Section LagValues.
Import pd spec.

Lemma add_lag_features_iloc df_pct lags :
  well_formed df_pct -> no_missing df_pct ->
  data.external_cols df_pct <> [] -> lags <> [] ->
  data.add_lag_features df_pct lags
  = iloc (seq (Nat.min (list_max lags) (nrows df_pct))
              (nrows df_pct - list_max lags))
         (mkDF (index df_pct) (data.with_lag_columns df_pct lags)).
Proof.
  intros Hwf Hfull Hext Hlags. unfold data.add_lag_features, dropna.
  cbn [columns nrows index].
  rewrite (@filter_seq_from _ (list_max lags) (length (index df_pct)));
    [reflexivity|].
  intros i Hi. now rewrite (@row_has_na_with_lags df_pct lags Hwf Hfull i Hext Hlags Hi).
Qed.

End LagValues.

(** X22. In the table [add_lag_features] returns for a change table
    without gaps, the rows are the rows of the change table from row
    [max(lags)] on, and the lag column of an external column and a lag holds,
    in each row, the value the column had [lag] rows earlier. *)
Theorem X22_lag_column_holds_earlier_values
        (df_pct : pd.DataFrame) (lags : list nat) (col : string) (l : nat)
        (v : list pd.cell) :
  spec.well_formed df_pct -> spec.no_missing df_pct ->
  pd.lookup col (pd.columns df_pct) = Some v ->
  String.prefix "BIST100" col = false ->
  In l lags ->
  let m := list_max lags in
  pd.index (data.add_lag_features df_pct lags) = skipn m (pd.index df_pct) /\
  exists w,
    pd.lookup (data.lag_col_name col l)
              (pd.columns (data.add_lag_features df_pct lags)) = Some w /\
    length w = pd.nrows df_pct - m /\
    forall i, i < pd.nrows df_pct - m ->
              nth i w pd.NaN = nth (m + i - l) v pd.NaN.
Proof.
  intros Hwf Hfull Hv Hpre Hl m.
  assert (Hext : data.external_cols df_pct <> []).
  { intros E.
    assert (Hin : In col (data.external_cols df_pct)).
    { unfold data.external_cols. apply filter_In. split.
      - apply lookup_In in Hv. now apply (in_map fst) in Hv.
      - now rewrite Hpre. }
    rewrite E in Hin. exact Hin. }
  assert (Hlags : lags <> []) by (intros ->; exact Hl).
  assert (Hin : In col (data.external_cols df_pct)).
  { unfold data.external_cols. apply filter_In. split.
    - apply lookup_In in Hv. now apply (in_map fst) in Hv.
    - now rewrite Hpre. }
  assert (Hlen : length v = pd.nrows df_pct).
  { unfold spec.well_formed in Hwf. rewrite Forall_forall in Hwf.
    exact (Hwf _ (lookup_In _ _ Hv)). }
  pose proof (list_max_ge _ _ Hl) as Hle. fold m in Hle.
  rewrite (add_lag_features_iloc Hwf Hfull Hext Hlags). fold m.
  split.
  - unfold pd.iloc, pd.take_rows. cbn [pd.index].
    destruct (Nat.le_gt_cases m (pd.nrows df_pct)) as [Hmn|Hmn].
    + rewrite Nat.min_l by assumption. apply map_nth_seq_skipn.
    + replace (pd.nrows df_pct - m) with 0 by lia. simpl.
      symmetry. apply skipn_all2. unfold pd.nrows in Hmn. lia.
  - assert (Hlook : pd.lookup (data.lag_col_name col l)
                              (data.with_lag_columns df_pct lags)
                    = Some (pd.shift l v)).
    { rewrite with_lag_columns_pairs.
      apply (@fold_step_lookup df_pct _ _ (col, l) v Hv). left.
      apply in_lag_pairs. simpl. split; assumption. }
    exists (pd.take_rows pd.NaN
              (seq (Nat.min m (pd.nrows df_pct)) (pd.nrows df_pct - m))
              (pd.shift l v)).
    split; [|split].
    + unfold pd.iloc. cbn [pd.columns].
      rewrite (lookup_map_values (pd.take_rows pd.NaN _)), Hlook. reflexivity.
    + now rewrite take_rows_length, length_seq.
    + intros i Hi.
      rewrite nth_take_rows by (rewrite length_seq; lia).
      rewrite seq_nth by lia. rewrite Nat.min_l by lia.
      rewrite shift_nth by lia.
      destruct (Nat.ltb_spec (m + i) l); [lia|reflexivity].
Qed.

(* ===================================================================== *)
(** * Further properties: the dates of a download *)
(* ===================================================================== *)

Section Merge.
Import pd spec.

Lemma reindex_length idx s : length (data_collector.reindex idx s) = length idx.
Proof. unfold data_collector.reindex. apply length_map. Qed.

Lemma merge_loop_index data_frames : forall df,
  index df <> [] -> well_formed df ->
  let merged :=
    fold_left (fun df '(name, series) => data_collector.setitem_series df name series)
              data_frames df in
  index merged = index df /\ well_formed merged.
Proof.
  induction data_frames as [|[name s] rest IH]; intros df Hidx Hwf; simpl.
  - auto.
  - assert (E : data_collector.setitem_series df name s
                = mkDF (index df)
                       (set_column name (data_collector.reindex (index df) s)
                                   (columns df))).
    { unfold data_collector.setitem_series.
      destruct (index df); [congruence|reflexivity]. }
    rewrite E.
    destruct (IH (mkDF (index df)
                       (set_column name (data_collector.reindex (index df) s)
                                   (columns df)))) as [Hi Hw].
    + exact Hidx.
    + unfold well_formed, nrows in *. cbn [columns index].
      apply set_column_Forall; [|exact Hwf]. simpl. apply reindex_length.
    + split; [exact Hi|exact Hw].
Qed.

Lemma well_formed_fill_gaps df :
  well_formed df -> well_formed (data_collector.fill_gaps df).
Proof.
  intros Hwf. unfold data_collector.fill_gaps. destruct (any_na df); [|assumption].
  unfold well_formed, df_bfill, df_ffill, nrows in *. cbn [columns index].
  rewrite map_map. apply Forall_map. revert Hwf. apply Forall_impl.
  intros c Hc. simpl. unfold ffill. now rewrite bfill_length, ffill_from_length.
Qed.

Lemma index_fill_gaps df : index (data_collector.fill_gaps df) = index df.
Proof. unfold data_collector.fill_gaps. now destruct (any_na df). Qed.

End Merge.

(** X23. The table [download_data] returns takes its dates from the first
    retrieved symbol: its index is the index of that symbol's series, every
    column has one value per such date, and dates that only later symbols
    have do not appear. *)
Theorem X23_download_follows_the_first_series
        (yf_download : data_collector.provider) (start stop : Z)
        (symbols : list (string * string)) (df : pd.DataFrame) :
  NoDup (map fst symbols) ->
  data_collector.download_data yf_download start stop symbols = Some df ->
  exists name s rest,
    flat_map (spec.kept yf_download start stop) symbols = (name, s) :: rest /\
    s <> [] /\
    pd.index df = pd.s_index s /\
    pd.nrows df = length s /\
    spec.well_formed df.
Proof.
  intros Hnd. unfold data_collector.download_data.
  rewrite fetch_all_kept by assumption.
  pose proof (kept_not_empty yf_download start stop symbols) as Hne.
  destruct (flat_map (spec.kept yf_download start stop) symbols)
    as [|[name s] rest]; [discriminate|].
  cbn [length Nat.eqb]. intros [= <-]. exists name, s, rest.
  inversion Hne as [|? ? Hs _]; subst. simpl in Hs.
  split; [reflexivity|]. split; [assumption|].
  assert (Em : data_collector.merge_frames ((name, s) :: rest)
               = fold_left (fun df '(name, series) =>
                              data_collector.setitem_series df name series)
                           rest
                           (pd.mkDF (pd.s_index s) [(name, pd.s_values s)]))
    by reflexivity.
  rewrite Em.
  destruct (@merge_loop_index rest (pd.mkDF (pd.s_index s) [(name, pd.s_values s)]))
    as [Hi Hw].
  - unfold pd.s_index. destruct s; [congruence|discriminate].
  - unfold spec.well_formed, pd.nrows. cbn [pd.columns pd.index].
    constructor; [|constructor].
    cbn [snd]. unfold pd.s_values, pd.s_index. now rewrite !length_map.
  - cbv zeta in Hi, Hw. cbn [pd.index] in Hi.
    unfold pd.nrows. rewrite index_fill_gaps, Hi.
    split; [reflexivity|]. split.
    + unfold pd.s_index. apply length_map.
    + now apply well_formed_fill_gaps.
Qed.

(* ===================================================================== *)
(** * The further properties at concrete inputs *)
(* ===================================================================== *)

(** X2 on a disk that caches the six-day table: days 2 to 5 come back. *)
Lemma X2_witness_cached_prices :
  pd.lookup data_collector.raw_path sample.cached_disk
  = Some (io.Csv example.prices) /\
  data.get_data example.nothing example.sqrt0 0 2 5 sample.cached_disk
  = (pd.Ok (pd.between 2 5 example.prices), sample.cached_disk) /\
  pd.index (pd.between 2 5 example.prices) = [2; 3; 4; 5]%Z.
Proof.
  split; [reflexivity|].
  split; [|reflexivity].
  exact (proj1 (@X2_get_data_answers_from_cache
                  example.nothing example.sqrt0 0%Z 2%Z 5%Z sample.cached_disk
                  example.prices eq_refl)).
Defined.

(** X4 on a table with gold only. *)
Lemma X4_witness_gold_only :
  pd.lookup "BIST100"%string (pd.columns sample.no_target) = None /\
  data_collector.prepare_training_data example.sqrt0 sample.no_target
  = pd.Raise (pd.KeyError "BIST100").
Proof.
  split; [reflexivity|].
  exact (proj1 (proj2 (@X4_missing_target_column_raises
                         example.sqrt0 sample.no_target eq_refl))).
Defined.

(** X5 on a table with gaps: the gold column ends up without a gap. *)
Lemma X5_witness_gappy_gold :
  exists w,
    pd.lookup "Gold"%string (pd.columns (data_collector.fill_gaps sample.gappy))
    = Some w /\
    length w = 4 /\
    Forall (fun x => pd.isna x = false) w.
Proof.
  destruct (@X5_fill_gaps_closes_every_gap
              sample.gappy "Gold"
              [pd.NaN; example.price 5; pd.NaN; example.price 7] eq_refl)
    as (_ & _ & w & Hw & Hlen & _ & Hfull & _).
  exists w. split; [exact Hw|]. split; [exact Hlen|].
  apply Hfull. reflexivity.
Defined.


(** X11 on the six-day table, viewed over the last month. *)
Lemma X11_witness_prices :
  NoDup (pd.column_names example.prices) /\
  exists plot view,
    visualization.prepare_display_data example.prices "Son 1 Ay" true
    = pd.Ok (plot, view) /\
    pd.index plot = pd.index view.
Proof.
  assert (Hnd : NoDup (pd.column_names example.prices)).
  { simpl. repeat constructor; simpl; intros H;
      repeat (destruct H as [H|H]; [discriminate H|]); exact H. }
  assert (Hwf : spec.well_formed example.prices) by repeat constructor.
  assert (Hrows : 0 < pd.nrows example.prices) by (vm_compute; lia).
  split; [exact Hnd|].
  destruct (@X11_normalised_columns_are_rebased example.prices "Son 1 Ay"
              Hnd Hwf Hrows) as (plot & view & Hrun & _ & Hidx & _).
  exists plot, view. split; [exact Hrun|exact Hidx].
Defined.

(** X12 on a table with a column and no row. *)
Lemma X12_witness_no_rows :
  pd.nrows sample.no_rows = 0 /\
  visualization.prepare_display_data sample.no_rows "Son 1 Ay" true
  = pd.Raise (pd.IndexError "single positional indexer is out-of-bounds").
Proof.
  assert (Hc : pd.columns sample.no_rows <> []) by discriminate.
  assert (Hwf : spec.well_formed sample.no_rows) by repeat constructor.
  split; [reflexivity|].
  exact (proj1 (@X12_normalising_an_empty_view_raises
                  sample.no_rows "Son 1 Ay" Hc Hwf eq_refl)).
Defined.

(** X13 after a collection on an empty disk. *)
Lemma X13_witness_empty_disk :
  pd.lookup dashboard.metadata_txt ([] : io.fs) = None /\
  dashboard.load_prepared_data sample.no_lines (snd sample.collected_run)
  = (pd.Ok None, snd sample.collected_run).
Proof.
  split; [reflexivity|].
  exact (proj2 (@X13_collector_does_not_write_the_text_metadata
                  sample.bist_and_gold example.sqrt0 10%Z 1%Q true []
                  sample.no_lines eq_refl)).
Defined.

(** X15 on the six-day table: the four samples are the days 2 to 5. *)
Lemma X15_witness_prices :
  data.prepare_data example.sqrt0 example.prices false []
  = pd.Ok sample.prepared_prices /\
  pd.index (data.X_data sample.prepared_prices)
  = map fst (data.y_data sample.prepared_prices) /\
  length (data.y_values sample.prepared_prices) = 4.
Proof.
  assert (Hnd : NoDup (pd.index example.prices)).
  { simpl. repeat constructor; simpl; intros H;
      repeat (destruct H as [H|H]; [discriminate H|]); exact H. }
  assert (Hp : data.prepare_data example.sqrt0 example.prices false []
               = pd.Ok sample.prepared_prices) by (vm_compute; reflexivity).
  split; [exact Hp|].
  destruct (@X15_features_and_labels_are_aligned
              example.sqrt0 example.prices false [] sample.prepared_prices
              Hnd Hp) as (Hi & _).
  split; [exact Hi|]. vm_compute. reflexivity.
Defined.

(** X16 on the six-day table: gold doubles every day. *)
Lemma X16_witness_gold :
  spec.PriceTable example.prices /\
  pd.index (data.change_table example.prices) = [2; 3; 4; 5; 6]%Z.
Proof.
  assert (Hpt : spec.PriceTable example.prices).
  { constructor.
    - discriminate.
    - repeat constructor.
    - simpl. repeat split; lia.
    - repeat constructor. }
  split; [exact Hpt|].
  exact (proj1 (@X16_change_table_holds_the_daily_changes
                  example.prices "Gold"
                  (map example.price [1; 2; 4; 8; 16; 32]%Z) Hpt eq_refl)).
Defined.

(** X17 on the six-day table. *)
Lemma X17_witness_prices :
  spec.PriceTable example.prices /\
  exists p,
    data.prepare_data example.sqrt0 example.prices false [] = pd.Ok p /\
    pd.index (data.X_data p) = [2; 3; 4; 5]%Z.
Proof.
  assert (Hpt : spec.PriceTable example.prices).
  { constructor.
    - discriminate.
    - repeat constructor.
    - simpl. repeat split; lia.
    - repeat constructor. }
  assert (Hrows : 3 <= pd.nrows example.prices) by (vm_compute; lia).
  split; [exact Hpt|].
  destruct (@X17_price_table_is_prepared
              example.sqrt0 example.prices []
              (map example.price [1; 2; 4; 8; 16; 48]%Z) Hpt eq_refl Hrows)
    as (p & Hp & Hi & _).
  exists p. split; [exact Hp|exact Hi].
Defined.

(** X18 on a table of two days. *)
Lemma X18_witness_two_days :
  pd.nrows sample.two_days <= 2 /\
  exists msg,
    data_collector.prepare_training_data example.sqrt0 sample.two_days
    = pd.Raise (pd.ValueError msg).
Proof.
  assert (Hnd : NoDup (pd.index sample.two_days)).
  { simpl. repeat constructor; simpl; intros H;
      repeat (destruct H as [H|H]; [discriminate H|]); exact H. }
  assert (Hrows : pd.nrows sample.two_days <= 2) by (vm_compute; lia).
  split; [exact Hrows|].
  destruct (@X18_two_days_are_not_enough
              example.sqrt0 sample.two_days
              (map example.price [10; 12]%Z) Hnd eq_refl Hrows)
    as (msg & _ & Ht).
  exists msg. exact Ht.
Defined.

(** X19 on the six-day table, written to an empty disk. *)
Lemma X19_witness_prices :
  data_collector.prepare_training_data example.sqrt0 example.prices
  = pd.Ok sample.training_prices /\
  pd.column_names (data_collector.prepared_data sample.training_prices)
  = ["BIST100_change"; "Gold_change"; "Oil_change"; "USDTRY_change";
     "target"]%string.
Proof.
  assert (Hnd : NoDup (pd.index example.prices)).
  { simpl. repeat constructor; simpl; intros H;
      repeat (destruct H as [H|H]; [discriminate H|]); exact H. }
  assert (Hp : data_collector.prepare_training_data example.sqrt0 example.prices
               = pd.Ok sample.training_prices) by (vm_compute; reflexivity).
  split; [exact Hp|].
  destruct (@X19_trainer_reads_what_the_collector_wrote
              example.sqrt0 example.prices sample.training_prices []
              Hnd Hp) as (_ & Hn & Hpn & _).
  rewrite Hpn, Hn. reflexivity.
Defined.

(** X20 on an empty disk with a provider that has nothing. *)
Lemma X20_witness_empty_disk :
  pd.lookup data_collector.raw_path ([] : io.fs) = None /\
  exists df full disk',
    data.get_data example.nothing example.sqrt0 10 0 10 [] = (pd.Ok df, disk') /\
    pd.lookup data_collector.raw_path disk' = Some (io.Csv full).
Proof.
  split; [reflexivity|].
  destruct (@X20_get_data_fills_the_cache
              example.nothing example.sqrt0 10%Z 0%Z 10%Z [] eq_refl)
    as (df & full & disk' & Hrun & Hfile & _).
  exists df, full, disk'. split; [exact Hrun|exact Hfile].
Defined.

(** X21 on a collection with BIST100 and gold. *)
Lemma X21_witness_bist_and_gold :
  sample.collected_run
  = (pd.Ok (Some (sample.collected_df, sample.collected_prepared,
                  data_collector.metadata_path)),
     snd sample.collected_run) /\
  pd.lookup data_collector.raw_path (snd sample.collected_run)
  = Some (io.Csv sample.collected_df) /\
  In "BIST100"%string (pd.column_names sample.collected_df).
Proof.
  assert (H : sample.collected_run
              = (pd.Ok (Some (sample.collected_df, sample.collected_prepared,
                              data_collector.metadata_path)),
                 snd sample.collected_run)) by (vm_compute; reflexivity).
  split; [exact H|].
  destruct (@X21_collected_files_hold_what_is_returned
              sample.bist_and_gold example.sqrt0 10%Z 1%Q true []
              (snd sample.collected_run) sample.collected_df
              sample.collected_prepared data_collector.metadata_path H)
    as (_ & _ & Hraw & _ & _ & Hb & _).
  split; [exact Hraw|exact Hb].
Defined.

(** X22 on a four-row change table with lags 1 and 2. *)
Lemma X22_witness_changes :
  spec.well_formed example.changes /\ spec.no_missing example.changes /\
  pd.index (data.add_lag_features example.changes [1; 2]) = [4; 5]%Z.
Proof.
  assert (Hwf : spec.well_formed example.changes) by repeat constructor.
  assert (Hfull : spec.no_missing example.changes) by repeat constructor.
  assert (Hl : In 1 [1; 2]) by (simpl; auto).
  split; [exact Hwf|]. split; [exact Hfull|].
  exact (proj1 (@X22_lag_column_holds_earlier_values
                  example.changes [1; 2] "Gold_change" 1
                  (map example.price [5; 6; 7; 8]%Z) Hwf Hfull eq_refl eq_refl Hl)).
Defined.

(** X23 with a provider that has gold on three days and oil on one. *)
Lemma X23_witness_gold_and_oil :
  data_collector.download_data example.gold_and_oil 0 10 data_collector.get_symbols
  = Some sample.downloaded /\
  pd.nrows sample.downloaded = 3 /\
  spec.well_formed sample.downloaded.
Proof.
  assert (H : data_collector.download_data example.gold_and_oil 0 10
                                           data_collector.get_symbols
              = Some sample.downloaded) by (vm_compute; reflexivity).
  split; [exact H|].
  destruct (@X23_download_follows_the_first_series
              example.gold_and_oil 0%Z 10%Z data_collector.get_symbols
              sample.downloaded symbols_NoDup H)
    as (name & s & rest & Hk & _ & _ & Hn & Hwf).
  split; [|exact Hwf].
  rewrite Hn. vm_compute in Hk. injection Hk as _ <- _. reflexivity.
Defined.
